(** * EduSync client logic: request helper, formatters, session, dashboards

  A shallow embedding of the client-side logic of the EduSync classroom
  application: the [apiFetch] request helper and the timestamp formatters
  (duplicated verbatim in the student and the teacher dashboard), the
  [login] operation of the authentication context, and the dashboard
  loaders and mutation handlers built on [apiFetch].

  What the browser provides (JSON, Date, Number formatting, the network)
  is kept abstract in the classes [Runtime] and [Backend]; the
  application code is written against them, as the TypeScript is. *)

From Stdlib Require Import ZArith String Ascii List Bool Lia.
From Stdlib Require Import Numbers.DecimalString.
From stdpp Require Import gmap strings.

Import ListNotations.
Local Open Scope Z_scope.

(** ** JavaScript values *)

(** The values [JSON.parse] produces.  Numbers stay abstract ([num]): the
  code only ever tests them for truthiness and interpolates them in
  template literals.  An object is its list of own properties in source
  order; a repeated key is resolved in favour of the last occurrence, as
  [JSON.parse] does. *)
#[warnings="-register-all"]
Inductive json (num : Type) : Type :=
  | JNull
  | JBool (b : bool)
  | JNum (n : num)
  | JString (s : string)
  | JArray (items : list (json num))
  | JObject (props : list (string * json num)).

Arguments JNull {num}.
Arguments JBool {num} b.
Arguments JNum {num} n.
Arguments JString {num} s.
Arguments JArray {num} items.
Arguments JObject {num} props.

(** A JavaScript value as the handlers see it: [None] is [undefined]. *)
Definition jsval (num : Type) : Type := option (json num).

(** What the code throws and catches.  Every thrown value on the modelled
  paths is an [Error] instance (the ones the engine raises included), so
  only the [message] is kept. *)
Record exn : Type := Error { message : string }.

(** The double-quote character, for the JSON texts and alerts that need it. *)
Definition dquote : ascii := ascii_of_nat 34.
Definition newline : ascii := ascii_of_nat 10.

(** [String(n)] for an integral number: status codes, rounded differences. *)
Definition show_Z (z : Z) : string := NilZero.string_of_int (Z.to_int z).

(** [!s] is false exactly for a non-empty string. *)
Definition str_truthy (s : string) : bool :=
  match s with
  | EmptyString => false
  | String _ _ => true
  end.

(** [s || d] on strings. *)
Definition str_or (s d : string) : string := if str_truthy s then s else d.

(** A parameter typed [string] that a caller may leave [undefined] or
  [null]: [None] stands for both. *)
Definition opt_truthy (s : option string) : bool :=
  match s with
  | Some s => str_truthy s
  | None => false
  end.

(** [hay.includes(needle)]: case-sensitive substring search. *)
Fixpoint includes (hay needle : string) : bool :=
  if String.prefix needle hay then true
  else match hay with
     | EmptyString => false
     | String _ rest => includes rest needle
     end.

(** [xs.join(sep)] on strings. *)
Fixpoint join (sep : string) (xs : list string) : string :=
  match xs with
  | [] => EmptyString
  | [x] => x
  | x :: rest => x +:+ sep +:+ join sep rest
  end.

Fixpoint lookup_last {A : Type} (k : string) (props : list (string * A)) : option A :=
  match props with
  | [] => None
  | (k', v) :: rest =>
    match lookup_last k rest with
    | Some v' => Some v'
    | None => if String.eqb k k' then Some v else None
    end
  end.

(** ** The runtime *)

(** Built-ins of the JavaScript engine the code calls. *)
Class Runtime (num : Type) : Type := {
(** ToBoolean on a Number: false at [0], [-0] and [NaN]. *)
  num_truthy : num -> bool;
(** Number::toString. *)
  num_toString : num -> string;
(** The Number an integer denotes ([Date.now()], [parseInt] results). *)
  num_of_Z : Z -> num;
  num_truthy_of_Z : forall z : Z, num_truthy (num_of_Z z) = negb (Z.eqb z 0);
(** [JSON.parse]; [inl] is the [SyntaxError] it throws. *)
  JSON_parse : string -> exn + json num;
(** [JSON.stringify] on a JSON value. *)
  JSON_stringify : json num -> string;
(** [new Date(s).getTime()]; [None] is the [NaN] of an Invalid Date. *)
  Date_parse : string -> option Z;
(** [date.toLocaleString("en-US", ...)] with the options of [formatDate]. *)
  Date_toLocaleString : option Z -> string;
(** [new Date(ms).toISOString()]. *)
  Date_toISOString : Z -> string;
(** [Number.parseInt(s)]; [None] is [NaN]. *)
  Number_parseInt : string -> option Z;
(** [s.trim()]. *)
  String_trim : string -> string;
(** The message of the [TypeError] raised by reading the given property
    of [null]. *)
  nullReadMessage : string -> string;
(** The message of the [TypeError] raised by calling the given member
    expression when it is not a function. *)
  notCallableMessage : string -> string;
(** The message of the [TypeError] raised by converting to a string an
    object that has no primitive value. *)
  notPrimitiveMessage : string;
}.

Section Values.
Context {num : Type} {R : Runtime num}.

(** ToBoolean. *)
Definition truthy (v : json num) : bool :=
  match v with
  | JNull => false
  | JBool b => b
  | JNum n => num_truthy n
  | JString s => str_truthy s
  | JArray _ => true
  | JObject _ => true
  end.

Definition val_truthy (v : jsval num) : bool :=
  match v with
  | Some j => truthy j
  | None => false
  end.

(** [a || b]. *)
Definition js_or (a b : jsval num) : jsval num :=
  if val_truthy a then a else b.

(** ToString, as a template literal, [new Error(...)] and
    [sessionStorage.setItem] apply it to a value that came out of
    [JSON.parse]; [inl] is the [TypeError] it throws.  An object without
    an own [toString] property prints through [Object.prototype] as
    "[object Object]".  An own [toString] property hides that method and
    is never a function in a parsed value, and [valueOf], own or
    inherited, yields no primitive either: the conversion throws.  An
    array prints its elements joined by commas, [null] elements as the
    empty string, and throws where an element does. *)
Fixpoint toString (v : json num) : exn + string :=
  match v with
  | JNull => inr "null"
  | JBool true => inr "true"
  | JBool false => inr "false"
  | JNum n => inr (num_toString n)
  | JString s => inr s
  | JArray items =>
      let elements :=
        (fix elements (items : list (json num)) : exn + list string :=
           match items with
           | [] => inr []
           | i :: rest =>
               match (match i with JNull => inr EmptyString | _ => toString i end) with
               | inl e => inl e
               | inr text =>
                   match elements rest with
                   | inl e => inl e
                   | inr texts => inr (text :: texts)
                   end
               end
           end) in
      match elements items with
      | inl e => inl e
      | inr texts => inr (join "," texts)
      end
  | JObject props =>
      match lookup_last "toString" props with
      | Some _ => inl (Error notPrimitiveMessage)
      | None => inr "[object Object]"
      end
  end.

(** ToString on a value that may be [undefined]. *)
Definition ToString (v : jsval num) : exn + string :=
  match v with
  | Some j => toString j
  | None => inr "undefined"
  end.

(** The text a template literal gives a field that the interfaces of the
    pages declare a number ([course_id], [assignment_id]): numbers and
    strings always have one, and the conversion is not made to throw
    there. *)
Definition val_toString (v : jsval num) : string :=
  match ToString v with
  | inr text => text
  | inl _ => "[object Object]"
  end.

(** [v.k] for a value that came out of [JSON.parse]: own properties of
    objects, [undefined] on arrays and primitives (none of the names read
    by the code exists on their prototypes), a [TypeError] on [null]. *)
Definition getProp (v : json num) (k : string) : exn + jsval num :=
  match v with
  | JNull => inl (Error (nullReadMessage k))
  | JObject props => inr (lookup_last k props)
  | _ => inr None
  end.

(** [v?.k] on a value that may be [undefined] or [null]. *)
Definition getPropOpt (v : jsval num) (k : string) : jsval num :=
  match v with
  | Some (JObject props) => lookup_last k props
  | _ => None
  end.

(** An object literal; a property whose value is [undefined] reads the
    same as a missing one and is left out. *)
Definition object (props : list (string * jsval num)) : json num :=
  JObject (omap (fun p => match snd p with Some v => Some (fst p, v) | None => None end) props).

(** [results.flat()]: one level of array nesting is spliced in. *)
Definition flat (results : list (json num)) : list (json num) :=
  List.concat (List.map (fun r => match r with JArray items => items | _ => [r] end) results).
End Values.

(** ** Time formatters (student and teacher dashboards) *)

(** [Math.round(a / b)] on integral [a] and positive integral [b]: the
  nearest integer, a tie going up. *)
Definition Math_round_div (a b : Z) : Z := (2 * a + b) / (2 * b).

Section Formatters.
Context {num : Type} {R : Runtime num}.

Definition formatDate (isoDate : option string) : string :=
  match isoDate with
  | Some s => if str_truthy s then Date_toLocaleString (Date_parse s) else "N/A"
  | None => "N/A"
  end.

(** The body of [getRelativeTime] once both instants are read. *)
Definition relativeLabel (diffMs : Z) : string :=
  let diffSeconds := Math_round_div diffMs 1000 in
  let diffMinutes := Math_round_div diffSeconds 60 in
  let diffHours := Math_round_div diffMinutes 60 in
  let diffDays := Math_round_div diffHours 24 in
  if diffSeconds <? 0 then
    let absSeconds := Z.abs diffSeconds in
    let absMinutes := Z.abs diffMinutes in
    let absHours := Z.abs diffHours in
    let absDays := Z.abs diffDays in
    if absSeconds <? 60 then show_Z absSeconds +:+ " seconds overdue"
    else if absMinutes <? 60 then show_Z absMinutes +:+ " minutes overdue"
    else if absHours <? 24 then show_Z absHours +:+ " hours overdue"
    else show_Z absDays +:+ " days overdue"
  else
    if diffSeconds <? 60 then "due in " +:+ show_Z diffSeconds +:+ " seconds"
    else if diffMinutes <? 60 then "due in " +:+ show_Z diffMinutes +:+ " minutes"
    else if diffHours <? 24 then "due in " +:+ show_Z diffHours +:+ " hours"
    else "due in " +:+ show_Z diffDays +:+ " days".

(** The label as the specification words it: the magnitudes of the rounded
    differences pick the coarsest unit, the sign picks the phrase. *)
Definition coarsest (seconds minutes hours days : Z) : Z * string :=
  if seconds <? 60 then (seconds, "seconds")
  else if minutes <? 60 then (minutes, "minutes")
  else if hours <? 24 then (hours, "hours")
  else (days, "days").

Definition amountOf (diffMs : Z) : string :=
  let seconds := Math_round_div diffMs 1000 in
  let minutes := Math_round_div seconds 60 in
  let hours := Math_round_div minutes 60 in
  let days := Math_round_div hours 24 in
  let (n, unit) := coarsest (Z.abs seconds) (Z.abs minutes) (Z.abs hours) (Z.abs days) in
  show_Z n +:+ " " +:+ unit.

(** [now] is the reading of the clock taken by [new Date()]. *)
Definition getRelativeTime (now : Z) (isoDate : option string) : string :=
  match isoDate with
  | Some s =>
      if str_truthy s then
        match Date_parse s with
        | Some due => relativeLabel (due - now)
        | None => "due in NaN days"
        end
      else "No due date"
  | None => "No due date"
  end.

Definition isDueDateOver (now : Z) (dueDate : option string) : bool :=
  match dueDate with
  | Some s =>
      if str_truthy s then
        match Date_parse s with
        | Some due => due <? now
        | None => false
        end
      else false
  | None => false
  end.
End Formatters.


(** ** The environment: network, dialogs, session storage *)

Record request : Type := Request {
  url : string;
  method : string;
  headers : list (string * string);
  body : option string;
}.

(** A response, with its body as [response.text()] reads it. *)
Record response : Type := Response {
  status : Z;
  bodyText : string;
}.

(** How a [fetch] settles: it rejects (no response at all) or it resolves. *)
Inductive outcome : Type :=
  | NetworkFailure (e : exn)
  | Responded (r : response).

(** [response.ok]. *)
Definition ok (status : Z) : bool := (200 <=? status) && (status <=? 299).

(** Everything outside the page: the REST backend answering one request at
    a time, and the wall clock. *)
Class Backend : Type := {
  server : Type;
  serve : server -> request -> outcome * server;
  clock : server -> Z;
}.

Section Effects.
Context {B : Backend}.

(** The browser tab around a component.  [sent] is the list of requests
    issued so far and [alerts] the list of [alert] dialogs shown, oldest
    first in both. *)
Record browser : Type := Browser {
  remote : server;
  sent : list request;
  alerts : list string;
  sessionStorage : gmap string string;
}.

(** An asynchronous function over the state [St] of a component: it reads
    and updates the component state and the browser, and either returns or
    throws. *)
Definition Async (St A : Type) : Type := St * browser -> (exn + A) * (St * browser).

Definition ret {St A : Type} (a : A) : Async St A := fun s => (inr a, s).

Definition throw {St A : Type} (e : exn) : Async St A := fun s => (inl e, s).

Definition bind {St A C : Type} (m : Async St A) (k : A -> Async St C) : Async St C :=
  fun s =>
    match m s with
    | (inr a, s') => k a s'
    | (inl e, s') => (inl e, s')
    end.

(** [try { m } catch (error) { h error }]. *)
Definition try_catch {St A : Type} (m : Async St A) (h : exn -> Async St A) : Async St A :=
  fun s =>
    match m s with
    | (inr a, s') => (inr a, s')
    | (inl e, s') => h e s'
    end.

(** [try { m } finally { f }] for a [finally] block that does not throw. *)
Definition finally {St A : Type} (m : Async St A) (f : St -> St) : Async St A :=
  fun s =>
    match m s with
    | (r, (st, b)) => (r, (f st, b))
    end.

(** A synchronous step that may throw, such as a property read. *)
Definition lift {St A : Type} (r : exn + A) : Async St A := fun s => (r, s).

(** Reading the state captured by the handler's closure. *)
Definition get_state {St : Type} : Async St St := fun s => (inr (fst s), s).

(** A [useState] setter, also in its functional form [setX(prev => ...)]. *)
Definition set_state {St : Type} (f : St -> St) : Async St unit :=
  fun s => (inr tt, (f (fst s), snd s)).

Definition alert {St : Type} (text : string) : Async St unit :=
  fun s =>
    let b := snd s in
    (inr tt, (fst s, Browser (remote b) (sent b) (alerts b ++ [text]) (sessionStorage b))).

(** [Date.now()]. *)
Definition Date_now {St : Type} : Async St Z := fun s => (inr (clock (remote (snd s))), s).

Definition sessionStorage_setItem {St : Type} (key value : string) : Async St unit :=
  fun s =>
    let b := snd s in
    (inr tt, (fst s, Browser (remote b) (sent b) (alerts b) (<[key := value]> (sessionStorage b)))).

(** [await fetch(url, options)] followed by [await response.text()]. *)
Definition fetch {St : Type} (r : request) : Async St response :=
  fun s =>
    let b := snd s in
    let (o, remote') := serve (remote b) r in
    let s' := (fst s, Browser remote' (sent b ++ [r]) (alerts b) (sessionStorage b)) in
    match o with
    | NetworkFailure e => (inl e, s')
    | Responded response => (inr response, s')
    end.

(** Calling an async function without awaiting it: the call itself never
    throws, it hands back a promise.  The request it issues is served when
    it is issued, so the promise is represented by the way it settles. *)
Definition start {St A : Type} (m : Async St A) : Async St (exn + A) :=
  fun s => let (r, s') := m s in (inr r, s').

(** [xs.map(f)] for a callback with effects: left to right, an exception
    from the callback leaves the loop. *)
Fixpoint mapM {St A C : Type} (f : A -> Async St C) (xs : list A) : Async St (list C) :=
  match xs with
  | [] => ret []
  | x :: rest => bind (f x) (fun y => bind (mapM f rest) (fun ys => ret (y :: ys)))
  end.

(** The values of promises that all fulfilled, or the reason of a rejected
    one. *)
Fixpoint all_fulfilled {A : Type} (ps : list (exn + A)) : exn + list A :=
  match ps with
  | [] => inr []
  | inl e :: _ => inl e
  | inr a :: rest =>
      match all_fulfilled rest with
      | inl e => inl e
      | inr xs => inr (a :: xs)
      end
  end.

(** [await Promise.all(promises)]. *)
Definition Promise_all {St A : Type} (promises : list (exn + A)) : Async St (list A) :=
  lift (all_fulfilled promises).
End Effects.

Declare Scope async_scope.
Delimit Scope async_scope with async.
Notation "x <- m ;; k" := (bind m (fun x => k))
  (at level 100, m at next level, right associativity) : async_scope.
Notation "m ;;; k" := (bind m (fun _ => k))
  (at level 100, right associativity) : async_scope.
Local Open Scope async_scope.

(** ** The request helper (student and teacher dashboards) *)

Definition API_BASE_URL : string := "http://localhost:8080/api".

Section ApiFetch.
Context {num : Type} {R : Runtime num} {B : Backend}.

(** The [headers] and [options] objects [apiFetch] builds before the
    request goes out. *)
Definition apiRequest (endpoint method : string) (token : option string) (data : json num)
  : request :=
  let headers :=
    [("Content-Type", "application/json")] ++
    (if opt_truthy token
     then [("Authorization", "Bearer " +:+ default EmptyString token)]
     else []) in
  {| url := API_BASE_URL +:+ endpoint;
     method := method;
     headers := headers;
     body := if truthy data then Some (JSON_stringify data) else None |}.

(** What [errorMessage] holds on a non-success status once the body has
    been looked at: a value of the parsed body, or a string. *)
Definition errorMessageOf (response : response) : jsval num :=
  let errorMessage := "Request failed (Status: " +:+ show_Z (status response) +:+ ")" in
  match JSON_parse (bodyText response) with
  | inr errorData =>
      match getProp errorData "error", getProp errorData "message" with
      | inr error, inr message =>
          js_or (js_or (getPropOpt error "message") message) (Some (JString errorMessage))
      | _, _ => Some (JString (str_or (bodyText response) errorMessage))
      end
  | inl _ => Some (JString (str_or (bodyText response) errorMessage))
  end.

(** [apiFetch(endpoint, method, token, data = null)].  Of the console
    output only the template literal that can throw is kept; the outer
    [catch] only logs and rethrows. *)
Definition apiFetch {St : Type} (endpoint method : string) (token : option string)
    (data : json num) : Async St (json num) :=
  try_catch
    (response <- fetch (apiRequest endpoint method token data) ;;
     if negb (ok (status response)) then
       errorMessage <- lift (ToString (errorMessageOf response)) ;;
       throw (Error (errorMessage +:+ " (Status: " +:+ show_Z (status response) +:+ ")"))
     else
       if str_truthy (bodyText response) then
         match JSON_parse (bodyText response) with
         | inr result => ret result
         | inl _ => throw (Error "Failed to parse response as JSON")
         end
       else ret (JObject []))
    (fun error => throw error).
End ApiFetch.

(** ** Student dashboard *)

Module StudentDashboard.
Section Component.
Context {num : Type} {R : Runtime num} {B : Backend}.

(** The [useState] cells of [StudentDashboard] the modelled code touches. *)
Record state : Type := State {
  token : option string;
  joinedCourses : list (json num);
  joinData_course_id : string;
  joinData_name : string;
  upcomingAssignments : list (json num);
  materials : list (json num);
  announcements : list (json num);
}.

Definition setJoinedCourses (f : list (json num) -> list (json num)) (st : state) : state :=
  State (token st) (f (joinedCourses st)) (joinData_course_id st) (joinData_name st)
        (upcomingAssignments st) (materials st) (announcements st).

Definition setJoinData (course_id name : string) (st : state) : state :=
  State (token st) (joinedCourses st) course_id name
        (upcomingAssignments st) (materials st) (announcements st).

Definition setUpcomingAssignments (v : list (json num)) (st : state) : state :=
  State (token st) (joinedCourses st) (joinData_course_id st) (joinData_name st)
        v (materials st) (announcements st).

Definition setMaterials (v : list (json num)) (st : state) : state :=
  State (token st) (joinedCourses st) (joinData_course_id st) (joinData_name st)
        (upcomingAssignments st) v (announcements st).

Definition setAnnouncements (v : list (json num)) (st : state) : state :=
  State (token st) (joinedCourses st) (joinData_course_id st) (joinData_name st)
        (upcomingAssignments st) (materials st) v.

(** The template literal [`/classrooms/${course.course_id}/<kind>`]. *)
Definition classroomEndpoint (kind : string) (course : json num) : exn + string :=
  match getProp course "course_id" with
  | inl e => inl e
  | inr id => inr ("/classrooms/" +:+ val_toString id +:+ "/" +:+ kind)
  end.

(** [joinedCourses.map((course) => apiFetch(`/classrooms/.../<kind>`, "GET", token))]:
    one request per course, issued in course order, none awaited yet. *)
Definition fanOut (kind : string) (token : option string) (courses : list (json num))
  : Async state (list (exn + json num)) :=
  mapM (fun course =>
          endpoint <- lift (classroomEndpoint kind course) ;;
          start (apiFetch endpoint "GET" token JNull))
       courses.

(** The filter [(a) => a && a.course] of the announcement list. *)
Definition hasCourse (a : json num) : bool :=
  truthy a && val_truthy (getPropOpt (Some a) "course").

(** The effect "Fetch Assignments, Announcements, and Materials", with
    its guard and the [fetchCourseData] it then calls. *)
Definition fetchCourseData : Async state unit :=
  st <- get_state ;;
  if negb (opt_truthy (token st)) || Nat.eqb (length (joinedCourses st)) 0 then ret tt
  else
    try_catch
      (assignmentPromises <- fanOut "assignments" (token st) (joinedCourses st) ;;
       assignmentResults <- Promise_all assignmentPromises ;;
       set_state (setUpcomingAssignments (List.filter truthy (flat assignmentResults))) ;;;
       announcementPromises <- fanOut "announcements" (token st) (joinedCourses st) ;;
       announcementResults <- Promise_all announcementPromises ;;
       set_state (setAnnouncements (List.filter hasCourse (flat announcementResults))) ;;;
       materialPromises <- fanOut "materials" (token st) (joinedCourses st) ;;
       materialResults <- Promise_all materialPromises ;;
       set_state (setMaterials (List.filter truthy (flat materialResults))))
      (fun error => ret tt).

(** The teacher shown in the success alert: [result.teacher_name] when it
    is truthy and not blank after [trim()], "No teacher assigned"
    otherwise.  A truthy value that is not a string has no [trim]. *)
Definition teacherInfoOf (teacher_name : jsval num) : exn + string :=
  match teacher_name with
  | Some (JString s) =>
      if str_truthy s && str_truthy (String_trim s) then inr s
      else inr "No teacher assigned"
  | Some v =>
      if truthy v then inl (Error (notCallableMessage "result.teacher_name.trim"))
      else inr "No teacher assigned"
  | None => inr "No teacher assigned"
  end.

(** The text of the success alert, from [teacherInfo] and the template
    literal.  Building it throws where [result] is [null], where a truthy
    [teacher_name] has no [trim], and where a value the template
    interpolates has no string form. *)
Definition enrolledAlert (result : json num) : exn + string :=
  match getProp result "teacher_name" with
  | inl e => inl e
  | inr teacher_name =>
      match teacherInfoOf teacher_name with
      | inl e => inl e
      | inr teacherInfo =>
          match ToString (getPropOpt (Some result) "message") with
          | inl e => inl e
          | inr messageText =>
              match ToString (getPropOpt (Some result) "course_title") with
              | inl e => inl e
              | inr titleText =>
                  match ToString (getPropOpt (Some result) "course_id") with
                  | inl e => inl e
                  | inr idText =>
                      inr ("Enrollment successful: " +:+ messageText
                           +:+ String newline "Enrolled in " +:+ String dquote titleText
                           +:+ String dquote " (Course ID: " +:+ idText
                           +:+ ") with teacher: " +:+ teacherInfo)
                  end
              end
          end
      end
  end.

(** The [catch] block of [handleJoinCourse]. *)
Definition joinCourseFailed (error : exn) : Async state unit :=
  let errorMsg := str_or (message error) "Unknown error occurred" in
  if includes errorMsg "No classroom exists" then
    alert "No classroom exists with this Course ID. Please check the ID and try again."
  else if includes errorMsg "Teacher does not match the course" then
    alert "The teacher name does not match the course. Please check the teacher name and try again."
  else
    alert ("Enrollment failed: " +:+ errorMsg).

Definition handleJoinCourse : Async state unit :=
  st <- get_state ;;
  let courseId := Number_parseInt (joinData_course_id st) in
  let teacherName := String_trim (joinData_name st) in
  match courseId with
  | None => alert "Valid Course ID is required"
  | Some courseId =>
      if courseId <=? 0 then alert "Valid Course ID is required"
      else if negb (str_truthy teacherName) then alert "Teacher name is required"
      else
        try_catch
          (result <- apiFetch "/enroll" "POST" (token st)
                       (JObject [("course_id", JNum (num_of_Z courseId));
                                 ("teacher_name", JString teacherName)]) ;;
           text <- lift (enrolledAlert result) ;;
           alert text ;;;
           set_state (setJoinData EmptyString EmptyString) ;;;
           let course := getPropOpt (Some result) "course" in
           if val_truthy course then
             set_state (setJoinedCourses (fun prev => prev ++ option_list course))
           else
             enrollments <- apiFetch "/student/enrollments" "GET" (token st) JNull ;;
             set_state (setJoinedCourses (fun _ =>
               match enrollments with JArray items => items | _ => [] end)))
          joinCourseFailed
  end.
End Component.
End StudentDashboard.

(** ** Teacher dashboard *)

Module TeacherDashboard.
Section Component.
Context {num : Type} {R : Runtime num} {B : Backend}.

(** The [useState] cells of [TeacherDashboard] the modelled code touches;
    [selectedCourse] is [None] while it is [null]. *)
Record state : Type := State {
  token : option string;
  selectedCourse : jsval num;
  newAnnouncement_title : string;
  newAnnouncement_content : string;
  newAnnouncement_is_pinned : bool;
  courseAnnouncements : list (json num);
  announcements : list (json num);
}.

Definition setCourseAnnouncements (f : list (json num) -> list (json num)) (st : state)
  : state :=
  State (token st) (selectedCourse st) (newAnnouncement_title st)
        (newAnnouncement_content st) (newAnnouncement_is_pinned st)
        (f (courseAnnouncements st)) (announcements st).

Definition setAnnouncements (f : list (json num) -> list (json num)) (st : state) : state :=
  State (token st) (selectedCourse st) (newAnnouncement_title st)
        (newAnnouncement_content st) (newAnnouncement_is_pinned st)
        (courseAnnouncements st) (f (announcements st)).

Definition setNewAnnouncement (title content : string) (is_pinned : bool) (st : state)
  : state :=
  State (token st) (selectedCourse st) title content is_pinned
        (courseAnnouncements st) (announcements st).

Definition handleCreateAnnouncement : Async state unit :=
  st <- get_state ;;
  if negb (val_truthy (selectedCourse st))
     || negb (str_truthy (newAnnouncement_title st))
     || negb (str_truthy (newAnnouncement_content st))
  then alert "Please provide a course, announcement title, and content"
  else
    try_catch
      (let payload :=
         object [("course_id", getPropOpt (selectedCourse st) "course_id");
                 ("title", Some (JString (newAnnouncement_title st)));
                 ("content", Some (if str_truthy (newAnnouncement_content st)
                                   then JString (newAnnouncement_content st) else JNull));
                 ("is_pinned", Some (JBool (newAnnouncement_is_pinned st)))] in
       data <- apiFetch "/announcements" "POST" (token st) payload ;;
       announcement_id <- lift (getProp data "announcement_id") ;;
       now <- Date_now ;;
       let newAnnouncementData :=
         object [("announcement_id",
                  js_or (js_or announcement_id (getPropOpt (Some data) "id"))
                        (Some (JNum (num_of_Z now))));
                 ("course_id", getPropOpt (selectedCourse st) "course_id");
                 ("title", getPropOpt (Some data) "title");
                 ("content", js_or (getPropOpt (Some data) "content")
                                   (Some (JString EmptyString)));
                 ("created_at", js_or (getPropOpt (Some data) "created_at")
                                      (Some (JString (Date_toISOString now))));
                 ("is_pinned", js_or (getPropOpt (Some data) "is_pinned")
                                     (Some (JBool false)))] in
       set_state (setCourseAnnouncements (fun prev => newAnnouncementData :: prev)) ;;;
       set_state (setAnnouncements (fun prev => newAnnouncementData :: prev)) ;;;
       set_state (setNewAnnouncement EmptyString EmptyString false) ;;;
       alert "Announcement made successfully.")
      (fun error =>
         alert ("An error occurred while creating the announcement: " +:+ message error))
.
End Component.
End TeacherDashboard.

(** ** Authentication context *)

Module AuthContext.
Section Provider.
Context {num : Type} {R : Runtime num} {B : Backend}.

(** The [useState] cells of [AuthProvider]. *)
Record state : Type := State {
  user : jsval num;
  token : jsval num;
  isLoading : bool;
}.

Definition setUser (v : jsval num) (st : state) : state := State v (token st) (isLoading st).
Definition setToken (v : jsval num) (st : state) : state := State (user st) v (isLoading st).
Definition setIsLoading (v : bool) (st : state) : state := State (user st) (token st) v.

Definition loginRequest (email password : string) : request :=
  {| url := "http://localhost:8080/api/login";
     method := "POST";
     headers := [("Content-Type", "application/json")];
     body := Some (JSON_stringify
                     (JObject [("email", JString email); ("password", JString password)])) |}.

(** [login(email, password)]; it resolves with [data.user].  The guard
    [!data.user || !data.user.role] is taken apart by the shape of
    [data.user]: [undefined] fails it at once. *)
Definition login (email password : string) : Async state (json num) :=
  set_state (setIsLoading true) ;;;
  finally
    (try_catch
       (response <- fetch (loginRequest email password) ;;
        if negb (ok (status response)) then
          let errorData :=
            match JSON_parse (bodyText response) with
            | inr v => v
            | inl _ => JObject []
            end in
          m <- lift (getProp errorData "message") ;;
          text <- lift (ToString (js_or m (Some (JString "Login failed")))) ;;
          throw (Error text)
        else
          data <- lift (JSON_parse (bodyText response)) ;;
          user <- lift (getProp data "user") ;;
          match user with
          | Some user =>
              if negb (truthy user) || negb (val_truthy (getPropOpt (Some user) "role")) then
                throw (Error "Invalid user data received from server")
              else
                tokenText <- lift (ToString (getPropOpt (Some data) "token")) ;;
                sessionStorage_setItem "token" tokenText ;;;
                sessionStorage_setItem "user" (JSON_stringify user) ;;;
                set_state (setUser (Some user)) ;;;
                set_state (setToken (getPropOpt (Some data) "token")) ;;;
                ret user
          | None => throw (Error "Invalid user data received from server")
          end)
       (fun error => throw error))
    (setIsLoading false).
End Provider.
End AuthContext.

(** ** A sample runtime and backend

    A runtime small enough to compute with, on which the model is run at
    concrete inputs: numbers are integers; [JSON.parse] covers objects,
    arrays, strings without escapes, integers and the three literals, and
    throws on anything else; timestamps are ISO-8601 in UTC.  The backend
    answers from a fixed table of routes. *)

Module Sample.

Definition is_ws (c : ascii) : bool :=
  let n := nat_of_ascii c in
  Nat.eqb n 32 || Nat.eqb n 9 || Nat.eqb n 10 || Nat.eqb n 13.

Definition is_digit (c : ascii) : bool :=
  let n := nat_of_ascii c in
  Nat.leb 48 n && Nat.leb n 57.

Definition digit_val (c : ascii) : Z := Z.of_nat (nat_of_ascii c) - 48.

Fixpoint skip_ws (s : string) : string :=
  match s with
  | String c rest => if is_ws c then skip_ws rest else s
  | EmptyString => s
  end.

Fixpoint take_digits (acc : Z) (s : string) : Z * string :=
  match s with
  | String c rest => if is_digit c then take_digits (10 * acc + digit_val c) rest else (acc, s)
  | EmptyString => (acc, s)
  end.

(** The characters of a string literal after its opening quote. *)
Fixpoint take_string (s : string) : option (string * string) :=
  match s with
  | EmptyString => None
  | String c rest =>
      if Ascii.eqb c dquote then Some (EmptyString, rest)
      else if Ascii.eqb c "\" || Nat.ltb (nat_of_ascii c) 32 then None
      else match take_string rest with
           | Some (t, rest') => Some (String c t, rest')
           | None => None
           end
  end.

Fixpoint parse_items (pv : string -> option (json Z * string)) (n : nat) (s : string)
  : option (list (json Z) * string) :=
  match n with
  | O => None
  | S n =>
      match pv s with
      | Some (v, rest) =>
          match skip_ws rest with
          | String c rest' =>
              if Ascii.eqb c "," then
                match parse_items pv n rest' with
                | Some (vs, rest'') => Some (v :: vs, rest'')
                | None => None
                end
              else if Ascii.eqb c "]" then Some ([v], rest')
              else None
          | EmptyString => None
          end
      | None => None
      end
  end.

Fixpoint parse_members (pv : string -> option (json Z * string)) (n : nat) (s : string)
  : option (list (string * json Z) * string) :=
  match n with
  | O => None
  | S n =>
      match skip_ws s with
      | String q rest =>
          if Ascii.eqb q dquote then
            match take_string rest with
            | Some (k, rest1) =>
                match skip_ws rest1 with
                | String colon rest2 =>
                    if Ascii.eqb colon ":" then
                      match pv rest2 with
                      | Some (v, rest3) =>
                          match skip_ws rest3 with
                          | String c rest4 =>
                              if Ascii.eqb c "," then
                                match parse_members pv n rest4 with
                                | Some (ms, rest5) => Some ((k, v) :: ms, rest5)
                                | None => None
                                end
                              else if Ascii.eqb c "}" then Some ([(k, v)], rest4)
                              else None
                          | EmptyString => None
                          end
                      | None => None
                      end
                    else None
                | EmptyString => None
                end
            | None => None
            end
          else None
      | EmptyString => None
      end
  end.

Definition strip (lit : string) (s : string) : option string :=
  if String.prefix lit s
  then Some (String.substring (String.length lit) (String.length s - String.length lit) s)
  else None.

Fixpoint parse_value (fuel : nat) (s : string) : option (json Z * string) :=
  match fuel with
  | O => None
  | S fuel =>
      match skip_ws s with
      | EmptyString => None
      | String c rest =>
          if Ascii.eqb c dquote then
            match take_string rest with
            | Some (t, rest') => Some (JString t, rest')
            | None => None
            end
          else if Ascii.eqb c "[" then
            match skip_ws rest with
            | String c' rest' =>
                if Ascii.eqb c' "]" then Some (JArray [], rest')
                else match parse_items (parse_value fuel) fuel rest with
                     | Some (items, rest'') => Some (JArray items, rest'')
                     | None => None
                     end
            | EmptyString => None
            end
          else if Ascii.eqb c "{" then
            match skip_ws rest with
            | String c' rest' =>
                if Ascii.eqb c' "}" then Some (JObject [], rest')
                else match parse_members (parse_value fuel) fuel rest with
                     | Some (props, rest'') => Some (JObject props, rest'')
                     | None => None
                     end
            | EmptyString => None
            end
          else if Ascii.eqb c "-" then
            match rest with
            | String d _ =>
                if is_digit d then
                  let (n, rest') := take_digits 0 rest in Some (JNum (- n), rest')
                else None
            | EmptyString => None
            end
          else if is_digit c then
            let (n, rest') := take_digits 0 (String c rest) in Some (JNum n, rest')
          else
            match strip "true" (String c rest), strip "false" (String c rest),
                  strip "null" (String c rest) with
            | Some rest', _, _ => Some (JBool true, rest')
            | _, Some rest', _ => Some (JBool false, rest')
            | _, _, Some rest' => Some (JNull, rest')
            | _, _, _ => None
            end
      end
  end.

Definition parse (s : string) : exn + json Z :=
  match parse_value (S (String.length s)) s with
  | Some (v, rest) =>
      match skip_ws rest with
      | EmptyString => inr v
      | String _ _ => inl (Error "Unexpected non-whitespace character after JSON")
      end
  | None => inl (Error "Unexpected token in JSON")
  end.

Definition quoted (s : string) : string := String dquote (s +:+ String dquote EmptyString).

Fixpoint stringify (v : json Z) : string :=
  match v with
  | JNull => "null"
  | JBool true => "true"
  | JBool false => "false"
  | JNum n => show_Z n
  | JString s => quoted s
  | JArray items => "[" +:+ join "," (List.map stringify items) +:+ "]"
  | JObject props =>
      "{" +:+ join "," (List.map (fun p => match p with
                                           | (k, x) => quoted k +:+ ":" +:+ stringify x
                                           end) props) +:+ "}"
  end.

(** Days since 1970-01-01 of a date of the proleptic Gregorian calendar. *)
Definition days_from_civil (y m d : Z) : Z :=
  let y' := if m <=? 2 then y - 1 else y in
  let era := y' / 400 in
  let yoe := y' - era * 400 in
  let doy := (153 * (if 2 <? m then m - 3 else m + 9) + 2) / 5 + d - 1 in
  let doe := yoe * 365 + yoe / 4 - yoe / 100 + doy in
  era * 146097 + doe - 719468.

Definition civil_from_days (z : Z) : Z * Z * Z :=
  let z := z + 719468 in
  let era := z / 146097 in
  let doe := z - era * 146097 in
  let yoe := (doe - doe / 1460 + doe / 36524 - doe / 146096) / 365 in
  let doy := doe - (365 * yoe + yoe / 4 - yoe / 100) in
  let mp := (5 * doy + 2) / 153 in
  let d := doy - (153 * mp + 2) / 5 + 1 in
  let m := if mp <? 10 then mp + 3 else mp - 9 in
  (yoe + era * 400 + (if m <=? 2 then 1 else 0), m, d).

(** A run of decimal digits of the given length at the given position. *)
Definition field (pos len : nat) (s : string) : option Z :=
  let t := String.substring pos len s in
  if Nat.eqb (String.length t) len && forallb is_digit (list_ascii_of_string t)
  then Some (fst (take_digits 0 t))
  else None.

(** [YYYY-MM-DDTHH:MM:SSZ], read as UTC. *)
Definition parseDate (s : string) : option Z :=
  match field 0 4 s, field 5 2 s, field 8 2 s, field 11 2 s, field 14 2 s, field 17 2 s with
  | Some y, Some mo, Some d, Some h, Some mi, Some sec =>
      if String.eqb (String.substring 4 1 s) "-" && String.eqb (String.substring 7 1 s) "-"
         && String.eqb (String.substring 10 1 s) "T" && String.eqb (String.substring 13 1 s) ":"
         && String.eqb (String.substring 16 1 s) ":" && String.eqb (String.substring 19 2 s) "Z"
         && (1 <=? mo) && (mo <=? 12) && (1 <=? d) && (d <=? 31)
         && (h <=? 23) && (mi <=? 59) && (sec <=? 59)
      then Some ((((days_from_civil y mo d * 24 + h) * 60 + mi) * 60 + sec) * 1000)
      else None
  | _, _, _, _, _, _ => None
  end.

Definition pad (width : nat) (z : Z) : string :=
  let t := show_Z z in
  String.concat EmptyString (List.repeat "0" (width - String.length t)) +:+ t.

Definition toISOString (ms : Z) : string :=
  let '(y, m, d) := civil_from_days (ms / 86400000) in
  let r := ms mod 86400000 in
  pad 4 y +:+ "-" +:+ pad 2 m +:+ "-" +:+ pad 2 d +:+ "T" +:+
  pad 2 (r / 3600000) +:+ ":" +:+ pad 2 (r / 60000 mod 60) +:+ ":" +:+
  pad 2 (r / 1000 mod 60) +:+ "." +:+ pad 3 (r mod 1000) +:+ "Z".

Definition monthName (m : Z) : string :=
  nth (Z.to_nat (m - 1))
      ["January"; "February"; "March"; "April"; "May"; "June"; "July"; "August";
       "September"; "October"; "November"; "December"] EmptyString.

(** The long en-US rendering, in the UTC time zone. *)
Definition toLocaleString (t : option Z) : string :=
  match t with
  | None => "Invalid Date"
  | Some ms =>
      let '(y, m, d) := civil_from_days (ms / 86400000) in
      let r := ms mod 86400000 in
      monthName m +:+ " " +:+ show_Z d +:+ ", " +:+ show_Z y +:+ " at " +:+
      pad 2 (r / 3600000) +:+ ":" +:+ pad 2 (r / 60000 mod 60)
  end.

(** [parseInt] in base ten: leading white space, a sign, then the longest
    run of digits. *)
Definition parseInt (s : string) : option Z :=
  match skip_ws s with
  | String c rest =>
      if Ascii.eqb c "-" || Ascii.eqb c "+" then
        match rest with
        | String d _ =>
            if is_digit d then
              Some ((if Ascii.eqb c "-" then -1 else 1) * fst (take_digits 0 rest))
            else None
        | EmptyString => None
        end
      else if is_digit c then Some (fst (take_digits 0 (String c rest)))
      else None
  | EmptyString => None
  end.

Definition rev_string (s : string) : string :=
  string_of_list_ascii (List.rev (list_ascii_of_string s)).

(** [trim] for the white space of ASCII. *)
Definition trim (s : string) : string := rev_string (skip_ws (rev_string (skip_ws s))).

#[export] Instance runtime : Runtime Z := {|
  num_truthy := fun z => negb (Z.eqb z 0);
  num_toString := show_Z;
  num_of_Z := fun z => z;
  num_truthy_of_Z := fun z => eq_refl;
  JSON_parse := parse;
  JSON_stringify := stringify;
  Date_parse := parseDate;
  Date_toLocaleString := toLocaleString;
  Date_toISOString := toISOString;
  Number_parseInt := parseInt;
  String_trim := trim;
  nullReadMessage := fun k => "Cannot read properties of null (reading '" +:+ k +:+ "')";
  notCallableMessage := fun f => f +:+ " is not a function";
  notPrimitiveMessage := "Cannot convert object to primitive value";
|}.

(** The backend as a route table: the clock reading and, per method and
    URL, the response; a route that is missing answers 404 with an empty
    body, and the table never changes. *)
Definition routes : Type := Z * list (string * string * response).

Definition answer (srv : routes) (r : request) : outcome * routes :=
  match List.find (fun e => String.eqb (fst (fst e)) (method r)
                            && String.eqb (snd (fst e)) (url r)) (snd srv) with
  | Some e => (Responded (snd e), srv)
  | None => (Responded (Response 404 EmptyString), srv)
  end.

#[export] Instance backend : Backend := {|
  server := routes;
  serve := answer;
  clock := fst;
|}.
End Sample.

(** ** Scenarios

    Concrete pages and backends on the sample runtime, for the examples at
    the end. *)

Module Scenario.
Import Sample.

(** A tab that has sent nothing yet, facing the given route table. *)
Definition browserOn (table : list (string * string * response)) : browser :=
  Browser (1700000000000, table) [] [] ∅.

Definition api (path : string) : string := API_BASE_URL +:+ path.

Definition due2099 : string := "2099-01-01T00:00:00Z".

Definition assignment (id : Z) : json Z := JObject [("assignment_id", JNum id)].

Definition announcement (id : Z) (course : string) : json Z :=
  JObject [("announcement_id", JNum id); ("course", JString course)].

Definition material (id : Z) : json Z := JObject [("material_id", JNum id)].

Definition threeCourses : list (json Z) :=
  [JObject [("course_id", JNum 1)]; JObject [("course_id", JNum 2)];
   JObject [("course_id", JNum 3)]].

(** A student enrolled in three courses, about to join course 12. *)
Definition student : StudentDashboard.state :=
  StudentDashboard.State (Some "t0k3n") threeCourses "12" " Ms Lee " [] [] [].


Definition allCoursesUp : browser :=
  browserOn
    [("GET", api "/classrooms/1/assignments", Response 200 (stringify (JArray [assignment 11])));
     ("GET", api "/classrooms/2/assignments", Response 200 (stringify (JArray [])));
     ("GET", api "/classrooms/3/assignments", Response 200 (stringify (JArray [assignment 31])));
     ("GET", api "/classrooms/1/announcements",
      Response 200 (stringify (JArray [announcement 5 "Algebra"])));
     ("GET", api "/classrooms/2/announcements", Response 200 (stringify (JArray [])));
     ("GET", api "/classrooms/3/announcements", Response 200 (stringify (JArray [])));
     ("GET", api "/classrooms/1/materials", Response 200 (stringify (JArray [])));
     ("GET", api "/classrooms/2/materials", Response 200 (stringify (JArray [material 8])));
     ("GET", api "/classrooms/3/materials", Response 200 (stringify (JArray [])))].




Definition emptyAnswer : browser :=
  browserOn [("DELETE", api "/materials/4", Response 200 EmptyString)].

(** The backend refuses the enrolment, in lower case. *)
Definition teacherMismatch : browser :=
  browserOn
    [("POST", api "/enroll",
      Response 400 (stringify (JObject [("message", JString "teacher does not match")])))].

Definition classroomUnknown : browser :=
  browserOn
    [("POST", api "/enroll",
      Response 404 (stringify (JObject [("message", JString "No classroom exists with ID 12")])))].

(** A teacher on a course page with content typed in and no title. *)
Definition teacher : TeacherDashboard.state :=
  TeacherDashboard.State (Some "t0k3n") (Some (JObject [("course_id", JNum 3)]))
    EmptyString "Exam on Friday" false [] [].

Definition signedOut : @AuthContext.state Z := AuthContext.State None None false.

(** The login endpoint answers 200 with a user and a role, and no token. *)
Definition loginWithoutToken : browser :=
  browserOn
    [("POST", "http://localhost:8080/api/login",
      Response 200 (stringify (JObject [("user", JObject [("role", JString "student")])])))].

(** The login endpoint answers 200 with a token and a user without role. *)
Definition loginWithoutRole : browser :=
  browserOn
    [("POST", "http://localhost:8080/api/login",
      Response 200 (stringify (JObject [("token", JString "abc");
                                         ("user", JObject [("name", JString "Ann")])])))].
End Scenario.

(** * Further code of the pages

    The loaders and handlers around the ones above: the rest of the
    authentication context, the route guard, the registration form, and
    more of the two dashboards. *)

(** ** More of the engine *)

Class Engine (num : Type) : Type := {
(** [x === y] on two Numbers. *)
  num_eqb : num -> num -> bool;
(** The message of the [TypeError] raised by [for...of] over a value that
    is not iterable. *)
  notIterableMessage : string;
}.

Section MoreValues.
Context {num : Type} {R : Runtime num} {E : Engine num}.

(** [v === n] for a Number [n]: only a Number can be equal to it. *)
Definition strictEqNum (v : jsval num) (n : num) : bool :=
  match v with
  | Some (JNum m) => num_eqb m n
  | _ => false
  end.

(** [v === s] for a string [s]. *)
Definition strictEqStr (v : jsval num) (s : string) : bool :=
  match v with
  | Some (JString t) => String.eqb t s
  | _ => false
  end.


(** The items of an array by index, as own properties. *)
Fixpoint indexed {A : Type} (i : nat) (xs : list A) : list (string * A) :=
  match xs with
  | [] => []
  | x :: rest => (show_Z (Z.of_nat i), x) :: indexed (S i) rest
  end.

(** The characters a string is iterated or spread into. *)
Definition chars (s : string) : list (json num) :=
  List.map (fun c => JString (String c EmptyString)) (list_ascii_of_string s).

(** The own enumerable properties [{...v}] copies. *)
Definition spread (v : json num) : list (string * json num) :=
  match v with
  | JObject props => props
  | JArray items => indexed 0 items
  | JString s => indexed 0 (chars s)
  | _ => []
  end.

(** [k: v] in an object literal, after the properties already there.  A
    property set to [undefined] reads as a missing one and is dropped. *)
Definition assign (k : string) (v : jsval num) (props : list (string * json num))
  : list (string * json num) :=
  List.filter (fun p => negb (String.eqb k (fst p))) props
  ++ match v with
     | Some x => [(k, x)]
     | None => []
     end.


End MoreValues.

Section MoreEffects.
Context {B : Backend}.

Definition sessionStorage_getItem {St : Type} (key : string) : Async St (option string) :=
  fun s => (inr (sessionStorage (snd s) !! key), s).

Definition sessionStorage_removeItem {St : Type} (key : string) : Async St unit :=
  fun s =>
    let b := snd s in
    (inr tt, (fst s, Browser (remote b) (sent b) (alerts b) (delete key (sessionStorage b)))).
End MoreEffects.

(** ** Student dashboard: the other loaders *)

Module StudentLoaders.
Section Component.
Context {num : Type} {R : Runtime num} {B : Backend}.

(** The effect "Fetch Joined Courses". *)
Definition loadJoinedCourses : Async StudentDashboard.state unit :=
  st <- get_state ;;
  if negb (opt_truthy (StudentDashboard.token st)) then ret tt
  else
    try_catch
      (data <- apiFetch "/student/enrollments" "GET" (StudentDashboard.token st) JNull ;;
       set_state (StudentDashboard.setJoinedCourses (fun _ =>
         match data with JArray items => items | _ => [] end)))
      (fun err => ret tt).
End Component.
End StudentLoaders.

(** ** Student dashboard: the course detail view *)

Module StudentCourseView.
Section Component.
Context {num : Type} {R : Runtime num} {E : Engine num} {B : Backend}.

(** The [useState] cells behind the detail view of a course. *)
Record state : Type := State {
  token : option string;
  selectedCourse : jsval num;
  courseDetails : jsval num;
  courseAssignments : json num;
  courseMaterials : json num;
  courseAnnouncements : json num;
  courseSubmissions : list (json num);
}.


Definition setCourseAssignments (v : json num) (st : state) : state :=
  State (token st) (selectedCourse st) (courseDetails st) v (courseMaterials st)
        (courseAnnouncements st) (courseSubmissions st).


Definition setCourseAnnouncements (v : json num) (st : state) : state :=
  State (token st) (selectedCourse st) (courseDetails st) (courseAssignments st)
        (courseMaterials st) v (courseSubmissions st).





End Component.
End StudentCourseView.

(** ** Teacher dashboard: helpers, course list, announcements, deletions *)

Section TeacherHelpers.
Context {num : Type} {R : Runtime num} {B : Backend} {St : Type}.

(** [fetchUpcomingAssignments(token)]: [assignments || []], and [[]] when
    the request fails. *)
Definition fetchUpcomingAssignments (token : option string) : Async St (json num) :=
  try_catch
    (assignments <- apiFetch "/teacher/assignments/upcoming" "GET" token JNull ;;
     ret (if truthy assignments then assignments else JArray []))
    (fun error => ret (JArray [])).

(** [fetchAssignmentStatistics(assignmentId, token)]: [null] when the
    request fails. *)
Definition fetchAssignmentStatistics (assignmentId : num) (token : option string)
  : Async St (json num) :=
  try_catch
    (apiFetch ("/assignments/" +:+ num_toString assignmentId +:+ "/statistics")
       "GET" token JNull)
    (fun error => ret JNull).
End TeacherHelpers.

Module TeacherCourses.
Section Component.
Context {num : Type} {R : Runtime num} {E : Engine num} {B : Backend}.

Record state : Type := State {
  token : option string;
  redirecting : bool;
  courses : list (json num);
}.

Definition setCourses (v : list (json num)) (st : state) : state :=
  State (token st) (redirecting st) v.

(** [typeof v === "number" ? v : 0]. *)
Definition numberOrZero (v : jsval num) : jsval num :=
  match v with
  | Some (JNum n) => Some (JNum n)
  | _ => Some (JNum (num_of_Z 0))
  end.

(** [v || undefined]. *)
Definition orUndefined (v : jsval num) : jsval num := if val_truthy v then v else None.

(** The callback of [map] in the course effect:
    [{...course, title: course.title || "Untitled Course", subject: ...,
      color: ..., students: ..., assignments: ...}]. *)
Definition normalizeCourse (course : json num) : exn + json num :=
  match getProp course "title" with
  | inl e => inl e
  | inr title =>
      inr (JObject
             (assign "assignments" (numberOrZero (getPropOpt (Some course) "assignments"))
             (assign "students" (numberOrZero (getPropOpt (Some course) "students"))
             (assign "color" (orUndefined (getPropOpt (Some course) "color"))
             (assign "subject" (orUndefined (getPropOpt (Some course) "subject"))
             (assign "title" (js_or title (Some (JString "Untitled Course")))
                (spread course)))))))
  end.

(** [items.map(normalizeCourse)], left to right; a throw leaves the map. *)
Fixpoint normalizeAll (items : list (json num)) : exn + list (json num) :=
  match items with
  | [] => inr []
  | course :: rest =>
      match normalizeCourse course with
      | inl e => inl e
      | inr c =>
          match normalizeAll rest with
          | inl e => inl e
          | inr cs => inr (c :: cs)
          end
      end
  end.

(** The [try] block that picks the list out of the response; when a
    callback throws, [validCourses] keeps its initial [[]]. *)
Definition validCoursesOf (data : json num) : list (json num) :=
  let pick (items : list (json num)) :=
    match normalizeAll items with
    | inr cs => cs
    | inl _ => []
    end in
  match getPropOpt (Some data) "courses", getPropOpt (Some data) "classrooms", data with
  | Some (JArray items), _, _ => pick items
  | _, Some (JArray items), _ => pick items
  | _, _, JArray items => pick items
  | _, _, _ => []
  end.

(** What the page relies on in an entry of the course list: a truthy
    title, numeric counts, and a subject and a colour that are truthy or
    not there. *)
Definition normalized (c : json num) : bool :=
  let isNumber (v : jsval num) := match v with Some (JNum _) => true | _ => false end in
  let truthyOrAbsent (v : jsval num) := match v with Some x => truthy x | None => true end in
  match c with
  | JObject props =>
      val_truthy (lookup_last "title" props)
      && isNumber (lookup_last "students" props)
      && isNumber (lookup_last "assignments" props)
      && truthyOrAbsent (lookup_last "subject" props)
      && truthyOrAbsent (lookup_last "color" props)
  | _ => false
  end.

Definition coursesRequest (token : string) : request :=
  {| url := "http://localhost:8080/api/teacher/classrooms";
     method := "GET";
     headers := [("Authorization", "Bearer " +:+ token)];
     body := None |}.

(** The effect "Fetch courses". *)
Definition loadCourses : Async state unit :=
  st <- get_state ;;
  if negb (opt_truthy (token st)) || redirecting st then ret tt
  else
    try_catch
      (res <- fetch (coursesRequest (default EmptyString (token st))) ;;
       if negb (ok (status res)) then throw (Error "Failed to fetch courses")
       else
         data <- lift (JSON_parse (bodyText res)) ;;
         if negb (truthy data)
            || (negb (match data with JArray _ => true | _ => false end)
                && negb (val_truthy (getPropOpt (Some data) "courses"))
                && negb (val_truthy (getPropOpt (Some data) "classrooms")))
         then set_state (setCourses [])
         else set_state (setCourses (validCoursesOf data)))
      (fun err => ret tt).
End Component.
End TeacherCourses.

Module TeacherAnnouncements.
Section Component.
Context {num : Type} {R : Runtime num} {B : Backend}.

Record state : Type := State {
  token : option string;
  redirecting : bool;
  courses : list (json num);
  selectedCourse : jsval num;
  announcements : list (json num);
  loadingAnnouncements : bool;
}.

Definition setAnnouncements (v : list (json num)) (st : state) : state :=
  State (token st) (redirecting st) (courses st) (selectedCourse st) v
        (loadingAnnouncements st).



End Component.
End TeacherAnnouncements.

Module TeacherDeletions.
Section Component.
Context {num : Type} {R : Runtime num} {E : Engine num} {B : Backend}.

(** The cells the two deletions touch. *)
Record state : Type := State {
  token : option string;
  courseAssignments : list (json num);
  courseAnnouncements : list (json num);
  announcements : list (json num);
}.

Definition setCourseAssignments (f : list (json num) -> list (json num)) (st : state)
  : state :=
  State (token st) (f (courseAssignments st)) (courseAnnouncements st) (announcements st).

Definition setCourseAnnouncements (f : list (json num) -> list (json num)) (st : state)
  : state :=
  State (token st) (courseAssignments st) (f (courseAnnouncements st)) (announcements st).

Definition setAnnouncements (f : list (json num) -> list (json num)) (st : state) : state :=
  State (token st) (courseAssignments st) (courseAnnouncements st) (f (announcements st)).

(** [a => a.<key> !== id], on entries that are not [null]. *)
Definition otherThan (key : string) (id : num) (a : json num) : bool :=
  negb (strictEqNum (getPropOpt (Some a) key) id).

(** [handleDeleteAssignment(assignmentId)]; [confirmed] is the answer to
    the [confirm] dialog. *)
Definition handleDeleteAssignment (confirmed : bool) (assignmentId : num)
  : Async state unit :=
  st <- get_state ;;
  if negb confirmed then ret tt
  else
    try_catch
      (response <- apiFetch ("/assignments/" +:+ num_toString assignmentId) "DELETE"
                     (token st) JNull ;;
       okField <- lift (getProp response "ok") ;;
       if val_truthy okField then
         set_state (setCourseAssignments (List.filter (otherThan "assignment_id" assignmentId))) ;;;
         alert "Assignment deleted successfully."
       else alert "Failed to delete assignment.")
      (fun error => alert "An error occurred while deleting the assignment.").

(** [handleDeleteAnnouncement(announcementId)]. *)
Definition handleDeleteAnnouncement (confirmed : bool) (announcementId : num)
  : Async state unit :=
  st <- get_state ;;
  if negb confirmed then ret tt
  else
    try_catch
      (response <- apiFetch ("/announcements/" +:+ num_toString announcementId) "DELETE"
                     (token st) JNull ;;
       set_state (setCourseAnnouncements
                    (List.filter (otherThan "announcement_id" announcementId))) ;;;
       set_state (setAnnouncements
                    (List.filter (otherThan "announcement_id" announcementId))) ;;;
       alert "Announcement deleted successfully.")
      (fun error => alert "An error occurred while deleting the announcement.").
End Component.
End TeacherDeletions.

(** ** Authentication context: start-up and logout *)

Module AuthSession.
Section Provider.
Context {num : Type} {R : Runtime num} {B : Backend}.

Definition checkRequest (token : string) : request :=
  {| url := "http://localhost:8080/api/auth/check";
     method := "GET";
     headers := [("Authorization", "Bearer " +:+ token)];
     body := None |}.

(** The three statements of both failure branches of [verifyToken]. *)
Definition forget : Async (@AuthContext.state num) unit :=
  sessionStorage_removeItem "token" ;;;
  set_state (AuthContext.setUser None) ;;;
  set_state (AuthContext.setToken None).

Definition verifyToken (token : string) : Async (@AuthContext.state num) unit :=
  try_catch
    (response <- fetch (checkRequest token) ;;
     if ok (status response) then
       data <- lift (JSON_parse (bodyText response)) ;;
       user <- lift (getProp data "user") ;;
       set_state (AuthContext.setUser user) ;;;
       set_state (AuthContext.setToken (Some (JString token)))
     else forget)
    (fun error => forget).

(** The start-up effect and its [checkAuth]. *)
Definition checkAuth : Async (@AuthContext.state num) unit :=
  storedToken <- sessionStorage_getItem "token" ;;
  (if opt_truthy storedToken then
     try_catch (verifyToken (default EmptyString storedToken))
               (fun error => sessionStorage_removeItem "token")
   else ret tt) ;;;
  set_state (AuthContext.setIsLoading false).

(** [logout()]; the second component of the state is
    [window.location.href]. *)
Definition logout : Async (@AuthContext.state num * string) unit :=
  sessionStorage_removeItem "token" ;;;
  sessionStorage_removeItem "user" ;;;
  set_state (fun p => (AuthContext.setUser None (fst p), snd p)) ;;;
  set_state (fun p => (AuthContext.setToken None (fst p), snd p)) ;;;
  set_state (fun p => (fst p, "/login")).

(** [isAuthenticated: !!user && !!token]. *)
Definition isAuthenticated (st : @AuthContext.state num) : bool :=
  val_truthy (AuthContext.user st) && val_truthy (AuthContext.token st).
End Provider.
End AuthSession.

(** ** The route guard *)

Module ProtectedRoute.
Section Guard.
Context {num : Type} {R : Runtime num}.

(** The handler the effect installs on [window.onpopstate]:
    [function () { window.history.go(1) }]. *)
Inductive handler : Type := goForward.

(** What the effect of [ProtectedRoute] acts on: the routes pushed on the
    router and the URLs pushed on [window.history], oldest first in both,
    [window.location.href], and [window.onpopstate]. *)
Record window : Type := Window {
  pushed : list string;
  href : string;
  history : list string;
  onpopstate : option handler;
}.

Definition router_push (path : string) (w : window) : window :=
  Window (pushed w ++ [path]) (href w) (history w) (onpopstate w).

(** The two statements that end the effect:
    [window.history.pushState(null, '', window.location.href)] and the
    assignment to [window.onpopstate]. *)
Definition trapBack (w : window) : window :=
  Window (pushed w) (href w) (history w ++ [href w]) (Some goForward).

(** One pass of the effect of [ProtectedRoute], on what [useAuth] and
    [usePathname] gave it.  The [return] after the push of "/login" leaves
    the effect before its last two statements. *)
Definition effect (isLoading isAuthenticated : bool) (user : jsval num) (pathname : string)
    (w : window) : exn + window :=
  if isLoading then inr (trapBack w)
  else if negb isAuthenticated then inr (router_push "/login" w)
  else if val_truthy user && includes pathname "/dashboard/" then
    let role := getPropOpt user "role" in
    let isTeacherPath := includes pathname "/dashboard/teacher" in
    let isStudentPath := includes pathname "/dashboard/student" in
    if (isTeacherPath && negb (strictEqStr role "teacher"))
       || (isStudentPath && negb (strictEqStr role "student"))
    then
      match ToString role with
      | inl e => inl e
      | inr roleText => inr (trapBack (router_push ("/dashboard/" +:+ roleText) w))
      end
    else inr (trapBack w)
  else inr (trapBack w).
End Guard.
End ProtectedRoute.

(** ** The registration form *)

Module RegisterPage.
Section Page.
Context {num : Type} {R : Runtime num} {B : Backend}.

Record formData : Type := FormData {
  name : string;
  email : string;
  password : string;
  role : string;
  gradeLevel : string;
  enrollmentYear : string;
  department : string;
}.

(** The cells of [RegisterPage], and the routes pushed on the router,
    oldest first. *)
Record state : Type := State {
  form : formData;
  isLoading : bool;
  error : string;
  pushed : list string;
}.

Definition setIsLoading (v : bool) (st : state) : state :=
  State (form st) v (error st) (pushed st).

Definition setError (v : string) (st : state) : state :=
  State (form st) (isLoading st) v (pushed st).

Definition router_push (path : string) (st : state) : state :=
  State (form st) (isLoading st) (error st) (pushed st ++ [path]).

Definition payloadOf (f : formData) : json num :=
  JObject
    ([("Name", JString (name f)); ("Email", JString (email f));
      ("Password", JString (password f)); ("Role", JString (role f))]
     ++ (if String.eqb (role f) "student" then
           [("GradeLevel", JString (gradeLevel f));
            ("EnrollmentYear", JString (enrollmentYear f))]
         else if String.eqb (role f) "teacher" then
           [("Department", JString (department f))]
         else [])).

Definition registerRequest (f : formData) : request :=
  {| url := "http://localhost:8080/api/register";
     method := "POST";
     headers := [("Content-Type", "application/json")];
     body := Some (JSON_stringify (payloadOf f)) |}.

Definition handleSubmit : Async state unit :=
  st <- get_state ;;
  set_state (setIsLoading true) ;;;
  set_state (setError EmptyString) ;;;
  finally
    (try_catch
       (res <- fetch (registerRequest (form st)) ;;
        data <- lift (JSON_parse (bodyText res)) ;;
        if negb (ok (status res)) then
          e <- lift (getProp data "error") ;;
          text <- lift (ToString (js_or e (Some (JString "Registration failed")))) ;;
          throw (Error text)
        else set_state (router_push "/login?registered=true"))
       (fun err => set_state (setError (str_or (message err) "Registration failed"))))
    (setIsLoading false).
End Page.
End RegisterPage.

(** ** Further scenarios *)

Module MoreScenarios.
Import Sample Scenario.

#[export] Instance engine : Engine Z := {|
  num_eqb := Z.eqb;
  notIterableMessage := "value is not iterable";
|}.



(** The backend enrols the student and returns the course joined. *)
Definition enrolled : browser :=
  browserOn
    [("POST", api "/enroll",
      Response 200 (stringify (JObject [("message", JString "ok");
                                         ("course_title", JString "Algebra");
                                         ("course_id", JNum 12);
                                         ("teacher_name", JString "Ms Lee");
                                         ("course", JObject [("course_id", JNum 12)])])))].

(** The backend enrols the student and returns no course; the list of
    enrolments is there to be fetched again. *)
Definition enrolledWithoutCourse : browser :=
  browserOn
    [("POST", api "/enroll",
      Response 200 (stringify (JObject [("message", JString "ok");
                                         ("teacher_name", JString "Ms Lee")])));
     ("GET", api "/student/enrollments",
      Response 200 (stringify (JArray [JObject [("course_id", JNum 12)]])))].

(** The backend enrols the student and names the teacher by a number. *)
Definition enrolledOddTeacher : browser :=
  browserOn
    [("POST", api "/enroll",
      Response 200 (stringify (JObject [("teacher_name", JNum 5);
                                         ("course", JObject [("course_id", JNum 12)])])))].

(** The backend answers the enrolment with the JSON literal [null]. *)
Definition enrolledNull : browser :=
  browserOn [("POST", api "/enroll", Response 200 "null")].

(** A 502 whose body is the JSON literal [null]. *)
Definition badGateway : browser :=
  browserOn [("GET", api "/profile", Response 502 "null")].
(** The list of enrolments comes wrapped in an object. *)
Definition enrollmentsWrapped : browser :=
  browserOn
    [("GET", api "/student/enrollments",
      Response 200 (stringify (JObject [("enrollments", JArray threeCourses)])))].

(** A teacher with a pinned announcement typed in, and the backend
    accepting it. *)
Definition teacherReady : TeacherDashboard.state :=
  TeacherDashboard.State (Some "t0k3n") (Some (JObject [("course_id", JNum 3)]))
    "Exam" "Exam on Friday" true [] [announcement 5 "Algebra"].

Definition announcementPosted : browser :=
  browserOn
    [("POST", api "/announcements",
      Response 201 (stringify (JObject [("announcement_id", JNum 9);
                                         ("title", JString "Exam")])))].

(** The login endpoint refuses the credentials. *)
Definition loginRefused : browser :=
  browserOn
    [("POST", "http://localhost:8080/api/login",
      Response 401 (stringify (JObject [("message", JString "Invalid credentials")])))].




(** The teacher's course list, wrapped under [classrooms], with a course
    without title. *)
Definition teacherHome : @TeacherCourses.state Z := TeacherCourses.State (Some "t0k3n") false [].

Definition coursesListed : browser :=
  browserOn
    [("GET", "http://localhost:8080/api/teacher/classrooms",
      Response 200 (stringify (JObject [("classrooms",
                                         JArray [JObject [("course_id", JNum 1);
                                                          ("title", JString EmptyString)];
                                                 JObject [("course_id", JNum 2);
                                                          ("title", JString "Algebra");
                                                          ("students", JNum 4)]])])))].

(** The same list as a bare array with a [null] entry. *)
Definition coursesWithNull : browser :=
  browserOn
    [("GET", "http://localhost:8080/api/teacher/classrooms",
      Response 200 (stringify (JArray [JObject [("course_id", JNum 1)]; JNull])))].


Definition teacherUser : json Z := JObject [("name", JString "Ms Lee"); ("role", JString "teacher")].
End MoreScenarios.

(** * Properties *)

(** ** Strings and rounding *)

Lemma append_assoc (a b c : string) : (a +:+ b) +:+ c = a +:+ (b +:+ c).
Proof.
  induction a as [|ch a IH]; [reflexivity|].
  change (String ch ((a +:+ b) +:+ c) = String ch (a +:+ (b +:+ c))).
  now rewrite IH.
Qed.

Lemma str_truthy_true (s : string) : str_truthy s = true <-> s <> EmptyString.
Proof.
  destruct s; simpl; split; intros H; congruence.
Qed.

Lemma str_truthy_false (s : string) : str_truthy s = false <-> s = EmptyString.
Proof. destruct s; simpl; split; congruence. Qed.

(** [Math_round_div a b] is the integer nearest to [a / b]: it is off by
    half a unit at most, and a tie goes to the larger neighbour. *)
Lemma Math_round_div_nearest (a b : Z) :
  0 < b -> 2 * a - b < 2 * b * Math_round_div a b <= 2 * a + b.
Proof.
  intros Hb. unfold Math_round_div.
  pose proof (Z.mul_div_le (2 * a + b) (2 * b)) as Hle.
  pose proof (Z.mul_succ_div_gt (2 * a + b) (2 * b)) as Hgt.
  lia.
Qed.

Lemma Math_round_div_nonneg (a b : Z) : 0 < b -> 0 <= a -> 0 <= Math_round_div a b.
Proof.
  intros Hb Ha. unfold Math_round_div. apply Z.div_pos; lia.
Qed.

Lemma Math_round_div_neg (a : Z) : Math_round_div a 1000 < 0 <-> a < -500.
Proof.
  pose proof (Math_round_div_nearest a 1000). lia.
Qed.

(** ** Sequencing *)

Section EffectProperties.
Context {B : Backend} {St : Type}.

Lemma bind_inr {A C : Type} (m : Async St A) (k : A -> Async St C) s s' (a : A) :
  m s = (inr a, s') -> bind m k s = k a s'.
Proof. intros H. unfold bind. now rewrite H. Qed.

Lemma bind_inl {A C : Type} (m : Async St A) (k : A -> Async St C) s s' (e : exn) :
  m s = (inl e, s') -> bind m k s = (inl e, s').
Proof. intros H. unfold bind. now rewrite H. Qed.

End EffectProperties.

(** ** Time formatters *)

Section FormatterProperties.
Context {num : Type} {R : Runtime num}.

(** C9. For every empty or absent timestamp input, [formatDate] returns
    "N/A" and [getRelativeTime] returns "No due date", whatever the clock
    reads. *)
Theorem formatters_on_empty_input (now : Z) (isoDate : option string) :
  opt_truthy isoDate = false ->
  formatDate isoDate = "N/A" /\ getRelativeTime now isoDate = "No due date".
Proof.
  intros Hempty. unfold formatDate, getRelativeTime.
  destruct isoDate as [s|]; simpl in Hempty.
  - rewrite Hempty. split; reflexivity.
  - split; reflexivity.
Qed.

(** C6. [isDueDateOver] returns true if and only if its input is a
    non-empty timestamp whose instant is strictly before the current time;
    an instant equal to the current time gives false, and so does an empty
    or absent input. *)
Theorem isDueDateOver_iff_strictly_past (now : Z) (dueDate : option string) :
  (isDueDateOver now dueDate = true <->
   exists s due, dueDate = Some s /\ s <> EmptyString /\ Date_parse s = Some due /\ due < now)
  /\ (forall s, Date_parse s = Some now -> isDueDateOver now (Some s) = false)
  /\ (opt_truthy dueDate = false -> isDueDateOver now dueDate = false).
Proof.
  unfold isDueDateOver. repeat split.
  - destruct dueDate as [s|]; [|discriminate].
    destruct (str_truthy s) eqn:Hs; [|discriminate].
    destruct (Date_parse s) as [due|] eqn:Hdue; [|discriminate].
    intros Hlt. exists s, due. apply str_truthy_true in Hs. apply Z.ltb_lt in Hlt.
    repeat split; assumption.
  - intros (s & due & -> & Hs & Hdue & Hlt).
    apply str_truthy_true in Hs. rewrite Hs, Hdue. now apply Z.ltb_lt.
  - intros s Hnow. rewrite Hnow, Z.ltb_irrefl. now destruct (str_truthy s).
  - intros Hempty. destruct dueDate as [s|]; simpl in Hempty; [now rewrite Hempty | reflexivity].
Qed.

(** C5, amended. For a non-empty timestamp that denotes an instant,
    [getRelativeTime] takes due minus now, rounds it to seconds and from
    there to minutes, hours and days, each time to the nearest integer
    (neither floor nor ceiling), and names the coarsest unit the rounded
    magnitudes reach: below 60 seconds, below 60 minutes, below 24 hours,
    days otherwise.  The phrase follows the sign of the rounded seconds:
    "due in ..." from half a second in the past onwards, "... overdue"
    for an instant more than half a second in the past. *)
Theorem getRelativeTime_by_rounded_seconds (now due : Z) (s : string) :
  s <> EmptyString ->
  Date_parse s = Some due ->
  (-500 <= due - now ->
   getRelativeTime now (Some s) = "due in " +:+ amountOf (due - now))
  /\ (due - now < -500 ->
      getRelativeTime now (Some s) = amountOf (due - now) +:+ " overdue")
  /\ (forall a b, 0 < b -> 2 * a - b < 2 * b * Math_round_div a b <= 2 * a + b).
Proof.
  intros Hs Hdue. apply str_truthy_true in Hs.
  unfold getRelativeTime. rewrite Hs, Hdue.
  unfold relativeLabel, amountOf, coarsest.
  set (d := due - now).
  set (secs := Math_round_div d 1000).
  set (mins := Math_round_div secs 60).
  set (hrs := Math_round_div mins 60).
  set (days := Math_round_div hrs 24).
  repeat split.
  - intros Hfuture.
    assert (Hsecs : 0 <= secs).
    { pose proof (Math_round_div_neg d). fold secs in H. lia. }
    assert (Hmins : 0 <= mins) by (apply Math_round_div_nonneg; lia).
    assert (Hhrs : 0 <= hrs) by (apply Math_round_div_nonneg; lia).
    assert (Hdays : 0 <= days) by (apply Math_round_div_nonneg; lia).
    rewrite !Z.abs_eq by assumption.
    destruct (Z.ltb_spec secs 0); [lia|].
    destruct (secs <? 60); [reflexivity|].
    destruct (mins <? 60); [reflexivity|].
    destruct (hrs <? 24); reflexivity.
  - intros Hpast.
    assert (Hsecs : secs < 0) by (apply Math_round_div_neg; exact Hpast).
    destruct (Z.ltb_spec secs 0); [|lia].
    destruct (Z.abs secs <? 60); [cbv beta iota; now rewrite append_assoc|].
    destruct (Z.abs mins <? 60); [cbv beta iota; now rewrite append_assoc|].
    destruct (Z.abs hrs <? 24); cbv beta iota; now rewrite append_assoc.
  - apply Math_round_div_nearest; assumption.
  - apply Math_round_div_nearest; assumption.
Qed.
End FormatterProperties.

(** ** Conversion to a string *)

Section ConversionProperties.
Context {num : Type} {R : Runtime num}.

(** Induction on a parsed value, through its items and properties. *)
Lemma json_nested_ind (P : json num -> Prop) :
  P JNull -> (forall b, P (JBool b)) -> (forall n, P (JNum n)) -> (forall s, P (JString s)) ->
  (forall items, Forall P items -> P (JArray items)) ->
  (forall props, Forall (fun p => P (snd p)) props -> P (JObject props)) ->
  forall v, P v.
Proof.
  intros Hnull Hbool Hnum Hstring Harray Hobject.
  fix IH 1.
  intros [| b | n | str | items | props];
    [exact Hnull | apply Hbool | apply Hnum | apply Hstring | | ].
  - apply Harray. revert items. fix IHitems 1. intros [|i items]; constructor.
    + apply IH.
    + apply IHitems.
  - apply Hobject. revert props. fix IHprops 1. intros [|[k v] props]; constructor.
    + apply IH.
    + apply IHprops.
Qed.

(** The conversion to a string throws one error only. *)
Lemma toString_throws (v : json num) (e : exn) :
  toString v = inl e -> e = Error notPrimitiveMessage.
Proof.
  revert e. induction v as [| b | n | str | items IHitems | props _] using json_nested_ind;
    intros e; cbn [toString]; try discriminate.
  - destruct b; discriminate.
  - match goal with
    | |- match ?elements items with _ => _ end = _ -> _ =>
        assert (Hitems : forall e', elements items = inl e' -> e' = Error notPrimitiveMessage);
        [|destruct (elements items) as [e'|texts];
          [intros [= <-]; now apply Hitems | discriminate]]
    end.
    clear e. induction IHitems as [|i items Hi _ IH]; intros e'; [discriminate|].
    destruct (match i with JNull => inr EmptyString | _ => toString i end)
      as [e1|text] eqn:Htext.
    + intros [= <-]. destruct i; try discriminate; exact (Hi _ Htext).
    + match goal with
      | |- match ?rest with _ => _ end = _ -> _ =>
          destruct rest as [e2|texts] eqn:Hrest; [intros [= <-]|discriminate]
      end.
      exact (IH _ eq_refl).
  - destruct (lookup_last "toString" props); [now intros [= <-]|discriminate].
Qed.
End ConversionProperties.

(** ** The request helper *)

Section ApiFetchProperties.
Context {num : Type} {R : Runtime num} {B : Backend} {St : Type}.
Implicit Types (s : St * browser) (token : option string) (data : json num).

(** What [apiFetch] does with a response, and with a request that never
    got one. *)
Lemma apiFetch_responded endpoint method token data s s' response :
  fetch (apiRequest endpoint method token data) s = (inr response, s') ->
  apiFetch endpoint method token data s =
    if negb (ok (status response)) then
      match ToString (errorMessageOf response) with
      | inr errorMessage =>
          (inl (Error (errorMessage +:+ " (Status: " +:+ show_Z (status response) +:+ ")")),
           s')
      | inl e => (inl e, s')
      end
    else if str_truthy (bodyText response) then
      match JSON_parse (bodyText response) with
      | inr result => (inr result, s')
      | inl _ => (inl (Error "Failed to parse response as JSON"), s')
      end
    else (inr (JObject []), s').
Proof.
  intros Hfetch. unfold apiFetch, try_catch, bind. rewrite Hfetch.
  destruct (negb (ok (status response)));
    [unfold lift; now destruct (ToString (errorMessageOf response))|].
  destruct (str_truthy (bodyText response)); [|reflexivity].
  destruct (JSON_parse (bodyText response)); reflexivity.
Qed.

Lemma apiFetch_rejected endpoint method token data s s' e :
  fetch (apiRequest endpoint method token data) s = (inl e, s') ->
  apiFetch endpoint method token data s = (inl e, s').
Proof.
  intros Hfetch. unfold apiFetch, try_catch, bind. now rewrite Hfetch.
Qed.

Lemma fetch_sent (r : request) s :
  fst (snd (fetch r s)) = fst s /\
  sent (snd (snd (fetch r s))) = sent (snd s) ++ [r] /\
  alerts (snd (snd (fetch r s))) = alerts (snd s) /\
  sessionStorage (snd (snd (fetch r s))) = sessionStorage (snd s).
Proof.
  unfold fetch. destruct (serve (remote (snd s)) r) as [[e|response] remote']; simpl; auto.
Qed.

(** [apiFetch] makes one network attempt and touches nothing else. *)
Lemma apiFetch_frame endpoint method token data s :
  fst (snd (apiFetch endpoint method token data s)) = fst s /\
  sent (snd (snd (apiFetch endpoint method token data s))) =
    sent (snd s) ++ [apiRequest endpoint method token data] /\
  alerts (snd (snd (apiFetch endpoint method token data s))) = alerts (snd s) /\
  sessionStorage (snd (snd (apiFetch endpoint method token data s))) = sessionStorage (snd s).
Proof.
  pose proof (fetch_sent (apiRequest endpoint method token data) s) as Hsent.
  destruct (fetch (apiRequest endpoint method token data) s) as [[e|response] s'] eqn:Hfetch.
  - now rewrite (apiFetch_rejected _ _ _ _ _ _ _ Hfetch).
  - rewrite (apiFetch_responded _ _ _ _ _ _ _ Hfetch).
    destruct (negb (ok (status response)));
      [destruct (ToString (errorMessageOf response)); exact Hsent|].
    destruct (str_truthy (bodyText response)); [|exact Hsent].
    destruct (JSON_parse (bodyText response)); exact Hsent.
Qed.





(** C4. On a success status an empty body resolves to the empty object,
    and a non-empty body that [JSON.parse] refuses rejects with
    "Failed to parse response as JSON"; a body that parses resolves to the
    parsed value. *)
Theorem apiFetch_success_body endpoint method token data s s' response :
  fetch (apiRequest endpoint method token data) s = (inr response, s') ->
  ok (status response) = true ->
  (bodyText response = EmptyString ->
   apiFetch endpoint method token data s = (inr (JObject []), s'))
  /\ (forall e, bodyText response <> EmptyString ->
        JSON_parse (bodyText response) = inl e ->
        apiFetch endpoint method token data s =
          (inl (Error "Failed to parse response as JSON"), s'))
  /\ (forall result, bodyText response <> EmptyString ->
        JSON_parse (bodyText response) = inr result ->
        apiFetch endpoint method token data s = (inr result, s')).
Proof.
  intros Hfetch Hok.
  rewrite (apiFetch_responded _ _ _ _ _ _ _ Hfetch), Hok. simpl.
  repeat split.
  - intros ->. reflexivity.
  - intros e Htext ->. apply str_truthy_true in Htext. now rewrite Htext.
  - intros result Htext ->. apply str_truthy_true in Htext. now rewrite Htext.
Qed.

(** C10. The request carries a body exactly when the payload is truthy,
    and then the body is the serialised payload: [null], [0], the empty
    string and [false] all go out without a body.  The header
    [Content-Type: application/json] is on every request, and the request
    so built is the one [apiFetch] sends. *)
Theorem apiRequest_body_only_for_truthy_payload endpoint method token data :
  body (apiRequest endpoint method token data) =
    (if truthy data then Some (JSON_stringify data) else None)
  /\ body (apiRequest endpoint method token JNull) = None
  /\ body (apiRequest endpoint method token (JNum (num_of_Z 0))) = None
  /\ body (apiRequest endpoint method token (JString EmptyString)) = None
  /\ body (apiRequest endpoint method token (JBool false)) = None
  /\ In ("Content-Type", "application/json") (headers (apiRequest endpoint method token data))
  /\ (forall s, sent (snd (snd (apiFetch endpoint method token data s))) =
                sent (snd s) ++ [apiRequest endpoint method token data]).
Proof.
  repeat split; try reflexivity.
  - simpl. now rewrite num_truthy_of_Z.
  - simpl. now left.
  - intros s. apply apiFetch_frame.
Qed.
End ApiFetchProperties.

(** ** Mutation handlers *)

Section HandlerProperties.
Context {num : Type} {R : Runtime num} {B : Backend}.

(** C8. With an empty title, [handleCreateAnnouncement] stops at its
    local validation: it shows the message asking for a course, a title
    and content, and returns with no request issued, the backend and the
    component state untouched. *)
Theorem handleCreateAnnouncement_empty_title
    (st : TeacherDashboard.state) (b : browser) :
  TeacherDashboard.newAnnouncement_title st = EmptyString ->
  TeacherDashboard.handleCreateAnnouncement (st, b) =
    (inr tt,
     (st, Browser (remote b) (sent b)
            (alerts b ++ ["Please provide a course, announcement title, and content"])
            (sessionStorage b)))
  /\ sent (snd (snd (TeacherDashboard.handleCreateAnnouncement (st, b)))) = sent b.
Proof.
  intros Htitle.
  assert (Hrun : TeacherDashboard.handleCreateAnnouncement (st, b) =
    (inr tt,
     (st, Browser (remote b) (sent b)
            (alerts b ++ ["Please provide a course, announcement title, and content"])
            (sessionStorage b)))).
  { unfold TeacherDashboard.handleCreateAnnouncement, bind, get_state. simpl.
    rewrite Htitle. simpl. rewrite orb_true_r. reflexivity. }
  split; [exact Hrun | now rewrite Hrun].
Qed.

(** When the validation passes, one request goes out, whatever comes
    back: the POST of the announcement. *)
Lemma handleCreateAnnouncement_valid_sends_one
    (st : TeacherDashboard.state) (b : browser) :
  val_truthy (TeacherDashboard.selectedCourse st) = true ->
  TeacherDashboard.newAnnouncement_title st <> EmptyString ->
  TeacherDashboard.newAnnouncement_content st <> EmptyString ->
  exists payload,
    sent (snd (snd (TeacherDashboard.handleCreateAnnouncement (st, b)))) =
      sent b ++ [apiRequest "/announcements" "POST" (TeacherDashboard.token st) payload].
Proof.
  intros Hcourse Htitle Hcontent.
  apply str_truthy_true in Htitle. apply str_truthy_true in Hcontent.
  eexists.
  unfold TeacherDashboard.handleCreateAnnouncement, bind at 1, get_state. simpl.
  rewrite Hcourse, Htitle, Hcontent. simpl.
  unfold try_catch, bind at 1.
  match goal with
  | |- context [apiFetch ?e ?m ?t ?d ?s] =>
      pose proof (apiFetch_frame e m t d s) as (_ & Hsent & _ & _);
      destruct (apiFetch e m t d s) as [[err|data] [st' b']]
  end; simpl in Hsent.
  - unfold alert. simpl. exact Hsent.
  - unfold lift, bind.
    destruct (getProp data "announcement_id") as [err|announcement_id]; simpl; exact Hsent.
Qed.

(** C7, amended. When the enrolment request fails, [handleJoinCourse]
    shows one alert.  A message containing "No classroom exists" is
    replaced by the advice to check the course ID; otherwise one containing
    "Teacher does not match the course" is replaced by the advice to check
    the teacher name; the match is case-sensitive.  Any other message is
    shown verbatim after "Enrollment failed: ", an empty one as
    "Unknown error occurred". *)
Theorem handleJoinCourse_failure_alert
    (st st' : StudentDashboard.state) (b b' : browser) (courseId : Z) (msg : string) :
  Number_parseInt (StudentDashboard.joinData_course_id st) = Some courseId ->
  0 < courseId ->
  String_trim (StudentDashboard.joinData_name st) <> EmptyString ->
  apiFetch "/enroll" "POST" (StudentDashboard.token st)
    (JObject [("course_id", JNum (num_of_Z courseId));
              ("teacher_name", JString (String_trim (StudentDashboard.joinData_name st)))])
    (st, b) = (inl (Error msg), (st', b')) ->
  let shown := str_or msg "Unknown error occurred" in
  exists text : string,
    StudentDashboard.handleJoinCourse (st, b) =
      (inr tt, (st', Browser (remote b') (sent b') (alerts b' ++ [text]) (sessionStorage b')))
    /\ (includes shown "No classroom exists" = true ->
        text = "No classroom exists with this Course ID. Please check the ID and try again.")
    /\ (includes shown "No classroom exists" = false ->
        includes shown "Teacher does not match the course" = true ->
        text = "The teacher name does not match the course. Please check the teacher name and try again.")
    /\ (includes shown "No classroom exists" = false ->
        includes shown "Teacher does not match the course" = false ->
        text = "Enrollment failed: " +:+ shown).
Proof.
  intros Hid Hpos Hname Hfetch shown.
  apply str_truthy_true in Hname.
  assert (Hle : (courseId <=? 0) = false) by (apply Z.leb_gt; exact Hpos).
  unfold StudentDashboard.handleJoinCourse, bind at 1, get_state. simpl.
  rewrite Hid, Hle, Hname. simpl.
  unfold try_catch, bind at 1. rewrite Hfetch.
  unfold StudentDashboard.joinCourseFailed. simpl. fold shown.
  destruct (includes shown "No classroom exists") eqn:H1;
    [|destruct (includes shown "Teacher does not match the course") eqn:H2];
    eexists; (split; [reflexivity|]); repeat split; intros; congruence.
Qed.
End HandlerProperties.

(** ** Login *)

Section LoginProperties.
Context {num : Type} {R : Runtime num} {B : Backend}.

(** [login] step by step, from the response to its request. *)
Lemma login_responded (email password : string) (st st1 : AuthContext.state)
    (b b1 : browser) (response : response) :
  fetch (AuthContext.loginRequest email password) (AuthContext.setIsLoading true st, b)
    = (inr response, (st1, b1)) ->
  AuthContext.login email password (st, b) =
    if negb (ok (status response)) then
      let errorData := match JSON_parse (bodyText response) with
                       | inr v => v
                       | inl _ => JObject []
                       end in
      match getProp errorData "message" with
      | inr m =>
          match ToString (js_or m (Some (JString "Login failed"))) with
          | inr text => (inl (Error text), (AuthContext.setIsLoading false st1, b1))
          | inl e => (inl e, (AuthContext.setIsLoading false st1, b1))
          end
      | inl e => (inl e, (AuthContext.setIsLoading false st1, b1))
      end
    else
      match JSON_parse (bodyText response) with
      | inl e => (inl e, (AuthContext.setIsLoading false st1, b1))
      | inr data =>
          match getProp data "user" with
          | inl e => (inl e, (AuthContext.setIsLoading false st1, b1))
          | inr (Some u) =>
              if truthy u && val_truthy (getPropOpt (Some u) "role") then
                match ToString (getPropOpt (Some data) "token") with
                | inr tokenText =>
                    (inr u,
                     (AuthContext.State (Some u) (getPropOpt (Some data) "token") false,
                      Browser (remote b1) (sent b1) (alerts b1)
                        (<["user" := JSON_stringify u]>
                           (<["token" := tokenText]> (sessionStorage b1)))))
                | inl e => (inl e, (AuthContext.setIsLoading false st1, b1))
                end
              else
                (inl (Error "Invalid user data received from server"),
                 (AuthContext.setIsLoading false st1, b1))
          | inr None =>
              (inl (Error "Invalid user data received from server"),
               (AuthContext.setIsLoading false st1, b1))
          end
      end.
Proof.
  intros Hfetch.
  unfold AuthContext.login, finally, try_catch, bind at 1, set_state. simpl.
  unfold bind at 1. rewrite Hfetch.
  destruct (negb (ok (status response))).
  - unfold bind, lift.
    destruct (getProp _ "message") as [e|m]; [reflexivity|].
    destruct (ToString _); reflexivity.
  - unfold bind at 1, lift.
    destruct (JSON_parse (bodyText response)) as [e|data]; [reflexivity|].
    unfold bind at 1.
    destruct (getProp data "user") as [e|[u|]]; [reflexivity| |reflexivity].
    destruct (truthy u); [|reflexivity].
    change (getPropOpt (Some u) "role") with
      (match u with JObject props => lookup_last "role" props | _ => None end).
    destruct (val_truthy _); [|reflexivity].
    cbn [negb orb andb]. unfold bind at 1, getPropOpt.
    destruct (ToString _); reflexivity.
Qed.

Lemma login_rejected (email password : string) (st st1 : AuthContext.state)
    (b b1 : browser) (e : exn) :
  fetch (AuthContext.loginRequest email password) (AuthContext.setIsLoading true st, b)
    = (inl e, (st1, b1)) ->
  AuthContext.login email password (st, b) = (inl e, (AuthContext.setIsLoading false st1, b1)).
Proof.
  intros Hfetch.
  unfold AuthContext.login, finally, try_catch, bind at 1, set_state. simpl.
  unfold bind at 1. now rewrite Hfetch.
Qed.

(** Whatever [login] does after a response, it fails without touching
    the browser or resolves with the user it has stored. *)
Lemma login_settles (email password : string) (st st1 : AuthContext.state)
    (b b1 : browser) (response : response) :
  fetch (AuthContext.loginRequest email password) (AuthContext.setIsLoading true st, b)
    = (inr response, (st1, b1)) ->
  (exists e, AuthContext.login email password (st, b)
             = (inl e, (AuthContext.setIsLoading false st1, b1)))
  \/ (exists props fields tokenText,
        ok (status response) = true
        /\ JSON_parse (bodyText response) = inr (JObject props)
        /\ lookup_last "user" props = Some (JObject fields)
        /\ val_truthy (lookup_last "role" fields) = true
        /\ ToString (lookup_last "token" props) = inr tokenText
        /\ AuthContext.login email password (st, b) =
             (inr (JObject fields),
              (AuthContext.State (Some (JObject fields)) (lookup_last "token" props) false,
               Browser (remote b1) (sent b1) (alerts b1)
                 (<["user" := JSON_stringify (JObject fields)]>
                    (<["token" := tokenText]> (sessionStorage b1)))))).
Proof.
  intros Hfetch. rewrite (login_responded _ _ _ _ _ _ _ Hfetch).
  destruct (ok (status response)) eqn:Hok; cbv beta iota zeta delta [negb].
  - destruct (JSON_parse (bodyText response)) as [e|data] eqn:Hparse; [left; now exists e|].
    destruct data as [| flag | n | str | items | props]; cbn [getProp];
      try (left; eexists; reflexivity).
    destruct (lookup_last "user" props) as [u|] eqn:Huser; [|left; eexists; reflexivity].
    destruct u as [| flag | n | str | items | fields]; cbn [truthy getPropOpt val_truthy].
    + left. eexists; reflexivity.
    + left. destruct flag; eexists; reflexivity.
    + left. destruct (num_truthy n); eexists; reflexivity.
    + left. destruct (str_truthy str); eexists; reflexivity.
    + left. eexists; reflexivity.
    + destruct (val_truthy (lookup_last "role" fields)) eqn:Hrole;
        [|left; eexists; reflexivity].
      cbn [andb].
      destruct (ToString (lookup_last "token" props)) as [e|tokenText] eqn:Htoken;
        [left; now exists e|].
      right. exists props, fields, tokenText. auto 10.
  - left. destruct (getProp _ "message") as [e|m]; [now exists e|].
    destruct (ToString _) as [e|text]; eexists; reflexivity.
Qed.

(** C2, amended. [login] resolves only when the backend answered with a
    success status and a JSON object whose [user] is an object with a
    truthy [role]; it then stores the token and the user under the keys
    "token" and "user".  The token itself is not examined: with such a
    user [login] resolves whatever [data.token] is, and its string form
    goes to storage; only a token that has no string form makes it fail,
    with the error of the conversion.  A success response whose body is
    JSON, not [null], and holds no such user fails with "Invalid user
    data received from server"; a body that is [null] or is not JSON fails
    with the error of the property read or of the parser.  Whenever
    [login] fails, session storage is left as it was. *)
Theorem login_requires_user_and_role (email password : string)
    (st st' : AuthContext.state) (b b' : browser) (r : exn + json num) :
  AuthContext.login email password (st, b) = (r, (st', b')) ->
  let answered (response : response) :=
    fst (fetch (AuthContext.loginRequest email password)
           (AuthContext.setIsLoading true st, b)) = inr response
    /\ ok (status response) = true in
  let stored (user : json num) (tokenText : string) :=
    sessionStorage b' =
      <["user" := JSON_stringify user]> (<["token" := tokenText]> (sessionStorage b)) in
  (forall u, r = inr u ->
     exists response props fields tokenText,
       answered response
       /\ JSON_parse (bodyText response) = inr (JObject props)
       /\ lookup_last "user" props = Some (JObject fields)
       /\ u = JObject fields
       /\ val_truthy (lookup_last "role" fields) = true
       /\ ToString (lookup_last "token" props) = inr tokenText
       /\ stored u tokenText)
  /\ (forall e, r = inl e -> sessionStorage b' = sessionStorage b)
  /\ (forall response props fields,
        answered response ->
        JSON_parse (bodyText response) = inr (JObject props) ->
        lookup_last "user" props = Some (JObject fields) ->
        val_truthy (lookup_last "role" fields) = true ->
        (forall tokenText,
           ToString (lookup_last "token" props) = inr tokenText ->
           r = inr (JObject fields) /\ stored (JObject fields) tokenText)
        /\ (forall e, ToString (lookup_last "token" props) = inl e -> r = inl e))
  /\ (forall response data,
        answered response ->
        JSON_parse (bodyText response) = inr data ->
        data <> JNull ->
        (forall props fields,
           data = JObject props ->
           lookup_last "user" props = Some (JObject fields) ->
           val_truthy (lookup_last "role" fields) = false) ->
        r = inl (Error "Invalid user data received from server"))
  /\ (forall response,
        answered response ->
        JSON_parse (bodyText response) = inr JNull ->
        r = inl (Error (nullReadMessage "user")))
  /\ (forall response e,
        answered response ->
        JSON_parse (bodyText response) = inl e ->
        r = inl e).
Proof.
  intros Hlogin answered stored.
  pose proof (fetch_sent (AuthContext.loginRequest email password)
                (AuthContext.setIsLoading true st, b)) as (_ & _ & _ & Hstore).
  destruct (fetch (AuthContext.loginRequest email password)
              (AuthContext.setIsLoading true st, b)) as [[e0|response] [st1 b1]] eqn:Hfetch;
    cbn [fst snd] in Hstore.
  - rewrite (login_rejected _ _ _ _ _ _ _ Hfetch) in Hlogin.
    injection Hlogin as <- _ <-.
    split; [intros u [=]|]. split; [intros e _; exact Hstore|].
    repeat split; intros; match goal with H : answered _ |- _ => destruct H as [[=] _] end.
  - assert (Hsame : forall response', answered response' ->
                                      response' = response /\ ok (status response) = true).
    { intros response' [[= <-] Hok]. now split. }
    split; [|split; [|split; [|split; [|split]]]].
    + intros u ->.
      destruct (login_settles _ _ _ _ _ _ _ Hfetch)
        as [[e Hfailed]|(props & fields & tokenText & Hok & Hparse & Huser & Hrole & Htoken & Hdone)].
      * rewrite Hfailed in Hlogin. discriminate.
      * rewrite Hdone in Hlogin. injection Hlogin as <- _ <-.
        exists response, props, fields, tokenText. unfold answered, stored.
        cbn [sessionStorage]. rewrite Hstore. auto 10.
    + intros e ->.
      destruct (login_settles _ _ _ _ _ _ _ Hfetch)
        as [[e' Hfailed]|(props & fields & tokenText & _ & _ & _ & _ & _ & Hdone)].
      * rewrite Hfailed in Hlogin. injection Hlogin as _ _ <-. exact Hstore.
      * rewrite Hdone in Hlogin. discriminate.
    + intros response' props fields Hanswered Hparse Huser Hrole.
      destruct (Hsame _ Hanswered) as [-> Hok].
      rewrite (login_responded _ _ _ _ _ _ _ Hfetch), Hok, Hparse in Hlogin.
      cbn [negb getProp] in Hlogin. rewrite Huser in Hlogin.
      cbn [truthy getPropOpt andb] in Hlogin. rewrite Hrole in Hlogin.
      split.
      * intros tokenText Htoken. rewrite Htoken in Hlogin. injection Hlogin as <- _ <-.
        split; [reflexivity|]. unfold stored. cbn [sessionStorage]. now rewrite Hstore.
      * intros e Htoken. rewrite Htoken in Hlogin. now injection Hlogin as <-.
    + intros response' data Hanswered Hparse Hnull Hnone.
      destruct (Hsame _ Hanswered) as [-> Hok].
      rewrite (login_responded _ _ _ _ _ _ _ Hfetch), Hok, Hparse in Hlogin.
      cbn [negb] in Hlogin.
      destruct data as [| flag | n | str | items | props]; [contradiction| | | | |];
        cbn [getProp] in Hlogin; try (now injection Hlogin as <-).
      destruct (lookup_last "user" props) as [u|] eqn:Huser; [|now injection Hlogin as <-].
      destruct u as [| flag | n | str | items | fields];
        cbn [truthy getPropOpt val_truthy] in Hlogin.
      * now injection Hlogin as <-.
      * destruct flag; now injection Hlogin as <-.
      * destruct (num_truthy n); now injection Hlogin as <-.
      * destruct (str_truthy str); now injection Hlogin as <-.
      * now injection Hlogin as <-.
      * rewrite (Hnone props fields eq_refl Huser) in Hlogin. now injection Hlogin as <-.
    + intros response' Hanswered Hparse.
      destruct (Hsame _ Hanswered) as [-> Hok].
      rewrite (login_responded _ _ _ _ _ _ _ Hfetch), Hok, Hparse in Hlogin.
      now injection Hlogin as <-.
    + intros response' e Hanswered Hparse.
      destruct (Hsame _ Hanswered) as [-> Hok].
      rewrite (login_responded _ _ _ _ _ _ _ Hfetch), Hok, Hparse in Hlogin.
      now injection Hlogin as <-.
Qed.
End LoginProperties.

(** ** The per-course fan-out of the student dashboard *)

Section FanOutProperties.
Context {num : Type} {R : Runtime num} {B : Backend}.




(** The request a fan-out makes for one course. *)
Local Abbreviation requestOf kind token :=
  (fun course : json num =>
     start (St := StudentDashboard.state)
       (apiFetch ("/classrooms/"
                  +:+ val_toString (getPropOpt (Some course) "course_id")
                  +:+ "/" +:+ kind) "GET" token JNull)).



End FanOutProperties.

(** ** The model at work *)

Section Examples.
Import Sample Scenario.

(** C9, at the empty string. *)
Lemma formatters_on_empty_input_witness :
  formatDate (Some EmptyString) = "N/A"
  /\ getRelativeTime 1700000000000 (Some EmptyString) = "No due date".
Proof.
  apply (formatters_on_empty_input 1700000000000 (Some EmptyString)).
  reflexivity.
Defined.

(** C6, at the deadline itself and one millisecond later. *)
Lemma isDueDateOver_witness :
  isDueDateOver 4070908800000 (Some due2099) = false
  /\ isDueDateOver 4070908800001 (Some due2099) = true.
Proof.
  split.
  - destruct (isDueDateOver_iff_strictly_past 4070908800000 (Some due2099))
      as (_ & Hboundary & _).
    apply Hboundary. vm_compute. reflexivity.
  - destruct (isDueDateOver_iff_strictly_past 4070908800001 (Some due2099))
      as (Hiff & _ & _).
    apply Hiff. exists due2099, 4070908800000.
    split; [reflexivity|]. split; [discriminate|].
    split; [vm_compute; reflexivity | reflexivity].
Defined.

(** C5 as stated fails: an instant 400 ms in the past is labelled
    "due in 0 seconds", with no " overdue". *)
Lemma getRelativeTime_just_past_counterexample :
  Date_parse due2099 = Some 4070908800000
  /\ 4070908800000 < 4070908800400
  /\ getRelativeTime 4070908800400 (Some due2099) = "due in 0 seconds".
Proof. vm_compute. repeat split. Qed.

(** C5, amended, on the year 2099 seen from 1970 and from 2228. *)
Lemma getRelativeTime_witness :
  getRelativeTime 0 (Some due2099) = "due in 47117 days"
  /\ getRelativeTime 8141817600000 (Some due2099) = "47117 days overdue".
Proof.
  assert (Hne : due2099 <> EmptyString) by discriminate.
  assert (Hdue : Date_parse due2099 = Some 4070908800000) by (vm_compute; reflexivity).
  split.
  - destruct (getRelativeTime_by_rounded_seconds 0 4070908800000 due2099 Hne Hdue)
      as (Hfuture & _ & _).
    rewrite Hfuture by (vm_compute; discriminate).
    vm_compute. reflexivity.
  - destruct (getRelativeTime_by_rounded_seconds 8141817600000 4070908800000 due2099 Hne Hdue)
      as (_ & Hpast & _).
    rewrite Hpast by (vm_compute; reflexivity).
    vm_compute. reflexivity.
Defined.



(** C4, on a 200 with an empty body. *)
Lemma apiFetch_success_witness :
  fst (apiFetch (St := unit) "/materials/4" "DELETE" (Some "t0k3n") JNull (tt, emptyAnswer))
  = inr (JObject []).
Proof.
  pose (s := (tt, emptyAnswer)).
  pose (req := apiRequest "/materials/4" "DELETE" (Some "t0k3n") (JNull : json Z)).
  assert (Hfetch : fetch req s = (inr (Response 200 EmptyString), snd (fetch req s)))
    by (vm_compute; reflexivity).
  destruct (apiFetch_success_body "/materials/4" "DELETE" (Some "t0k3n") JNull
              s (snd (fetch req s)) _ Hfetch eq_refl) as (Hempty & _ & _).
  fold s. now rewrite Hempty.
Defined.

(** C8, on a form with content and no title. *)
Lemma handleCreateAnnouncement_empty_title_witness :
  sent (snd (snd (TeacherDashboard.handleCreateAnnouncement (teacher, browserOn [])))) = []
  /\ alerts (snd (snd (TeacherDashboard.handleCreateAnnouncement (teacher, browserOn []))))
     = ["Please provide a course, announcement title, and content"].
Proof.
  destruct (handleCreateAnnouncement_empty_title teacher (browserOn []) eq_refl)
    as (Hrun & Hsent).
  split; [exact Hsent | now rewrite Hrun].
Defined.

(** C7 as stated fails: the backend message contains
    "teacher does not match" and reaches the user as it is. *)
Lemma handleJoinCourse_lowercase_counterexample :
  includes "teacher does not match (Status: 400)" "teacher does not match" = true
  /\ alerts (snd (snd (StudentDashboard.handleJoinCourse (student, teacherMismatch))))
     = ["Enrollment failed: teacher does not match (Status: 400)"].
Proof. vm_compute. split; reflexivity. Qed.

(** C7, amended, on an unknown classroom. *)
Lemma handleJoinCourse_failure_witness :
  alerts (snd (snd (StudentDashboard.handleJoinCourse (student, classroomUnknown))))
  = ["No classroom exists with this Course ID. Please check the ID and try again."].
Proof.
  pose (payload := JObject [("course_id", JNum 12); ("teacher_name", JString "Ms Lee")]
                   : json Z).
  pose (s' := snd (apiFetch "/enroll" "POST" (Some "t0k3n") payload (student, classroomUnknown))).
  assert (Hfetch :
    apiFetch "/enroll" "POST" (StudentDashboard.token student)
      (JObject [("course_id", JNum (num_of_Z 12));
                ("teacher_name", JString (String_trim (StudentDashboard.joinData_name student)))])
      (student, classroomUnknown)
    = (inl (Error "No classroom exists with ID 12 (Status: 404)"), (fst s', snd s')))
    by (vm_compute; reflexivity).
  assert (Hid : Number_parseInt (StudentDashboard.joinData_course_id student) = Some 12)
    by (vm_compute; reflexivity).
  assert (Hname : String_trim (StudentDashboard.joinData_name student) <> EmptyString)
    by (vm_compute; discriminate).
  destruct (handleJoinCourse_failure_alert student (fst s') classroomUnknown (snd s') 12 _
              Hid eq_refl Hname Hfetch)
    as (text & Hrun & Hfriendly & _ & _).
  rewrite Hrun. cbn [snd alerts].
  rewrite Hfriendly by (vm_compute; reflexivity).
  vm_compute. reflexivity.
Defined.

(** C2 as stated fails: a success response without a token logs the user
    in and stores the string "undefined" as the token. *)
Lemma login_without_token_counterexample :
  fst (AuthContext.login "ann@edu.example" "pw" (signedOut, loginWithoutToken))
  = inr (JObject [("role", JString "student")])
  /\ sessionStorage (snd (snd (AuthContext.login "ann@edu.example" "pw"
                                 (signedOut, loginWithoutToken)))) !! "token"
     = Some "undefined".
Proof. vm_compute. split; reflexivity. Qed.

(** C2, amended, on a success response whose user has no role, and on
    the one without a token: the first fails and stores nothing, the
    second resolves. *)
Lemma login_without_role_witness :
  (fst (AuthContext.login "ann@edu.example" "pw" (signedOut, loginWithoutRole))
   = inl (Error "Invalid user data received from server")
   /\ sessionStorage (snd (snd (AuthContext.login "ann@edu.example" "pw"
                                  (signedOut, loginWithoutRole)))) = ∅)
  /\ fst (AuthContext.login "ann@edu.example" "pw" (signedOut, loginWithoutToken))
     = inr (JObject [("role", JString "student")]).
Proof.
  split.
  - destruct (AuthContext.login "ann@edu.example" "pw" (signedOut, loginWithoutRole))
      as [r [st' b']] eqn:Hlogin.
    destruct (login_requires_user_and_role _ _ _ _ _ _ _ Hlogin)
      as (_ & Hkept & _ & Hinvalid & _).
    pose (data := JObject [("token", JString "abc"); ("user", JObject [("name", JString "Ann")])]
                  : json Z).
    assert (Hr : r = inl (Error "Invalid user data received from server")).
    { apply (Hinvalid (Response 200 (stringify data)) data).
      - split; vm_compute; reflexivity.
      - vm_compute. reflexivity.
      - discriminate.
      - intros props fields Hprops Huser. injection Hprops as <-.
        vm_compute in Huser. injection Huser as <-. reflexivity. }
    split; [exact Hr|].
    cbn [snd]. rewrite (Hkept _ Hr). reflexivity.
  - destruct (AuthContext.login "ann@edu.example" "pw" (signedOut, loginWithoutToken))
      as [r [st' b']] eqn:Hlogin.
    destruct (login_requires_user_and_role _ _ _ _ _ _ _ Hlogin)
      as (_ & _ & Hresolves & _).
    pose (fields := [("role", JString "student")] : list (string * json Z)).
    pose (props := [("user", JObject fields)] : list (string * json Z)).
    destruct (Hresolves (Response 200 (stringify (JObject props))) props fields)
      as [Hresolved _].
    + split; vm_compute; reflexivity.
    + vm_compute. reflexivity.
    + reflexivity.
    + reflexivity.
    + exact (proj1 (Hresolved "undefined" eq_refl)).
Defined.


End Examples.

(** * Further properties *)

(** ** Strings, further *)

Lemma prefix_append (a b : string) : String.prefix a (a +:+ b) = true.
Proof.
  induction a as [|c a IH]; [now destruct b|].
  change (String c a +:+ b) with (String c (a +:+ b)). cbn [String.prefix].
  destruct (ascii_dec c c) as [_|Hne]; [exact IH | now contradiction Hne].
Qed.

(** ** Reading parsed values *)

Section ValueProperties.
Context {num : Type} {R : Runtime num}.

Lemma getProp_not_null (v : json num) (k : string) :
  v <> JNull -> getProp v k = inr (getPropOpt (Some v) k).
Proof. destruct v; intros H; try reflexivity. now contradiction H. Qed.

Lemma getProp_inr_not_null (v : json num) (k : string) (x : jsval num) :
  getProp v k = inr x -> v <> JNull /\ x = getPropOpt (Some v) k.
Proof.
  destruct v; simpl; intros H; try discriminate; injection H as <-; split; congruence.
Qed.
End ValueProperties.

(** ** The request helper, further *)

Section ApiFetchFurther.
Context {num : Type} {R : Runtime num} {B : Backend} {St : Type}.

(** X1. [apiFetch] makes one network attempt and no more, whatever comes
    back: the list of requests grows by exactly the one request, the
    component state, the alerts and session storage are untouched, and a
    request that never got a response rejects with the network's own
    error. *)
Theorem apiFetch_single_attempt (endpoint method : string) (token : option string)
    (data : json num) (s : St * browser) :
  fst (snd (apiFetch endpoint method token data s)) = fst s
  /\ sent (snd (snd (apiFetch endpoint method token data s)))
     = sent (snd s) ++ [apiRequest endpoint method token data]
  /\ alerts (snd (snd (apiFetch endpoint method token data s))) = alerts (snd s)
  /\ sessionStorage (snd (snd (apiFetch endpoint method token data s)))
     = sessionStorage (snd s)
  /\ (forall e s', fetch (apiRequest endpoint method token data) s = (inl e, s') ->
        apiFetch endpoint method token data s = (inl e, s')).
Proof.
  destruct (apiFetch_frame endpoint method token data s) as (H1 & H2 & H3 & H4).
  repeat split; try assumption.
  intros e s' Hfetch. now apply apiFetch_rejected.
Qed.

(** X2. On a non-success status whose body is valid JSON but not an
    object, no message can be read from it: for the literal [null] the
    property read throws and the raw text is used, for a number, a string,
    a boolean or an array the generic "Request failed (Status: <code>)" is
    used; either way the rejection ends in " (Status: <code>)". *)
Theorem apiFetch_non_success_non_object (endpoint method : string) (token : option string)
    (data : json num) (s s' : St * browser) (response : response) (v : json num) :
  fetch (apiRequest endpoint method token data) s = (inr response, s') ->
  ok (status response) = false ->
  JSON_parse (bodyText response) = inr v ->
  (forall props, v <> JObject props) ->
  let code := show_Z (status response) in
  let generic := "Request failed (Status: " +:+ code +:+ ")" in
  apiFetch endpoint method token data s =
    (inl (Error ((match v with
                  | JNull => str_or (bodyText response) generic
                  | _ => generic
                  end) +:+ " (Status: " +:+ code +:+ ")")), s').
Proof.
  intros Hfetch Hok Hparse Hshape code generic.
  rewrite (apiFetch_responded _ _ _ _ _ _ _ Hfetch), Hok. cbn [negb].
  unfold errorMessageOf. fold code. fold generic. rewrite Hparse.
  destruct v; try reflexivity.
  now contradiction (Hshape props).
Qed.
End ApiFetchFurther.

(** ** Joining a course *)

Section JoinCourseProperties.
Context {num : Type} {R : Runtime num} {B : Backend}.

(** The payload of the enrolment request. *)
Local Abbreviation enrolPayload st courseId :=
  (JObject [("course_id", JNum (num_of_Z courseId));
            ("teacher_name", JString (String_trim (StudentDashboard.joinData_name st)))]).

Lemma handleJoinCourse_valid (st : StudentDashboard.state) (b : browser) (courseId : Z) :
  Number_parseInt (StudentDashboard.joinData_course_id st) = Some courseId ->
  0 < courseId ->
  String_trim (StudentDashboard.joinData_name st) <> EmptyString ->
  StudentDashboard.handleJoinCourse (st, b) =
    match apiFetch "/enroll" "POST" (StudentDashboard.token st) (enrolPayload st courseId)
            (st, b) with
    | (inl e, s1) => StudentDashboard.joinCourseFailed e s1
    | (inr result, s1) =>
        match StudentDashboard.enrolledAlert result with
        | inl e => StudentDashboard.joinCourseFailed e s1
        | inr text =>
            try_catch
              (alert text ;;;
               set_state (StudentDashboard.setJoinData EmptyString EmptyString) ;;;
               let course := getPropOpt (Some result) "course" in
               if val_truthy course then
                 set_state (StudentDashboard.setJoinedCourses
                              (fun prev => prev ++ option_list course))
               else
                 enrollments <- apiFetch "/student/enrollments" "GET"
                                  (StudentDashboard.token st) JNull ;;
                 set_state (StudentDashboard.setJoinedCourses (fun _ =>
                   match enrollments with JArray items => items | _ => [] end)))
              StudentDashboard.joinCourseFailed s1
        end
    end.
Proof.
  intros Hid Hpos Hname.
  apply str_truthy_true in Hname.
  assert (Hle : (courseId <=? 0) = false) by (apply Z.leb_gt; exact Hpos).
  unfold StudentDashboard.handleJoinCourse, bind at 1, get_state. cbn [fst].
  rewrite Hid, Hle, Hname. cbn [negb].
  unfold try_catch at 1, bind at 1.
  destruct (apiFetch "/enroll" "POST" _ _ (st, b)) as [[e|result] s1]; [reflexivity|].
  unfold bind at 1, lift at 1.
  destruct (StudentDashboard.enrolledAlert result); reflexivity.
Qed.

(** The [catch] block shows one alert, chosen by the error alone, and
    does nothing else. *)
Lemma joinCourseFailed_run (e : exn) :
  exists text,
    forall s : @StudentDashboard.state num * browser,
      StudentDashboard.joinCourseFailed e s =
        (inr tt, (fst s, Browser (remote (snd s)) (sent (snd s)) (alerts (snd s) ++ [text])
                           (sessionStorage (snd s)))).
Proof.
  destruct (includes (str_or (message e) "Unknown error occurred") "No classroom exists")
    eqn:Hclassroom;
    [|destruct (includes (str_or (message e) "Unknown error occurred")
                  "Teacher does not match the course") eqn:Hteacher];
    eexists; intros s; unfold StudentDashboard.joinCourseFailed;
    rewrite ?Hclassroom, ?Hteacher; reflexivity.
Qed.

(** When the alert can and cannot be built from an object. *)
Lemma enrolledAlert_built (props : list (string * json num)) (m t i : string) :
  (forall v, lookup_last "teacher_name" props = Some v -> truthy v = true ->
             exists name, v = JString name) ->
  ToString (lookup_last "message" props) = inr m ->
  ToString (lookup_last "course_title" props) = inr t ->
  ToString (lookup_last "course_id" props) = inr i ->
  exists teacherInfo,
    (teacherInfo = "No teacher assigned"
     \/ lookup_last "teacher_name" props = Some (JString teacherInfo))
    /\ StudentDashboard.enrolledAlert (JObject props) =
         inr ("Enrollment successful: " +:+ m
              +:+ String newline "Enrolled in " +:+ String dquote t
              +:+ String dquote " (Course ID: " +:+ i
              +:+ ") with teacher: " +:+ teacherInfo).
Proof.
  intros Hteacher Hm Ht Hi.
  unfold StudentDashboard.enrolledAlert. cbn [getProp getPropOpt]. rewrite Hm, Ht, Hi.
  destruct (lookup_last "teacher_name" props) as [v|] eqn:Hv;
    [|exists "No teacher assigned"; split; [now left | reflexivity]].
  destruct (truthy v) eqn:Htruthy.
  - destruct (Hteacher v eq_refl Htruthy) as [name ->].
    cbn [StudentDashboard.teacherInfoOf].
    destruct (str_truthy name && str_truthy (String_trim name)).
    + exists name. split; [now right | reflexivity].
    + exists "No teacher assigned". split; [now left | reflexivity].
  - exists "No teacher assigned". split; [now left|].
    destruct v as [| flag | n | str | items | fields];
      cbn [StudentDashboard.teacherInfoOf truthy]; cbn [truthy] in Htruthy;
      rewrite ?Htruthy; try reflexivity; discriminate.
Qed.

Lemma enrolledAlert_no_trim (props : list (string * json num)) (v : json num) :
  lookup_last "teacher_name" props = Some v ->
  truthy v = true ->
  (forall name, v <> JString name) ->
  StudentDashboard.enrolledAlert (JObject props) =
    inl (Error (notCallableMessage "result.teacher_name.trim")).
Proof.
  intros Hv Htruthy Hother.
  unfold StudentDashboard.enrolledAlert. cbn [getProp]. rewrite Hv.
  destruct v as [| flag | n | str | items | fields];
    cbn [StudentDashboard.teacherInfoOf truthy]; cbn [truthy] in Htruthy;
    rewrite ?Htruthy; try reflexivity; try discriminate.
  now contradiction (Hother str).
Qed.

Lemma enrolledAlert_no_text (props : list (string * json num)) (e : exn) :
  (forall v, lookup_last "teacher_name" props = Some v -> truthy v = true ->
             exists name, v = JString name) ->
  ToString (lookup_last "message" props) = inl e
  \/ ToString (lookup_last "course_title" props) = inl e
  \/ ToString (lookup_last "course_id" props) = inl e ->
  StudentDashboard.enrolledAlert (JObject props) = inl (Error notPrimitiveMessage).
Proof.
  intros Hteacher Hfield.
  assert (Hthrows : forall v e', ToString v = inl e' -> e' = Error notPrimitiveMessage).
  { intros [v|] e'; [apply toString_throws | discriminate]. }
  assert (Hinfo : exists teacherInfo,
             StudentDashboard.teacherInfoOf (lookup_last "teacher_name" props)
             = inr teacherInfo).
  { destruct (lookup_last "teacher_name" props) as [v|]; [|now eexists].
    destruct (truthy v) eqn:Htruthy.
    - destruct (Hteacher v eq_refl Htruthy) as [name ->].
      cbn [StudentDashboard.teacherInfoOf]. destruct (_ && _); now eexists.
    - destruct v as [| flag | n | str | items | fields];
        cbn [StudentDashboard.teacherInfoOf truthy]; cbn [truthy] in Htruthy;
        rewrite ?Htruthy; try discriminate; now eexists. }
  destruct Hinfo as [teacherInfo Hinfo].
  unfold StudentDashboard.enrolledAlert. cbn [getProp getPropOpt]. rewrite Hinfo.
  destruct (ToString (lookup_last "message" props)) as [e1|m] eqn:Hm;
    [now rewrite (Hthrows _ _ Hm)|].
  destruct (ToString (lookup_last "course_title" props)) as [e2|t] eqn:Ht;
    [now rewrite (Hthrows _ _ Ht)|].
  destruct (ToString (lookup_last "course_id" props)) as [e3|i] eqn:Hi;
    [now rewrite (Hthrows _ _ Hi)|].
  destruct Hfield as [H|[H|H]]; discriminate.
Qed.

(** X3. [handleJoinCourse] validates before it sends: a course ID that
    does not parse to a positive integer is answered with "Valid Course ID
    is required", a blank teacher name with "Teacher name is required";
    in both cases no request is issued and the page state is unchanged. *)
Theorem handleJoinCourse_validates_locally (st : StudentDashboard.state) (b : browser) :
  let parsed := Number_parseInt (StudentDashboard.joinData_course_id st) in
  let shows text :=
    StudentDashboard.handleJoinCourse (st, b) =
      (inr tt, (st, Browser (remote b) (sent b) (alerts b ++ [text]) (sessionStorage b))) in
  (parsed = None -> shows "Valid Course ID is required")
  /\ (forall courseId, parsed = Some courseId -> courseId <= 0 ->
        shows "Valid Course ID is required")
  /\ (forall courseId, parsed = Some courseId -> 0 < courseId ->
        String_trim (StudentDashboard.joinData_name st) = EmptyString ->
        shows "Teacher name is required").
Proof.
  intros parsed shows. subst parsed shows. cbv beta.
  repeat split.
  - intros Hnone.
    unfold StudentDashboard.handleJoinCourse, bind, get_state. cbn [fst].
    now rewrite Hnone.
  - intros courseId Hsome Hle. apply Z.leb_le in Hle.
    unfold StudentDashboard.handleJoinCourse, bind, get_state. cbn [fst].
    now rewrite Hsome, Hle.
  - intros courseId Hsome Hpos Hname. apply Z.leb_gt in Hpos.
    unfold StudentDashboard.handleJoinCourse, bind, get_state. cbn [fst].
    now rewrite Hsome, Hpos, Hname.
Qed.

(** X4. When the enrolment request resolves with an object that
    carries a truthy course, what follows depends on whether the success
    alert can be built.  It can when [teacher_name] is absent, falsy or a
    string and [message], [course_title] and [course_id] have string
    forms: the course is then appended at the end of the joined courses,
    the two inputs are cleared and the alert, which starts with
    "Enrollment successful: ", is shown.  It cannot when [teacher_name] is
    truthy and not a string, or when one of the three fields has no string
    form: the [catch] block then shows its alert for that [TypeError], no
    course is appended and the inputs are kept.  In every case the
    enrolment request is the only request sent and one alert is shown. *)
Theorem handleJoinCourse_appends_returned_course
    (st st1 : StudentDashboard.state) (b b1 : browser) (courseId : Z)
    (props : list (string * json num)) (course : json num) :
  Number_parseInt (StudentDashboard.joinData_course_id st) = Some courseId ->
  0 < courseId ->
  String_trim (StudentDashboard.joinData_name st) <> EmptyString ->
  apiFetch "/enroll" "POST" (StudentDashboard.token st) (enrolPayload st courseId) (st, b)
    = (inr (JObject props), (st1, b1)) ->
  lookup_last "course" props = Some course ->
  truthy course = true ->
  let teacher := lookup_last "teacher_name" props in
  let shown (k : string) := ToString (lookup_last k props) in
  let trims := forall v, teacher = Some v -> truthy v = true -> exists name, v = JString name in
  let after (text : string) :=
    Browser (remote b1)
      (sent b ++ [apiRequest "/enroll" "POST" (StudentDashboard.token st)
                    (enrolPayload st courseId)])
      (alerts b ++ [text]) (sessionStorage b) in
  let failed (e : exn) :=
    exists text,
      StudentDashboard.handleJoinCourse (st, b) = (inr tt, (st, after text))
      /\ alerts (snd (snd (StudentDashboard.joinCourseFailed e (st, b)))) = alerts b ++ [text] in
  (trims ->
   forall m t i,
     shown "message" = inr m -> shown "course_title" = inr t -> shown "course_id" = inr i ->
     exists teacherInfo,
       (teacherInfo = "No teacher assigned" \/ teacher = Some (JString teacherInfo))
       /\ StudentDashboard.handleJoinCourse (st, b) =
            (inr tt,
             (StudentDashboard.State (StudentDashboard.token st)
                (StudentDashboard.joinedCourses st ++ [course]) EmptyString EmptyString
                (StudentDashboard.upcomingAssignments st) (StudentDashboard.materials st)
                (StudentDashboard.announcements st),
              after ("Enrollment successful: " +:+ m
                     +:+ String newline "Enrolled in " +:+ String dquote t
                     +:+ String dquote " (Course ID: " +:+ i
                     +:+ ") with teacher: " +:+ teacherInfo))))
  /\ (forall v, teacher = Some v -> truthy v = true -> (forall name, v <> JString name) ->
      failed (Error (notCallableMessage "result.teacher_name.trim")))
  /\ (trims ->
      forall e,
        shown "message" = inl e \/ shown "course_title" = inl e \/ shown "course_id" = inl e ->
        failed (Error notPrimitiveMessage)).
Proof.
  intros Hid Hpos Hname Hfetch Hcourse Htruthy teacher shown trims after failed.
  pose proof (handleJoinCourse_valid st b courseId Hid Hpos Hname) as Hrun.
  rewrite Hfetch in Hrun.
  destruct (apiFetch_frame "/enroll" "POST" (StudentDashboard.token st)
              (enrolPayload st courseId) (st, b)) as (Hst & Hsent & Halerts & Hstore).
  rewrite Hfetch in Hst, Hsent, Halerts, Hstore. cbn [fst snd] in Hst, Hsent, Halerts, Hstore.
  subst st1.
  assert (Hfailed : forall e, StudentDashboard.enrolledAlert (JObject props) = inl e ->
                              failed e).
  { intros e He. rewrite He in Hrun. destruct (joinCourseFailed_run e) as [text Htext].
    exists text. rewrite Hrun, !Htext. cbn [fst snd alerts]. unfold after.
    now rewrite Hsent, Halerts, Hstore. }
  split; [|split].
  - intros Htrims m t i Hm Ht Hi.
    destruct (enrolledAlert_built props m t i Htrims Hm Ht Hi) as (teacherInfo & Hinfo & Hbuilt).
    exists teacherInfo. split; [exact Hinfo|].
    rewrite Hrun, Hbuilt.
    unfold try_catch, bind, alert, set_state. cbn [fst snd getPropOpt].
    rewrite Hcourse. cbn [val_truthy]. rewrite Htruthy.
    cbn [fst snd sent alerts sessionStorage remote option_list]. unfold after.
    now rewrite Hsent, Halerts, Hstore.
  - intros v Hv Hvtruthy Hother. apply Hfailed.
    exact (enrolledAlert_no_trim props v Hv Hvtruthy Hother).
  - intros Htrims e Hfield. apply Hfailed.
    exact (enrolledAlert_no_text props e Htrims Hfield).
Qed.

(** X5. When the enrolment request resolves with an object without a
    truthy course and the success alert can be built, the alert is shown,
    the inputs are cleared and the list of enrolments is fetched again: if
    that request resolves, the joined courses are replaced by its items,
    or by nothing when it is not an array; if it rejects, the joined
    courses stay and a failure alert follows the success alert.  When the
    alert cannot be built, because [teacher_name] is truthy and not a
    string or a field has no string form, and when the request resolves
    with [null], the [catch] block shows its alert for the [TypeError]:
    nothing is cleared and nothing is fetched again. *)
Theorem handleJoinCourse_refreshes_without_course
    (st st1 : StudentDashboard.state) (b b1 : browser) (courseId : Z) (result : json num) :
  Number_parseInt (StudentDashboard.joinData_course_id st) = Some courseId ->
  0 < courseId ->
  String_trim (StudentDashboard.joinData_name st) <> EmptyString ->
  apiFetch "/enroll" "POST" (StudentDashboard.token st) (enrolPayload st courseId) (st, b)
    = (inr result, (st1, b1)) ->
  let failed (e : exn) :=
    exists text,
      StudentDashboard.handleJoinCourse (st, b) =
        (inr tt,
         (st, Browser (remote b1)
                (sent b ++ [apiRequest "/enroll" "POST" (StudentDashboard.token st)
                              (enrolPayload st courseId)])
                (alerts b ++ [text]) (sessionStorage b)))
      /\ alerts (snd (snd (StudentDashboard.joinCourseFailed e (st, b)))) = alerts b ++ [text] in
  (result = JNull -> failed (Error (nullReadMessage "teacher_name")))
  /\ (forall props,
        result = JObject props ->
        val_truthy (lookup_last "course" props) = false ->
        let teacher := lookup_last "teacher_name" props in
        let shown (k : string) := ToString (lookup_last k props) in
        let trims :=
          forall v, teacher = Some v -> truthy v = true -> exists name, v = JString name in
        (trims ->
         forall m t i,
           shown "message" = inr m -> shown "course_title" = inr t ->
           shown "course_id" = inr i ->
           exists teacherInfo s2,
             (teacherInfo = "No teacher assigned" \/ teacher = Some (JString teacherInfo))
             /\ s2 = (StudentDashboard.setJoinData EmptyString EmptyString st,
                      Browser (remote b1) (sent b1)
                        (alerts b ++ ["Enrollment successful: " +:+ m
                                      +:+ String newline "Enrolled in " +:+ String dquote t
                                      +:+ String dquote " (Course ID: " +:+ i
                                      +:+ ") with teacher: " +:+ teacherInfo])
                        (sessionStorage b1))
             /\ match apiFetch "/student/enrollments" "GET" (StudentDashboard.token st)
                        JNull s2 with
                | (inr enrollments, s3) =>
                    StudentDashboard.handleJoinCourse (st, b) =
                      (inr tt,
                       (StudentDashboard.setJoinedCourses
                          (fun _ => match enrollments with JArray items => items | _ => [] end)
                          (StudentDashboard.setJoinData EmptyString EmptyString st),
                        snd s3))
                    /\ alerts (snd s3) = alerts (snd s2)
                | (inl e, s3) =>
                    exists failure,
                      StudentDashboard.handleJoinCourse (st, b) =
                        (inr tt,
                         (StudentDashboard.setJoinData EmptyString EmptyString st,
                          Browser (remote (snd s3)) (sent (snd s3))
                            (alerts (snd s2) ++ [failure]) (sessionStorage (snd s3))))
                end)
        /\ (forall v, teacher = Some v -> truthy v = true -> (forall name, v <> JString name) ->
            failed (Error (notCallableMessage "result.teacher_name.trim")))
        /\ (trims ->
            forall e,
              shown "message" = inl e \/ shown "course_title" = inl e
              \/ shown "course_id" = inl e ->
              failed (Error notPrimitiveMessage))).
Proof.
  intros Hid Hpos Hname Hfetch failed.
  pose proof (handleJoinCourse_valid st b courseId Hid Hpos Hname) as Hrun.
  rewrite Hfetch in Hrun.
  destruct (apiFetch_frame "/enroll" "POST" (StudentDashboard.token st)
              (enrolPayload st courseId) (st, b)) as (Hst & Hsent & Halerts & Hstore).
  rewrite Hfetch in Hst, Hsent, Halerts, Hstore. cbn [fst snd] in Hst, Hsent, Halerts, Hstore.
  subst st1.
  assert (Hfailed : forall e, StudentDashboard.enrolledAlert result = inl e -> failed e).
  { intros e He. rewrite He in Hrun. destruct (joinCourseFailed_run e) as [text Htext].
    exists text. rewrite Hrun, !Htext. cbn [fst snd alerts].
    now rewrite Hsent, Halerts, Hstore. }
  split; [intros ->; now apply Hfailed|].
  intros props -> Hcourse teacher shown trims. split; [|split].
  - intros Htrims m t i Hm Ht Hi.
    destruct (enrolledAlert_built props m t i Htrims Hm Ht Hi) as (teacherInfo & Hinfo & Hbuilt).
    set (text := "Enrollment successful: " +:+ m
                 +:+ String newline "Enrolled in " +:+ String dquote t
                 +:+ String dquote " (Course ID: " +:+ i
                 +:+ ") with teacher: " +:+ teacherInfo) in *.
    set (s2 := (StudentDashboard.setJoinData EmptyString EmptyString st,
                Browser (remote b1) (sent b1) (alerts b ++ [text]) (sessionStorage b1))).
    assert (Hstep :
      StudentDashboard.handleJoinCourse (st, b) =
        try_catch
          (enrollments <- apiFetch "/student/enrollments" "GET"
                            (StudentDashboard.token st) JNull ;;
           set_state (StudentDashboard.setJoinedCourses (fun _ =>
             match enrollments with JArray items => items | _ => [] end)))
          StudentDashboard.joinCourseFailed s2).
    { rewrite Hrun, Hbuilt. unfold try_catch.
      unfold bind at 1, alert at 1. cbn [fst snd].
      unfold bind at 1, set_state at 1. cbn [fst snd getPropOpt].
      rewrite Hcourse, Halerts. reflexivity. }
    exists teacherInfo, s2. split; [exact Hinfo|]. split; [reflexivity|].
    rewrite Hstep.
    pose proof (apiFetch_frame "/student/enrollments" "GET" (StudentDashboard.token st)
                  JNull s2) as (Hst2 & _ & Halerts2 & _).
    destruct (apiFetch "/student/enrollments" "GET" (StudentDashboard.token st) JNull s2)
      as [[e2|enrollments] [st3 b3]] eqn:Hrefresh;
      cbn [fst snd] in Hst2, Halerts2; subst st3.
    + unfold try_catch, bind. rewrite Hrefresh.
      destruct (joinCourseFailed_run e2) as [failure Hfailure]. exists failure.
      rewrite Hfailure. cbn [fst snd]. now rewrite Halerts2.
    + unfold try_catch, bind. rewrite Hrefresh. unfold set_state. cbn [fst snd].
      split; [reflexivity | exact Halerts2].
  - intros v Hv Hvtruthy Hother. apply Hfailed.
    exact (enrolledAlert_no_trim props v Hv Hvtruthy Hother).
  - intros Htrims e Hfield. apply Hfailed.
    exact (enrolledAlert_no_text props e Htrims Hfield).
Qed.

(** X6. When the enrolment request fails, nothing of the page state
    changes: the joined courses and the two inputs are as before, the
    enrolment request is the only one sent, and exactly one alert is
    added. *)
Theorem handleJoinCourse_failure_keeps_state
    (st : StudentDashboard.state) (b : browser) (courseId : Z) (e : exn)
    (s1 : StudentDashboard.state * browser) :
  Number_parseInt (StudentDashboard.joinData_course_id st) = Some courseId ->
  0 < courseId ->
  String_trim (StudentDashboard.joinData_name st) <> EmptyString ->
  apiFetch "/enroll" "POST" (StudentDashboard.token st) (enrolPayload st courseId) (st, b)
    = (inl e, s1) ->
  fst (StudentDashboard.handleJoinCourse (st, b)) = inr tt
  /\ fst (snd (StudentDashboard.handleJoinCourse (st, b))) = st
  /\ sent (snd (snd (StudentDashboard.handleJoinCourse (st, b))))
     = sent b ++ [apiRequest "/enroll" "POST" (StudentDashboard.token st)
                    (enrolPayload st courseId)]
  /\ length (alerts (snd (snd (StudentDashboard.handleJoinCourse (st, b)))))
     = S (length (alerts b)).
Proof.
  intros Hid Hpos Hname Hfetch.
  rewrite (handleJoinCourse_valid st b courseId Hid Hpos Hname), Hfetch.
  destruct (apiFetch_frame "/enroll" "POST" (StudentDashboard.token st)
              (enrolPayload st courseId) (st, b)) as (Hst & Hsent & Halerts & _).
  rewrite Hfetch in Hst, Hsent, Halerts. cbn [fst snd] in Hst, Hsent, Halerts.
  unfold StudentDashboard.joinCourseFailed.
  destruct (includes _ "No classroom exists");
    [|destruct (includes _ "Teacher does not match the course")];
    unfold alert; cbn [fst snd sent alerts]; rewrite Halerts, length_app;
    repeat split; try assumption; cbn [length]; lia.
Qed.
End JoinCourseProperties.

(** ** The per-course fan-out, further *)

Section FanOutFurther.
Context {num : Type} {R : Runtime num} {B : Backend}.

(** Without a token, or before any course is known,
    [fetchCourseData] does nothing at all: no request is sent and the page
    state is unchanged. *)
Theorem fetchCourseData_guard (st : StudentDashboard.state) (b : browser) :
  opt_truthy (StudentDashboard.token st) = false \/ StudentDashboard.joinedCourses st = [] ->
  StudentDashboard.fetchCourseData (st, b) = (inr tt, (st, b)).
Proof.
  intros Hguard.
  unfold StudentDashboard.fetchCourseData, bind, get_state. cbn [fst].
  destruct Hguard as [-> | ->]; [reflexivity|].
  cbn [length Nat.eqb]. now rewrite orb_true_r.
Qed.

(** X7. A fan-out that gets as far as its promises has sent exactly one
    GET per course, in course order, to
    "/classrooms/<course_id>/<kind>", and holds one promise per course;
    a rejected promise among them has not stopped the later requests from
    going out. *)
Theorem fanOut_one_request_per_course (kind : string) (token : option string)
    (courses : list (json num)) (s s1 : StudentDashboard.state * browser)
    (promises : list (exn + json num)) :
  StudentDashboard.fanOut kind token courses s = (inr promises, s1) ->
  length promises = length courses
  /\ sent (snd s1) =
       sent (snd s) ++
       List.map (fun course =>
                   apiRequest ("/classrooms/"
                               +:+ val_toString (getPropOpt (Some course) "course_id")
                               +:+ "/" +:+ kind) "GET" token JNull) courses.
Proof.
  revert s promises. induction courses as [|course courses IH]; intros s promises Hfan.
  - injection Hfan as <- <-. split; [reflexivity|]. cbn [List.map]. now rewrite app_nil_r.
  - unfold StudentDashboard.fanOut in Hfan. cbn [mapM] in Hfan.
    unfold bind at 1 2, lift in Hfan.
    unfold StudentDashboard.classroomEndpoint in Hfan.
    destruct (getProp course "course_id") as [e|id] eqn:Hid; [discriminate|].
    apply getProp_inr_not_null in Hid as [_ ->].
    unfold start in Hfan.
    match type of Hfan with
    | context [apiFetch ?e ?m ?t ?d ?s0] =>
        pose proof (apiFetch_frame e m t d s0) as (_ & Hsent & _ & _);
        destruct (apiFetch e m t d s0) as [r s']
    end.
    cbn [snd] in Hsent.
    unfold bind in Hfan.
    destruct (mapM _ courses s') as [[e|ps] s''] eqn:Hrest; [discriminate|].
    injection Hfan as <- <-.
    destruct (IH s' ps Hrest) as [Hlen Hsent'].
    split; [cbn [length]; now rewrite Hlen|].
    cbn [List.map]. rewrite Hsent', Hsent, <- app_assoc. reflexivity.
Qed.
End FanOutFurther.

(** ** Creating an announcement, further *)

Section AnnouncementProperties.
Context {num : Type} {R : Runtime num} {B : Backend}.

Lemma handleCreateAnnouncement_valid (st : TeacherDashboard.state) (b : browser) :
  val_truthy (TeacherDashboard.selectedCourse st) = true ->
  TeacherDashboard.newAnnouncement_title st <> EmptyString ->
  TeacherDashboard.newAnnouncement_content st <> EmptyString ->
  TeacherDashboard.handleCreateAnnouncement (st, b) =
    match apiFetch "/announcements" "POST" (TeacherDashboard.token st)
            (object [("course_id", getPropOpt (TeacherDashboard.selectedCourse st) "course_id");
                     ("title", Some (JString (TeacherDashboard.newAnnouncement_title st)));
                     ("content", Some (JString (TeacherDashboard.newAnnouncement_content st)));
                     ("is_pinned",
                      Some (JBool (TeacherDashboard.newAnnouncement_is_pinned st)))])
            (st, b) with
    | (inl e, s1) =>
        alert ("An error occurred while creating the announcement: " +:+ message e) s1
    | (inr data, s1) =>
        match getProp data "announcement_id" with
        | inl e =>
            alert ("An error occurred while creating the announcement: " +:+ message e) s1
        | inr announcement_id =>
            let now := clock (remote (snd s1)) in
            let newAnnouncementData :=
              object [("announcement_id",
                       js_or (js_or announcement_id (getPropOpt (Some data) "id"))
                             (Some (JNum (num_of_Z now))));
                      ("course_id", getPropOpt (TeacherDashboard.selectedCourse st) "course_id");
                      ("title", getPropOpt (Some data) "title");
                      ("content", js_or (getPropOpt (Some data) "content")
                                        (Some (JString EmptyString)));
                      ("created_at", js_or (getPropOpt (Some data) "created_at")
                                           (Some (JString (Date_toISOString now))));
                      ("is_pinned", js_or (getPropOpt (Some data) "is_pinned")
                                          (Some (JBool false)))] in
            (inr tt,
             (TeacherDashboard.State (TeacherDashboard.token (fst s1))
                (TeacherDashboard.selectedCourse (fst s1)) EmptyString EmptyString false
                (newAnnouncementData :: TeacherDashboard.courseAnnouncements (fst s1))
                (newAnnouncementData :: TeacherDashboard.announcements (fst s1)),
              Browser (remote (snd s1)) (sent (snd s1))
                (alerts (snd s1) ++ ["Announcement made successfully."])
                (sessionStorage (snd s1))))
        end
    end.
Proof.
  intros Hcourse Htitle Hcontent.
  apply str_truthy_true in Htitle. apply str_truthy_true in Hcontent.
  unfold TeacherDashboard.handleCreateAnnouncement, bind at 1, get_state. cbn [fst].
  rewrite Hcourse, Htitle, Hcontent. cbn [negb orb].
  unfold try_catch, bind at 1.
  destruct (apiFetch "/announcements" "POST" _ _ (st, b)) as [[e|data] s1]; [reflexivity|].
  unfold bind at 1, lift.
  destruct (getProp data "announcement_id") as [e|announcement_id]; reflexivity.
Qed.

(** X8. [handleCreateAnnouncement] sends nothing exactly when the course,
    the title or the content is missing: with the three of them present
    the list of requests sent has changed. *)
Theorem handleCreateAnnouncement_sends_iff_complete
    (st : TeacherDashboard.state) (b : browser) :
  sent (snd (snd (TeacherDashboard.handleCreateAnnouncement (st, b)))) = sent b
  <-> (val_truthy (TeacherDashboard.selectedCourse st) = false
       \/ TeacherDashboard.newAnnouncement_title st = EmptyString
       \/ TeacherDashboard.newAnnouncement_content st = EmptyString).
Proof.
  split.
  - intros Hsent.
    destruct (val_truthy (TeacherDashboard.selectedCourse st)) eqn:Hcourse; [|now left].
    destruct (TeacherDashboard.newAnnouncement_title st) as [|c t] eqn:Htitle;
      [right; now left|].
    destruct (TeacherDashboard.newAnnouncement_content st) as [|c' t'] eqn:Hcontent;
      [right; now right|].
    exfalso.
    destruct (handleCreateAnnouncement_valid_sends_one st b Hcourse) as [payload Hone].
    + rewrite Htitle. discriminate.
    + rewrite Hcontent. discriminate.
    + rewrite Hone in Hsent.
      apply (f_equal (@length request)) in Hsent. rewrite length_app in Hsent.
      cbn [length] in Hsent. lia.
  - intros Hmissing.
    unfold TeacherDashboard.handleCreateAnnouncement, bind, get_state. cbn [fst].
    destruct Hmissing as [-> | [-> | ->]]; cbn [negb orb str_truthy].
    + reflexivity.
    + now rewrite orb_true_r.
    + now rewrite orb_true_r.
Qed.

(** X9. When the POST resolves with an object, the announcement built
    from the response is put at the head of both announcement lists, the
    same entry in both, the form is reset to empty and unpinned, and one
    success alert is shown.  The entry takes its title from the response,
    not from the form, and its course from the selected course. *)
Theorem handleCreateAnnouncement_prepends (st st1 : TeacherDashboard.state)
    (b b1 : browser) (payload : json num) (props : list (string * json num)) :
  val_truthy (TeacherDashboard.selectedCourse st) = true ->
  TeacherDashboard.newAnnouncement_title st <> EmptyString ->
  TeacherDashboard.newAnnouncement_content st <> EmptyString ->
  payload = object [("course_id", getPropOpt (TeacherDashboard.selectedCourse st) "course_id");
                    ("title", Some (JString (TeacherDashboard.newAnnouncement_title st)));
                    ("content", Some (JString (TeacherDashboard.newAnnouncement_content st)));
                    ("is_pinned",
                     Some (JBool (TeacherDashboard.newAnnouncement_is_pinned st)))] ->
  apiFetch "/announcements" "POST" (TeacherDashboard.token st) payload (st, b)
    = (inr (JObject props), (st1, b1)) ->
  exists entry,
    TeacherDashboard.handleCreateAnnouncement (st, b) =
      (inr tt,
       (TeacherDashboard.State (TeacherDashboard.token st)
          (TeacherDashboard.selectedCourse st) EmptyString EmptyString false
          (entry :: TeacherDashboard.courseAnnouncements st)
          (entry :: TeacherDashboard.announcements st),
        Browser (remote b1) (sent b ++ [apiRequest "/announcements" "POST"
                                          (TeacherDashboard.token st) payload])
          (alerts b ++ ["Announcement made successfully."]) (sessionStorage b)))
    /\ getPropOpt (Some entry) "title" = lookup_last "title" props
    /\ getPropOpt (Some entry) "course_id"
       = getPropOpt (TeacherDashboard.selectedCourse st) "course_id".
Proof.
  intros Hcourse Htitle Hcontent -> Hfetch.
  rewrite (handleCreateAnnouncement_valid st b Hcourse Htitle Hcontent), Hfetch.
  match type of Hfetch with
  | apiFetch ?e ?m ?t ?d ?s = _ =>
      destruct (apiFetch_frame e m t d s) as (Hst & Hsent & Halerts & Hstore)
  end.
  rewrite Hfetch in Hst, Hsent, Halerts, Hstore.
  cbn [fst snd] in Hst, Hsent, Halerts, Hstore. subst st1.
  cbn [getProp fst snd]. rewrite Hsent, Halerts, Hstore.
  eexists. split; [reflexivity|].
  unfold object. cbn [getPropOpt].
  destruct (lookup_last "announcement_id" props) as [a|]; cbn [js_or val_truthy];
    destruct (lookup_last "id" props) as [i|];
    destruct (lookup_last "title" props) as [t|];
    destruct (lookup_last "content" props) as [c|];
    destruct (lookup_last "created_at" props) as [d|];
    destruct (lookup_last "is_pinned" props) as [p|];
    destruct (getPropOpt (TeacherDashboard.selectedCourse st) "course_id") as [cid|];
    unfold js_or, val_truthy;
    repeat match goal with
           | |- context [if truthy ?x then _ else _] => destruct (truthy x)
           end;
    split; vm_compute; reflexivity.
Qed.

(** X10. When the POST fails, the announcement lists and the form are
    as they were, the request is the only one sent, and the alert shown
    carries the error's message after "An error occurred while creating
    the announcement: ". *)
Theorem handleCreateAnnouncement_failure_keeps_state (st : TeacherDashboard.state)
    (b : browser) (payload : json num) (e : exn)
    (s1 : TeacherDashboard.state * browser) :
  val_truthy (TeacherDashboard.selectedCourse st) = true ->
  TeacherDashboard.newAnnouncement_title st <> EmptyString ->
  TeacherDashboard.newAnnouncement_content st <> EmptyString ->
  payload = object [("course_id", getPropOpt (TeacherDashboard.selectedCourse st) "course_id");
                    ("title", Some (JString (TeacherDashboard.newAnnouncement_title st)));
                    ("content", Some (JString (TeacherDashboard.newAnnouncement_content st)));
                    ("is_pinned",
                     Some (JBool (TeacherDashboard.newAnnouncement_is_pinned st)))] ->
  apiFetch "/announcements" "POST" (TeacherDashboard.token st) payload (st, b) = (inl e, s1) ->
  TeacherDashboard.handleCreateAnnouncement (st, b) =
    (inr tt,
     (st, Browser (remote (snd s1))
            (sent b ++ [apiRequest "/announcements" "POST" (TeacherDashboard.token st) payload])
            (alerts b ++ ["An error occurred while creating the announcement: "
                          +:+ message e])
            (sessionStorage b))).
Proof.
  intros Hcourse Htitle Hcontent -> Hfetch.
  rewrite (handleCreateAnnouncement_valid st b Hcourse Htitle Hcontent), Hfetch.
  match type of Hfetch with
  | apiFetch ?e ?m ?t ?d ?s = _ =>
      destruct (apiFetch_frame e m t d s) as (Hst & Hsent & Halerts & Hstore)
  end.
  rewrite Hfetch in Hst, Hsent, Halerts, Hstore.
  cbn [fst snd] in Hst, Hsent, Halerts, Hstore.
  unfold alert. now rewrite Hst, Hsent, Halerts, Hstore.
Qed.
End AnnouncementProperties.

(** ** Login, further *)

Section LoginFurther.
Context {num : Type} {R : Runtime num} {B : Backend}.

(** X11. However [login] ends, it has sent exactly one request, the POST
    of the credentials to the login endpoint, it has shown no alert, and
    the loading flag is down again. *)
Theorem login_one_request_and_loading_reset (email password : string)
    (st : @AuthContext.state num) (b : browser) :
  AuthContext.isLoading (fst (snd (AuthContext.login email password (st, b)))) = false
  /\ sent (snd (snd (AuthContext.login email password (st, b))))
     = sent b ++ [AuthContext.loginRequest email password]
  /\ alerts (snd (snd (AuthContext.login email password (st, b)))) = alerts b.
Proof.
  pose proof (fetch_sent (AuthContext.loginRequest email password)
                (AuthContext.setIsLoading true st, b)) as (_ & Hsent & Halerts & _).
  destruct (fetch (AuthContext.loginRequest email password)
              (AuthContext.setIsLoading true st, b)) as [[e0|response] [st1 b1]] eqn:Hfetch;
    cbn [fst snd] in Hsent, Halerts.
  - rewrite (login_rejected _ _ _ _ _ _ _ Hfetch). cbn [fst snd]. auto.
  - destruct (login_settles _ _ _ _ _ _ _ Hfetch)
      as [[e ->]|(props & fields & tokenText & _ & _ & _ & _ & _ & ->)];
      cbn [fst snd sent alerts AuthContext.isLoading]; auto.
Qed.


(** X13. On a non-success status [login] rejects with the string form
    of the [message] of the JSON body when that is truthy, and with
    "Login failed" when the body is an object without a truthy [message]
    or is not JSON at all.  A truthy [message] without a string form makes
    it reject with the error of the conversion, and the body [null] with
    the error of the property read. *)
Theorem login_non_success_message (email password : string)
    (st st1 : @AuthContext.state num) (b b1 : browser) (response : response) :
  fetch (AuthContext.loginRequest email password) (AuthContext.setIsLoading true st, b)
    = (inr response, (st1, b1)) ->
  ok (status response) = false ->
  let rejects (e : exn) := fst (AuthContext.login email password (st, b)) = inl e in
  (forall e, JSON_parse (bodyText response) = inl e -> rejects (Error "Login failed"))
  /\ (forall props v,
        JSON_parse (bodyText response) = inr (JObject props) ->
        lookup_last "message" props = Some v -> truthy v = true ->
        (forall text, toString v = inr text -> rejects (Error text))
        /\ (forall e, toString v = inl e -> rejects e))
  /\ (forall props,
        JSON_parse (bodyText response) = inr (JObject props) ->
        val_truthy (lookup_last "message" props) = false ->
        rejects (Error "Login failed"))
  /\ (JSON_parse (bodyText response) = inr JNull ->
      rejects (Error (nullReadMessage "message"))).
Proof.
  intros Hfetch Hok rejects. unfold rejects.
  rewrite (login_responded _ _ _ _ _ _ _ Hfetch), Hok. cbn [negb]. cbv zeta.
  split; [|split; [|split]].
  - intros e ->. reflexivity.
  - intros props v -> Hmsg Hv. cbn [getProp]. rewrite Hmsg.
    unfold js_or. cbn [val_truthy]. rewrite Hv. cbn [ToString].
    split; [intros text ->|intros e ->]; reflexivity.
  - intros props -> Hmsg. cbn [getProp]. unfold js_or. now rewrite Hmsg.
  - intros ->. reflexivity.
Qed.
End LoginFurther.

(** ** Time formatters, further *)

Section FormatterFurther.
Context {num : Type} {R : Runtime num}.

(** The two phrases of the label, by the side of half a second ago the
    deadline falls on. *)
Lemma relativeLabel_phrases (diffMs : Z) :
  (-500 <= diffMs -> relativeLabel diffMs = "due in " +:+ amountOf diffMs)
  /\ (diffMs < -500 -> relativeLabel diffMs = amountOf diffMs +:+ " overdue").
Proof.
  unfold relativeLabel, amountOf, coarsest.
  set (secs := Math_round_div diffMs 1000).
  set (mins := Math_round_div secs 60).
  set (hrs := Math_round_div mins 60).
  set (days := Math_round_div hrs 24).
  split.
  - intros Hfuture.
    assert (Hsecs : 0 <= secs).
    { pose proof (Math_round_div_neg diffMs) as H. fold secs in H. lia. }
    assert (Hmins : 0 <= mins) by (apply Math_round_div_nonneg; lia).
    assert (Hhrs : 0 <= hrs) by (apply Math_round_div_nonneg; lia).
    assert (Hdays : 0 <= days) by (apply Math_round_div_nonneg; lia).
    rewrite !Z.abs_eq by assumption.
    destruct (Z.ltb_spec secs 0); [lia|].
    destruct (secs <? 60); [reflexivity|].
    destruct (mins <? 60); [reflexivity|].
    destruct (hrs <? 24); reflexivity.
  - intros Hpast.
    assert (Hsecs : secs < 0) by (apply Math_round_div_neg; exact Hpast).
    destruct (Z.ltb_spec secs 0); [|lia].
    destruct (Z.abs secs <? 60); [cbv beta iota; now rewrite append_assoc|].
    destruct (Z.abs mins <? 60); [cbv beta iota; now rewrite append_assoc|].
    destruct (Z.abs hrs <? 24); cbv beta iota; now rewrite append_assoc.
Qed.

(** X14. The label and the predicate agree except in the last half
    second: a deadline that [isDueDateOver] does not count as over is
    always labelled "due in ..."; one passed by more than half a second is
    over and labelled "... overdue"; one passed by half a second or less
    is over and still labelled "due in 0 seconds". *)
Theorem relative_label_agrees_with_over (now due : Z) (s : string) :
  s <> EmptyString ->
  Date_parse s = Some due ->
  (isDueDateOver now (Some s) = false ->
   getRelativeTime now (Some s) = "due in " +:+ amountOf (due - now))
  /\ (due - now < -500 ->
      isDueDateOver now (Some s) = true
      /\ getRelativeTime now (Some s) = amountOf (due - now) +:+ " overdue")
  /\ (-500 <= due - now < 0 ->
      isDueDateOver now (Some s) = true
      /\ getRelativeTime now (Some s) = "due in 0 seconds").
Proof.
  intros Hs Hdue.
  destruct (relativeLabel_phrases (due - now)) as (Hfuture & Hpast).
  apply str_truthy_true in Hs.
  assert (Hlabel : getRelativeTime now (Some s) = relativeLabel (due - now)).
  { unfold getRelativeTime. now rewrite Hs, Hdue. }
  assert (Hover : isDueDateOver now (Some s) = (due <? now)).
  { unfold isDueDateOver. now rewrite Hs, Hdue. }
  rewrite Hlabel.
  rewrite Hover. repeat split.
  - intros Hnot. apply Z.ltb_ge in Hnot. apply Hfuture. lia.
  - apply Z.ltb_lt. lia.
  - now apply Hpast.
  - apply Z.ltb_lt. lia.
  - rewrite Hfuture by lia. unfold amountOf, coarsest.
    assert (Hzero : Math_round_div (due - now) 1000 = 0).
    { pose proof (Math_round_div_nearest (due - now) 1000). lia. }
    rewrite Hzero. reflexivity.
Qed.

(** X15. What [getRelativeTime] counts is bounded by its unit: seconds
    run from 0 to 59 and are used exactly for a difference within 59.5
    seconds of now; minutes run from 1 to 59, hours from 1 to 23, days
    from 1 on.  A count of zero is only ever shown in seconds. *)
Theorem relativeLabel_count_bounds (diffMs : Z) :
  exists (n : Z) (unit : string),
    relativeLabel diffMs =
      (if diffMs <? -500 then show_Z n +:+ " " +:+ unit +:+ " overdue"
       else "due in " +:+ show_Z n +:+ " " +:+ unit)
    /\ ((unit = "seconds" /\ 0 <= n < 60 /\ -59500 <= diffMs < 59500)
        \/ (unit = "minutes" /\ 1 <= n < 60 /\ ~ -59500 <= diffMs < 59500)
        \/ (unit = "hours" /\ 1 <= n < 24 /\ ~ -59500 <= diffMs < 59500)
        \/ (unit = "days" /\ 1 <= n /\ ~ -59500 <= diffMs < 59500)).
Proof.
  unfold relativeLabel.
  set (secs := Math_round_div diffMs 1000).
  set (mins := Math_round_div secs 60).
  set (hrs := Math_round_div mins 60).
  set (days := Math_round_div hrs 24).
  pose proof (Math_round_div_nearest diffMs 1000 ltac:(lia)) as H1. fold secs in H1.
  pose proof (Math_round_div_nearest secs 60 ltac:(lia)) as H2. fold mins in H2.
  pose proof (Math_round_div_nearest mins 60 ltac:(lia)) as H3. fold hrs in H3.
  pose proof (Math_round_div_nearest hrs 24 ltac:(lia)) as H4. fold days in H4.
  destruct (Z.ltb_spec diffMs (-500)) as [Hpast|Hfuture];
    destruct (Z.ltb_spec secs 0) as [Hneg|Hnonneg]; try lia.
  - destruct (Z.ltb_spec (Z.abs secs) 60);
      [|destruct (Z.ltb_spec (Z.abs mins) 60); [|destruct (Z.ltb_spec (Z.abs hrs) 24)]].
    + exists (Z.abs secs), "seconds". split; [reflexivity|]. left. split; [reflexivity|lia].
    + exists (Z.abs mins), "minutes". split; [reflexivity|]. right; left. split; [reflexivity|lia].
    + exists (Z.abs hrs), "hours". split; [reflexivity|]. right; right; left. split; [reflexivity|lia].
    + exists (Z.abs days), "days". split; [reflexivity|]. right; right; right. split; [reflexivity|lia].
  - destruct (Z.ltb_spec secs 60);
      [|destruct (Z.ltb_spec mins 60); [|destruct (Z.ltb_spec hrs 24)]].
    + exists secs, "seconds". split; [reflexivity|]. left. split; [reflexivity|lia].
    + exists mins, "minutes". split; [reflexivity|]. right; left. split; [reflexivity|lia].
    + exists hrs, "hours". split; [reflexivity|]. right; right; left. split; [reflexivity|lia].
    + exists days, "days". split; [reflexivity|]. right; right; right. split; [reflexivity|lia].
Qed.
End FormatterFurther.

(** ** The course detail view of the student *)

Section CourseViewProperties.
Context {num : Type} {R : Runtime num} {E : Engine num} {B : Backend}.

(** The request for the submissions of one assignment. *)
Local Abbreviation submissionsOf token :=
  (fun assignment : json num =>
     start (St := StudentCourseView.state)
       (apiFetch ("/assignments/"
                  +:+ val_toString (getPropOpt (Some assignment) "assignment_id")
                  +:+ "/submissions") "GET" token JNull)).





End CourseViewProperties.

(** ** Loaders that swallow their failures *)

Section LoaderProperties.
Context {num : Type} {R : Runtime num} {B : Backend}.

(** X19. The two fetch helpers of the teacher dashboard never reject.
    [fetchUpcomingAssignments] always hands back a truthy value, the empty
    array when the request failed; [fetchAssignmentStatistics] hands back
    [null] when the request failed.  Both leave the state of the page
    alone. *)
Theorem teacher_fetch_helpers_never_reject {St : Type} (token : option string)
    (assignmentId : num) (s : St * browser) :
  (exists v s',
     fetchUpcomingAssignments token s = (inr v, s')
     /\ truthy v = true
     /\ fst s' = fst s
     /\ (forall e, fst (apiFetch "/teacher/assignments/upcoming" "GET" token JNull s) = inl e ->
         v = JArray []))
  /\ (exists v s',
        fetchAssignmentStatistics assignmentId token s = (inr v, s')
        /\ fst s' = fst s
        /\ (forall e,
              fst (apiFetch ("/assignments/" +:+ num_toString assignmentId +:+ "/statistics")
                     "GET" token JNull s) = inl e ->
              v = JNull)).
Proof.
  split.
  - pose proof (apiFetch_frame "/teacher/assignments/upcoming" "GET" token JNull s)
      as (Hst & _).
    unfold fetchUpcomingAssignments, try_catch, bind.
    destruct (apiFetch "/teacher/assignments/upcoming" "GET" token JNull s)
      as [[e|assignments] s1]; cbn [fst snd] in Hst.
    + exists (JArray []), s1. repeat split; auto.
    + destruct (truthy assignments) eqn:Htruthy.
      * exists assignments, s1.
        repeat split; auto. intros e He. discriminate He.
      * exists (JArray []), s1. repeat split; auto.
  - pose proof (apiFetch_frame ("/assignments/" +:+ num_toString assignmentId +:+ "/statistics")
                  "GET" token JNull s) as (Hst & _).
    unfold fetchAssignmentStatistics, try_catch.
    destruct (apiFetch _ "GET" token JNull s) as [[e|stats] s1]; cbn [fst snd] in Hst.
    + exists JNull, s1. repeat split; auto.
    + exists stats, s1. repeat split; auto. intros e He. discriminate He.
Qed.

(** X20. The course list of the student is an array or nothing: when the
    enrolments resolve with anything that is not an array, the joined
    courses become empty, and the per-course load that follows then sends
    no request at all. *)
Theorem loadJoinedCourses_non_array (st : StudentDashboard.state) (b : browser)
    (data : json num) (s1 : StudentDashboard.state * browser) :
  opt_truthy (StudentDashboard.token st) = true ->
  apiFetch "/student/enrollments" "GET" (StudentDashboard.token st) JNull (st, b)
    = (inr data, s1) ->
  (forall items, data <> JArray items) ->
  let s2 := snd (StudentLoaders.loadJoinedCourses (st, b)) in
  StudentDashboard.joinedCourses (fst s2) = []
  /\ StudentDashboard.fetchCourseData s2 = (inr tt, s2)
  /\ sent (snd s2) = sent b ++ [apiRequest "/student/enrollments" "GET"
                                  (StudentDashboard.token st) JNull].
Proof.
  intros Htoken Hfetch Hshape s2.
  pose proof (apiFetch_frame "/student/enrollments" "GET" (StudentDashboard.token st)
                JNull (st, b)) as (_ & Hsent & _).
  rewrite Hfetch in Hsent. cbn [fst snd] in Hsent.
  assert (Hrun : StudentLoaders.loadJoinedCourses (st, b) =
                 (inr tt, (StudentDashboard.setJoinedCourses (fun _ => []) (fst s1), snd s1))).
  { unfold StudentLoaders.loadJoinedCourses, bind at 1, get_state. cbn [fst].
    rewrite Htoken. cbn [negb].
    unfold try_catch. rewrite (bind_inr _ _ _ _ _ Hfetch). cbv beta.
    unfold set_state. destruct data; try reflexivity.
    now contradiction (Hshape items). }
  subst s2. rewrite Hrun. cbn [snd fst].
  split; [reflexivity|]. split; [|exact Hsent].
  unfold StudentDashboard.fetchCourseData, bind, get_state. cbn [fst].
  cbn [StudentDashboard.setJoinedCourses StudentDashboard.joinedCourses length Nat.eqb].
  now rewrite orb_true_r.
Qed.

(** X21. When the enrolments cannot be fetched, the joined courses the
    page already shows are kept. *)
Theorem loadJoinedCourses_failure_keeps_courses (st : StudentDashboard.state) (b : browser)
    (e : exn) (s1 : StudentDashboard.state * browser) :
  opt_truthy (StudentDashboard.token st) = true ->
  apiFetch "/student/enrollments" "GET" (StudentDashboard.token st) JNull (st, b)
    = (inl e, s1) ->
  StudentLoaders.loadJoinedCourses (st, b) = (inr tt, s1) /\ fst s1 = st.
Proof.
  intros Htoken Hfetch.
  pose proof (apiFetch_frame "/student/enrollments" "GET" (StudentDashboard.token st)
                JNull (st, b)) as (Hst & _).
  rewrite Hfetch in Hst. cbn [fst snd] in Hst. split; [|exact Hst].
  unfold StudentLoaders.loadJoinedCourses, bind at 1, get_state. cbn [fst].
  rewrite Htoken. cbn [negb].
  unfold try_catch. now rewrite (bind_inl _ _ _ _ _ Hfetch).
Qed.
End LoaderProperties.

(** ** The course list of the teacher *)

Section CourseListProperties.
Context {num : Type} {R : Runtime num} {E : Engine num} {B : Backend}.

Lemma lookup_last_app {A : Type} (k : string) (l1 l2 : list (string * A)) :
  lookup_last k (l1 ++ l2) =
    match lookup_last k l2 with
    | Some v => Some v
    | None => lookup_last k l1
    end.
Proof.
  induction l1 as [|[k' v] l1 IH]; cbn [app lookup_last].
  - now destruct (lookup_last k l2).
  - rewrite IH. destruct (lookup_last k l2); [reflexivity|].
    now destruct (lookup_last k l1).
Qed.

Lemma lookup_last_without {A : Type} (k k' : string) (l : list (string * A)) :
  lookup_last k (List.filter (fun p => negb (String.eqb k' (fst p))) l) =
    if String.eqb k' k then None else lookup_last k l.
Proof.
  induction l as [|[k0 v] l IH]; cbn [List.filter lookup_last fst].
  - now destruct (String.eqb k' k).
  - destruct (String.eqb_spec k' k0) as [<-|Hne]; cbn [negb lookup_last].
    + rewrite IH. rewrite (String.eqb_sym k k').
      destruct (String.eqb k' k); [reflexivity|]. now destruct (lookup_last k l).
    + rewrite IH. destruct (String.eqb_spec k' k) as [<-|Hne'].
      * destruct (String.eqb_spec k' k0); [contradiction|reflexivity].
      * reflexivity.
Qed.

Lemma lookup_last_assign (k k' : string) (v : jsval num) (props : list (string * json num)) :
  lookup_last k (assign k' v props) = if String.eqb k' k then v else lookup_last k props.
Proof.
  unfold assign. rewrite lookup_last_app, lookup_last_without.
  destruct v as [x|]; cbn [lookup_last].
  - rewrite (String.eqb_sym k k'). now destruct (String.eqb k' k).
  - reflexivity.
Qed.

Lemma normalizeCourse_normalized (course c : json num) :
  TeacherCourses.normalizeCourse course = inr c -> TeacherCourses.normalized c = true.
Proof.
  unfold TeacherCourses.normalizeCourse.
  destruct (getProp course "title") as [e|title]; [discriminate|].
  intros Heq.
  match type of Heq with inr ?x = inr _ => assert (Hc : c = x) by congruence end.
  subst c. clear Heq.
  generalize (getPropOpt (Some course) "students") (getPropOpt (Some course) "assignments")
             (getPropOpt (Some course) "subject") (getPropOpt (Some course) "color")
             (spread course).
  intros students assignments subject color props.
  unfold TeacherCourses.normalized.
  rewrite !lookup_last_assign. cbn [String.eqb Ascii.eqb Bool.eqb].
  unfold js_or, TeacherCourses.numberOrZero, TeacherCourses.orUndefined.
  assert (Htitle : val_truthy (if val_truthy title then title
                               else Some (JString "Untitled Course")) = true).
  { destruct (val_truthy title) eqn:Ht; [exact Ht | reflexivity]. }
  rewrite Htitle.
  destruct students as [[]|]; destruct assignments as [[]|];
    destruct subject as [subject|]; destruct color as [color|];
    cbn [val_truthy andb];
    repeat match goal with
           | |- context [if truthy ?x then _ else _] =>
               let H := fresh in destruct (truthy x) eqn:H; try rewrite H
           end; reflexivity.
Qed.

Lemma normalizeAll_normalized (items cs : list (json num)) :
  TeacherCourses.normalizeAll items = inr cs ->
  forallb TeacherCourses.normalized cs = true /\ length cs = length items.
Proof.
  revert cs. induction items as [|course items IH]; intros cs; cbn [TeacherCourses.normalizeAll].
  - intros [= <-]. split; reflexivity.
  - destruct (TeacherCourses.normalizeCourse course) as [e|c] eqn:Hc; [discriminate|].
    destruct (TeacherCourses.normalizeAll items) as [e|cs']; [discriminate|].
    intros [= <-]. destruct (IH cs' eq_refl) as [Hall Hlen].
    cbn [forallb length]. rewrite (normalizeCourse_normalized _ _ Hc), Hall, Hlen.
    split; reflexivity.
Qed.

Lemma normalizeAll_null (items : list (json num)) :
  In JNull items -> exists e, TeacherCourses.normalizeAll items = inl e.
Proof.
  induction items as [|course items IH]; [contradiction|].
  intros [-> | Hin]; cbn [TeacherCourses.normalizeAll].
  - eexists. reflexivity.
  - destruct (TeacherCourses.normalizeCourse course); [eexists; reflexivity|].
    destruct (IH Hin) as [e ->]. eexists. reflexivity.
Qed.

Lemma normalizeAll_total (items : list (json num)) :
  Forall (fun c => c <> JNull) items -> exists cs, TeacherCourses.normalizeAll items = inr cs.
Proof.
  induction 1 as [|course items Hc _ IH]; cbn [TeacherCourses.normalizeAll].
  - eexists. reflexivity.
  - unfold TeacherCourses.normalizeCourse. rewrite (getProp_not_null course "title" Hc).
    destruct IH as [cs ->]. eexists. reflexivity.
Qed.

Lemma validCoursesOf_normalized (data : json num) :
  forallb TeacherCourses.normalized (TeacherCourses.validCoursesOf data) = true.
Proof.
  assert (Hpick : forall items,
            forallb TeacherCourses.normalized
              (match TeacherCourses.normalizeAll items with
               | inr cs => cs
               | inl _ => []
               end) = true).
  { intros items. destruct (TeacherCourses.normalizeAll items) as [e|cs] eqn:Hn; [reflexivity|].
    now apply normalizeAll_normalized in Hn. }
  unfold TeacherCourses.validCoursesOf.
  destruct (getPropOpt (Some data) "courses") as [[]|];
    try apply Hpick;
    destruct (getPropOpt (Some data) "classrooms") as [[]|];
    try apply Hpick;
    destruct data; try apply Hpick; reflexivity.
Qed.

(** What [loadCourses] does with a response it could read. *)
Lemma loadCourses_responded (st : TeacherCourses.state) (b : browser) (res : response)
    (s1 : TeacherCourses.state * browser) :
  opt_truthy (TeacherCourses.token st) = true ->
  TeacherCourses.redirecting st = false ->
  fetch (TeacherCourses.coursesRequest (default EmptyString (TeacherCourses.token st))) (st, b)
    = (inr res, s1) ->
  TeacherCourses.loadCourses (st, b) =
    if negb (ok (status res)) then (inr tt, s1)
    else match JSON_parse (bodyText res) with
         | inl _ => (inr tt, s1)
         | inr data =>
             if negb (truthy data)
                || (negb (match data with JArray _ => true | _ => false end)
                    && negb (val_truthy (getPropOpt (Some data) "courses"))
                    && negb (val_truthy (getPropOpt (Some data) "classrooms")))
             then (inr tt, (TeacherCourses.setCourses [] (fst s1), snd s1))
             else (inr tt, (TeacherCourses.setCourses (TeacherCourses.validCoursesOf data)
                              (fst s1), snd s1))
         end.
Proof.
  intros Htoken Hredirecting Hfetch.
  unfold TeacherCourses.loadCourses, bind at 1, get_state. cbn [fst].
  rewrite Htoken, Hredirecting. cbn [negb orb].
  unfold try_catch. rewrite (bind_inr _ _ _ _ _ Hfetch). cbv beta.
  destruct (negb (ok (status res))); [reflexivity|].
  unfold bind, lift.
  destruct (JSON_parse (bodyText res)) as [e|data]; [reflexivity|].
  destruct (negb (truthy data) || _); reflexivity.
Qed.

(** What the callback of [map] makes of one entry of the response: the
    title kept when truthy and "Untitled Course" otherwise, the two counts
    kept when they are numbers and 0 otherwise, subject and colour kept
    when truthy and dropped otherwise, every other property copied. *)
Local Abbreviation normalizedFrom item c :=
  (let read (k : string) := getPropOpt (Some item) k in
   let made (k : string) := getPropOpt (Some c) k in
   let count (k : string) :=
     (forall n, read k = Some (JNum n) -> made k = Some (JNum n))
     /\ ((forall n, read k <> Some (JNum n)) -> made k = Some (JNum (num_of_Z 0))) in
   let optional (k : string) :=
     (val_truthy (read k) = true -> made k = read k)
     /\ (val_truthy (read k) = false -> made k = None) in
   (exists props, c = JObject props)
   /\ (val_truthy (read "title") = true -> made "title" = read "title")
   /\ (val_truthy (read "title") = false -> made "title" = Some (JString "Untitled Course"))
   /\ count "students" /\ count "assignments"
   /\ optional "subject" /\ optional "color"
   /\ (forall k, ~ In k ["title"; "subject"; "color"; "students"; "assignments"] ->
                 made k = lookup_last k (spread item))).

Lemma normalizeCourse_fields (item c : json num) :
  TeacherCourses.normalizeCourse item = inr c -> normalizedFrom item c.
Proof.
  unfold TeacherCourses.normalizeCourse.
  destruct (getProp item "title") as [e|title] eqn:Htitle; [discriminate|].
  assert (Hread : title = getPropOpt (Some item) "title").
  { destruct item; cbn [getProp getPropOpt] in *; congruence. }
  subst title. intros Heq.
  match type of Heq with inr ?x = inr _ => assert (Hc : c = x) by congruence end.
  subst c. clear Heq Htitle.
  generalize (getPropOpt (Some item) "title") (getPropOpt (Some item) "students")
             (getPropOpt (Some item) "assignments") (getPropOpt (Some item) "subject")
             (getPropOpt (Some item) "color") (spread item).
  intros title students assignments subject color props.
  cbn [getPropOpt]. split; [eexists; reflexivity|].
  rewrite !lookup_last_assign. cbn [String.eqb Ascii.eqb Bool.eqb].
  unfold js_or, TeacherCourses.numberOrZero, TeacherCourses.orUndefined.
  split; [now intros ->|]. split; [now intros ->|].
  split; [split; [now intros n ->|]|].
  { intros Hnone. destruct students as [[| | n | | |]|]; try reflexivity.
    now contradiction (Hnone n). }
  split; [split; [now intros n ->|]|].
  { intros Hnone. destruct assignments as [[| | n | | |]|]; try reflexivity.
    now contradiction (Hnone n). }
  split; [split; now intros ->|]. split; [split; now intros ->|].
  intros k Hk. rewrite !lookup_last_assign.
  repeat match goal with
         | |- context [String.eqb ?k' k] =>
             destruct (String.eqb_spec k' k) as [<-|_];
             [exfalso; apply Hk; cbn [In]; tauto|]
         end.
  reflexivity.
Qed.

Lemma normalizeAll_fields (items cs : list (json num)) :
  TeacherCourses.normalizeAll items = inr cs ->
  Forall2 (fun item c => normalizedFrom item c) items cs.
Proof.
  revert cs. induction items as [|item items IH]; intros cs; cbn [TeacherCourses.normalizeAll].
  - intros [= <-]. constructor.
  - destruct (TeacherCourses.normalizeCourse item) as [e|c] eqn:Hc; [discriminate|].
    destruct (TeacherCourses.normalizeAll items) as [e|cs']; [discriminate|].
    intros [= <-]. constructor; [exact (normalizeCourse_fields _ _ Hc) | now apply IH].
Qed.

(** X22. After the course list has been loaded from a success response
    whose body is JSON, every course in the list has a truthy title,
    numeric counts of students and assignments, and a subject and a
    colour that are truthy or absent.  When the response carries its
    entries under [courses], else under [classrooms], else as a bare
    array, and none of them is [null], the list has one course per entry,
    in order, made from it: the title kept when truthy and "Untitled
    Course" otherwise, each count kept when it is a number and 0
    otherwise, subject and colour kept when truthy and dropped otherwise,
    every other property copied. *)
Theorem loadCourses_normalizes (st : TeacherCourses.state) (b : browser) (res : response)
    (s1 : TeacherCourses.state * browser) (data : json num) :
  opt_truthy (TeacherCourses.token st) = true ->
  TeacherCourses.redirecting st = false ->
  fetch (TeacherCourses.coursesRequest (default EmptyString (TeacherCourses.token st))) (st, b)
    = (inr res, s1) ->
  ok (status res) = true ->
  JSON_parse (bodyText res) = inr data ->
  let after := TeacherCourses.courses (fst (snd (TeacherCourses.loadCourses (st, b)))) in
  let carries (items : list (json num)) :=
    (exists props, data = JObject props /\ lookup_last "courses" props = Some (JArray items))
    \/ (exists props,
          data = JObject props
          /\ (forall other, lookup_last "courses" props <> Some (JArray other))
          /\ lookup_last "classrooms" props = Some (JArray items))
    \/ data = JArray items in
  forallb TeacherCourses.normalized after = true
  /\ (forall items,
        carries items ->
        Forall (fun item => item <> JNull) items ->
        Forall2 (fun item c => normalizedFrom item c) items after).
Proof.
  intros Htoken Hredirecting Hfetch Hok Hparse after carries. subst after.
  rewrite (loadCourses_responded st b res s1 Htoken Hredirecting Hfetch), Hok, Hparse.
  cbn [negb]. split.
  { destruct (negb (truthy data) || _);
      cbn [fst snd TeacherCourses.setCourses TeacherCourses.courses].
    - reflexivity.
    - apply validCoursesOf_normalized. }
  intros items Hcarries Hitems.
  destruct (normalizeAll_total items Hitems) as [cs Hcs].
  assert (Hloaded :
    (if negb (truthy data)
        || (negb (match data with JArray _ => true | _ => false end)
            && negb (val_truthy (getPropOpt (Some data) "courses"))
            && negb (val_truthy (getPropOpt (Some data) "classrooms")))
     then (inr tt, (TeacherCourses.setCourses [] (fst s1), snd s1))
     else (inr tt, (TeacherCourses.setCourses (TeacherCourses.validCoursesOf data) (fst s1),
                    snd s1)))
    = (inr tt : exn + unit, (TeacherCourses.setCourses cs (fst s1), snd s1))).
  { destruct Hcarries as [(props & -> & Hcourses)|[(props & -> & Hother & Hclassrooms)| ->]];
      unfold TeacherCourses.validCoursesOf; cbn [truthy negb orb andb getPropOpt].
    - rewrite Hcourses. cbn [val_truthy truthy negb andb]. now rewrite Hcs.
    - rewrite Hclassrooms. cbn [val_truthy truthy negb andb].
      rewrite andb_false_r.
      destruct (lookup_last "courses" props) as [[| | | | other |]|]; rewrite ?Hcs;
        try reflexivity.
      now contradiction (Hother other).
    - now rewrite Hcs. }
  rewrite Hloaded. cbn [fst snd TeacherCourses.setCourses TeacherCourses.courses].
  now apply normalizeAll_fields.
Qed.

(** X23. How the course list follows the shape of the response: a bare
    array of entries none of which is [null] gives a list of the same
    length; a single [null] entry makes the whole list empty; so does a
    response that is neither an array nor an object with [courses] or
    [classrooms].  When the status is not a success or the body is not
    JSON, the list is left as it was. *)
Theorem loadCourses_by_shape (st : TeacherCourses.state) (b : browser) (res : response)
    (s1 : TeacherCourses.state * browser) :
  opt_truthy (TeacherCourses.token st) = true ->
  TeacherCourses.redirecting st = false ->
  fetch (TeacherCourses.coursesRequest (default EmptyString (TeacherCourses.token st))) (st, b)
    = (inr res, s1) ->
  let after := TeacherCourses.courses (fst (snd (TeacherCourses.loadCourses (st, b)))) in
  (ok (status res) = false -> after = TeacherCourses.courses st)
  /\ (forall e, JSON_parse (bodyText res) = inl e -> after = TeacherCourses.courses st)
  /\ (forall items,
        ok (status res) = true ->
        JSON_parse (bodyText res) = inr (JArray items) ->
        (Forall (fun c => c <> JNull) items -> length after = length items)
        /\ (In JNull items -> after = []))
  /\ (forall data,
        ok (status res) = true ->
        JSON_parse (bodyText res) = inr data ->
        (forall items, data <> JArray items) ->
        val_truthy (getPropOpt (Some data) "courses") = false ->
        val_truthy (getPropOpt (Some data) "classrooms") = false ->
        after = []).
Proof.
  intros Htoken Hredirecting Hfetch after. subst after.
  pose proof (fetch_sent (TeacherCourses.coursesRequest
                            (default EmptyString (TeacherCourses.token st))) (st, b))
    as (Hst & _).
  rewrite Hfetch in Hst. cbn [fst snd] in Hst.
  rewrite (loadCourses_responded st b res s1 Htoken Hredirecting Hfetch).
  repeat split.
  - intros ->. cbn [negb fst snd]. now rewrite Hst.
  - intros e ->. destruct (negb (ok (status res))); cbn [fst snd]; now rewrite Hst.
  - intros Hall. rewrite H, H0. cbn [negb truthy orb andb fst snd getPropOpt].
    cbn [TeacherCourses.setCourses TeacherCourses.courses].
    unfold TeacherCourses.validCoursesOf. cbn [getPropOpt].
    destruct (normalizeAll_total items Hall) as [cs Hcs]. rewrite Hcs.
    now apply normalizeAll_normalized in Hcs.
  - intros Hnull. rewrite H, H0. cbn [negb truthy orb andb fst snd getPropOpt].
    cbn [TeacherCourses.setCourses TeacherCourses.courses].
    unfold TeacherCourses.validCoursesOf. cbn [getPropOpt].
    destruct (normalizeAll_null items Hnull) as [e ->]. reflexivity.
  - intros data -> -> Hshape Hcourses Hclassrooms. cbn [negb].
    rewrite Hcourses, Hclassrooms. cbn [negb andb].
    destruct (truthy data); cbn [negb orb].
    + destruct data; cbn [negb andb orb]; try reflexivity.
      now contradiction (Hshape items).
    + reflexivity.
Qed.
End CourseListProperties.

(** ** The announcements of the teacher dashboard *)

Section TeacherAnnouncementProperties.
Context {num : Type} {R : Runtime num} {B : Backend}.

End TeacherAnnouncementProperties.

(** ** Deleting an assignment, deleting an announcement *)

Section DeletionProperties.
Context {num : Type} {R : Runtime num} {E : Engine num} {B : Backend}.

(** X25. [handleDeleteAssignment] decides on the [ok] property of the
    parsed response body, not on the status: when the DELETE resolves
    with an object without a truthy [ok], as it does for the empty body of
    a success, the assignment stays in the list and the user is told
    "Failed to delete assignment."; only a truthy [ok] removes the entries
    with that id, from a list whose entries are not [null].  Declining
    the confirmation sends nothing and changes nothing. *)
Theorem handleDeleteAssignment_needs_ok_field (assignmentId : num)
    (st : TeacherDeletions.state) (b : browser) :
  TeacherDeletions.handleDeleteAssignment false assignmentId (st, b) = (inr tt, (st, b))
  /\ (forall props s1,
        Forall (fun a => a <> JNull) (TeacherDeletions.courseAssignments st) ->
        apiFetch ("/assignments/" +:+ num_toString assignmentId) "DELETE"
          (TeacherDeletions.token st) JNull (st, b) = (inr (JObject props), s1) ->
        TeacherDeletions.handleDeleteAssignment true assignmentId (st, b) =
          if val_truthy (lookup_last "ok" props) then
            (inr tt,
             (TeacherDeletions.setCourseAssignments
                (List.filter (TeacherDeletions.otherThan "assignment_id" assignmentId)) st,
              Browser (remote (snd s1)) (sent (snd s1))
                (alerts b ++ ["Assignment deleted successfully."]) (sessionStorage b)))
          else
            (inr tt,
             (st, Browser (remote (snd s1)) (sent (snd s1))
                    (alerts b ++ ["Failed to delete assignment."]) (sessionStorage b)))).
Proof.
  split; [reflexivity|].
  intros props s1 _ Hfetch.
  match type of Hfetch with
  | apiFetch ?ep ?m ?t ?d ?s = _ =>
      pose proof (apiFetch_frame ep m t d s) as (Hst & _ & Halerts & Hstore)
  end.
  rewrite Hfetch in Hst, Halerts, Hstore. cbn [fst snd] in Hst, Halerts, Hstore.
  unfold TeacherDeletions.handleDeleteAssignment, bind at 1, get_state. cbn [fst negb].
  unfold try_catch. rewrite (bind_inr _ _ _ _ _ Hfetch). cbv beta.
  unfold bind at 1, lift. cbn [getProp].
  destruct (val_truthy (lookup_last "ok" props)).
  - unfold bind, set_state, alert. cbn [fst snd]. now rewrite Hst, Halerts, Hstore.
  - unfold alert. cbn [fst snd]. now rewrite Hst, Halerts, Hstore.
Qed.

(** X26. When its DELETE resolves, [handleDeleteAnnouncement] removes
    from both announcement lists, their entries not being [null], exactly
    the entries whose [announcement_id] is that number, keeping the
    others in order; when
    the DELETE fails both lists are untouched and the alert is the fixed
    "An error occurred while deleting the announcement.", without the
    error's own message. *)
Theorem handleDeleteAnnouncement_removes_by_id (announcementId : num)
    (st : TeacherDeletions.state) (b : browser) :
  let endpoint := "/announcements/" +:+ num_toString announcementId in
  let keep := TeacherDeletions.otherThan "announcement_id" announcementId in
  (forall response s1,
     Forall (fun a => a <> JNull) (TeacherDeletions.courseAnnouncements st) ->
     Forall (fun a => a <> JNull) (TeacherDeletions.announcements st) ->
     apiFetch endpoint "DELETE" (TeacherDeletions.token st) JNull (st, b) = (inr response, s1) ->
     let st' := fst (snd (TeacherDeletions.handleDeleteAnnouncement true announcementId (st, b))) in
     TeacherDeletions.courseAnnouncements st'
       = List.filter keep (TeacherDeletions.courseAnnouncements st)
     /\ TeacherDeletions.announcements st'
        = List.filter keep (TeacherDeletions.announcements st)
     /\ TeacherDeletions.courseAssignments st' = TeacherDeletions.courseAssignments st
     /\ (forall a, In a (TeacherDeletions.announcements st') <->
                   In a (TeacherDeletions.announcements st)
                   /\ strictEqNum (getPropOpt (Some a) "announcement_id") announcementId = false))
  /\ (forall e s1,
        apiFetch endpoint "DELETE" (TeacherDeletions.token st) JNull (st, b) = (inl e, s1) ->
        TeacherDeletions.handleDeleteAnnouncement true announcementId (st, b) =
          (inr tt,
           (st, Browser (remote (snd s1)) (sent (snd s1))
                  (alerts b ++ ["An error occurred while deleting the announcement."])
                  (sessionStorage b)))).
Proof.
  intros endpoint keep. split.
  - intros response s1 _ _ Hfetch st'. subst st'.
    pose proof (apiFetch_frame endpoint "DELETE" (TeacherDeletions.token st) JNull (st, b))
      as (Hst & _).
    rewrite Hfetch in Hst. cbn [fst snd] in Hst.
    assert (Hrun : fst (snd (TeacherDeletions.handleDeleteAnnouncement true announcementId (st, b)))
                   = TeacherDeletions.setAnnouncements (List.filter keep)
                       (TeacherDeletions.setCourseAnnouncements (List.filter keep) st)).
    { unfold TeacherDeletions.handleDeleteAnnouncement, bind at 1, get_state. cbn [fst negb].
      fold endpoint. unfold try_catch, bind. rewrite Hfetch.
      unfold set_state, alert. cbn [fst snd]. now rewrite Hst. }
    rewrite Hrun.
    cbn [TeacherDeletions.setAnnouncements TeacherDeletions.setCourseAnnouncements
         TeacherDeletions.courseAnnouncements TeacherDeletions.announcements
         TeacherDeletions.courseAssignments].
    split; [reflexivity|]. split; [reflexivity|]. split; [reflexivity|].
    intros a. rewrite filter_In. unfold keep, TeacherDeletions.otherThan.
    now rewrite negb_true_iff.
  - intros e s1 Hfetch.
    pose proof (apiFetch_frame endpoint "DELETE" (TeacherDeletions.token st) JNull (st, b))
      as (Hst & _ & Halerts & Hstore).
    rewrite Hfetch in Hst, Halerts, Hstore. cbn [fst snd] in Hst, Halerts, Hstore.
    unfold TeacherDeletions.handleDeleteAnnouncement, bind at 1, get_state. cbn [fst negb].
    fold endpoint. unfold try_catch. rewrite (bind_inl _ _ _ _ _ Hfetch).
    unfold alert. cbn [fst snd]. now rewrite Hst, Halerts, Hstore.
Qed.
End DeletionProperties.

(** ** Start-up check and logout of the authentication context *)

Section AuthSessionProperties.
Context {num : Type} {R : Runtime num} {B : Backend}.

Local Ltac settled :=
  unfold AuthSession.forget, bind, sessionStorage_removeItem, set_state, lift;
  cbn [fst snd]; reflexivity.

(** [verifyToken] settles without rejecting, after one request; it ends
    either holding the token it was given or with user and token cleared
    and the stored token removed. *)
Lemma verifyToken_run (token : string) (st : @AuthContext.state num) (b : browser) :
  exists st' b',
    AuthSession.verifyToken token (st, b) = (inr tt, (st', b'))
    /\ AuthContext.isLoading st' = AuthContext.isLoading st
    /\ sent b' = sent b ++ [AuthSession.checkRequest token]
    /\ alerts b' = alerts b
    /\ ((AuthContext.token st' = Some (JString token)
         /\ sessionStorage b' = sessionStorage b
         /\ exists response data,
              fst (fetch (AuthSession.checkRequest token) (st, b)) = inr response
              /\ ok (status response) = true
              /\ JSON_parse (bodyText response) = inr data
              /\ getProp data "user" = inr (AuthContext.user st'))
        \/ (AuthContext.user st' = None /\ AuthContext.token st' = None
            /\ sessionStorage b' = delete "token" (sessionStorage b))).
Proof.
  pose proof (fetch_sent (AuthSession.checkRequest token) (st, b)) as (Hst & Hsent & Halerts & Hstore).
  destruct (fetch (AuthSession.checkRequest token) (st, b)) as [[e|response] [st1 b1]] eqn:Hfetch;
    cbn [fst snd] in Hst, Hsent, Halerts, Hstore; subst st1.
  - eexists _, _. split.
    { unfold AuthSession.verifyToken, try_catch. rewrite (bind_inl _ _ _ _ _ Hfetch).
      settled. }
    cbn [AuthContext.setToken AuthContext.setUser AuthContext.isLoading AuthContext.user
         AuthContext.token sent alerts sessionStorage].
    repeat (split; [assumption || reflexivity|]). right. now rewrite Hstore.
  - destruct (ok (status response)) eqn:Hok.
    + destruct (JSON_parse (bodyText response)) as [e|data] eqn:Hparse.
      * eexists _, _. split.
        { unfold AuthSession.verifyToken, try_catch. rewrite (bind_inr _ _ _ _ _ Hfetch).
          rewrite Hok. unfold bind at 1, lift. rewrite Hparse. settled. }
        cbn [AuthContext.setToken AuthContext.setUser AuthContext.isLoading AuthContext.user
             AuthContext.token sent alerts sessionStorage].
        repeat (split; [assumption || reflexivity|]). right. now rewrite Hstore.
      * destruct (getProp data "user") as [e|user] eqn:Huser.
        -- eexists _, _. split.
           { unfold AuthSession.verifyToken, try_catch. rewrite (bind_inr _ _ _ _ _ Hfetch).
             rewrite Hok. unfold bind at 1, lift. rewrite Hparse.
             unfold bind at 1. rewrite Huser. settled. }
           cbn [AuthContext.setToken AuthContext.setUser AuthContext.isLoading AuthContext.user
                AuthContext.token sent alerts sessionStorage].
           repeat (split; [assumption || reflexivity|]). right. now rewrite Hstore.
        -- eexists _, _. split.
           { unfold AuthSession.verifyToken, try_catch. rewrite (bind_inr _ _ _ _ _ Hfetch).
             rewrite Hok. unfold bind at 1, lift. rewrite Hparse.
             unfold bind at 1. rewrite Huser. settled. }
           cbn [AuthContext.setToken AuthContext.setUser AuthContext.isLoading AuthContext.user
                AuthContext.token sent alerts sessionStorage fst snd].
           repeat (split; [assumption || reflexivity|]). left.
           split; [reflexivity|]. split; [assumption|].
           exists response, data. now rewrite Hok, Hparse, Huser.
    + eexists _, _. split.
      { unfold AuthSession.verifyToken, try_catch. rewrite (bind_inr _ _ _ _ _ Hfetch).
        rewrite Hok. settled. }
      cbn [AuthContext.setToken AuthContext.setUser AuthContext.isLoading AuthContext.user
           AuthContext.token sent alerts sessionStorage].
      repeat (split; [assumption || reflexivity|]). right. now rewrite Hstore.
Qed.

(** X27. The start-up check never rejects and always ends with
    [isLoading] false.  Without a stored token, or with an empty one, it
    sends nothing and changes nothing else.  With a stored token it sends
    exactly one request, carrying that token as the bearer; afterwards
    either the context holds that very token, storage is as it was and the
    server had answered with a success status and a JSON body whose
    [user] is now the context's user, or user and token are both cleared
    and the token is gone from storage. *)
Theorem checkAuth_settles (st : @AuthContext.state num) (b : browser) :
  let run := AuthSession.checkAuth (st, b) in
  let st' := fst (snd run) in
  let b' := snd (snd run) in
  fst run = inr tt
  /\ AuthContext.isLoading st' = false
  /\ alerts b' = alerts b
  /\ (opt_truthy (sessionStorage b !! "token") = false ->
      sent b' = sent b /\ sessionStorage b' = sessionStorage b
      /\ AuthContext.user st' = AuthContext.user st
      /\ AuthContext.token st' = AuthContext.token st)
  /\ (forall stored,
        sessionStorage b !! "token" = Some stored -> str_truthy stored = true ->
        sent b' = sent b ++ [AuthSession.checkRequest stored]
        /\ ((AuthContext.token st' = Some (JString stored)
             /\ sessionStorage b' = sessionStorage b
             /\ exists response data,
                  fst (fetch (AuthSession.checkRequest stored) (st, b)) = inr response
                  /\ ok (status response) = true
                  /\ JSON_parse (bodyText response) = inr data
                  /\ getProp data "user" = inr (AuthContext.user st'))
            \/ (AuthContext.user st' = None /\ AuthContext.token st' = None
                /\ sessionStorage b' = delete "token" (sessionStorage b)))).
Proof.
  intros run st' b'.
  destruct (opt_truthy (sessionStorage b !! "token")) eqn:Htruthy.
  - destruct (sessionStorage b !! "token") as [stored|] eqn:Hstored; [|discriminate].
    destruct (verifyToken_run stored st b)
      as (st1 & b1 & Hverify & Hloading & Hsent & Halerts & Hcases).
    assert (Hrun : run = (inr tt, (AuthContext.setIsLoading false st1, b1))).
    { subst run. unfold AuthSession.checkAuth, bind at 1, sessionStorage_getItem.
      cbn [fst snd]. rewrite Hstored, Htruthy.
      change (default EmptyString (Some stored)) with stored.
      unfold bind, try_catch. rewrite Hverify. reflexivity. }
    subst st' b'. rewrite Hrun. cbn [fst snd AuthContext.setIsLoading AuthContext.isLoading
                                      AuthContext.user AuthContext.token].
    split; [reflexivity|]. split; [reflexivity|]. split; [exact Halerts|].
    split; [discriminate|].
    intros stored' [= <-] _. split; [exact Hsent | exact Hcases].
  - assert (Hrun : run = (inr tt, (AuthContext.setIsLoading false st, b))).
    { subst run. unfold AuthSession.checkAuth, bind at 1, sessionStorage_getItem.
      cbn [fst snd]. rewrite Htruthy. reflexivity. }
    subst st' b'. rewrite Hrun. cbn [fst snd AuthContext.setIsLoading AuthContext.isLoading
                                      AuthContext.user AuthContext.token].
    split; [reflexivity|]. split; [reflexivity|]. split; [reflexivity|].
    split; [intros _; repeat split|].
    intros stored Hstored Hs. rewrite Hstored in Htruthy. cbn [opt_truthy] in Htruthy.
    congruence.
Qed.

(** X28. [logout] removes the stored token and the stored user and
    nothing else from session storage, clears user and token, sends no
    request and points the window at "/login"; a start-up check run
    after it finds nothing to verify, sends no request and leaves the
    context signed out. *)
Theorem logout_leaves_nothing_to_verify (st : @AuthContext.state num) (href : string)
    (b : browser) :
  let out := AuthSession.logout ((st, href), b) in
  let st1 := fst (fst (snd out)) in
  let b1 := snd (snd out) in
  let again := AuthSession.checkAuth (st1, b1) in
  fst out = inr tt
  /\ snd (fst (snd out)) = "/login"
  /\ AuthSession.isAuthenticated st1 = false
  /\ sent b1 = sent b
  /\ sessionStorage b1 !! "token" = None
  /\ sessionStorage b1 !! "user" = None
  /\ (forall key, key <> "token" -> key <> "user" ->
        sessionStorage b1 !! key = sessionStorage b !! key)
  /\ sent (snd (snd again)) = sent b
  /\ AuthSession.isAuthenticated (fst (snd again)) = false.
Proof.
  intros out st1 b1 again.
  assert (Hout : out =
    (inr tt, ((AuthContext.setToken None (AuthContext.setUser None st), "/login"),
              Browser (remote b) (sent b) (alerts b)
                (delete "user" (delete "token" (sessionStorage b)))))) by reflexivity.
  assert (Htoken : sessionStorage b1 !! "token" = None).
  { subst b1. rewrite Hout. cbn [snd sessionStorage].
    rewrite lookup_delete_ne by discriminate. apply lookup_delete_eq. }
  assert (Hagain : again = (inr tt, (AuthContext.setIsLoading false st1, b1))).
  { subst again. unfold AuthSession.checkAuth, bind at 1, sessionStorage_getItem.
    cbn [fst snd]. rewrite Htoken. reflexivity. }
  rewrite Hagain. subst st1 b1. rewrite Hout in *. cbn [fst snd sessionStorage sent] in *.
  split; [reflexivity|]. split; [reflexivity|]. split; [reflexivity|].
  split; [reflexivity|]. split; [exact Htoken|].
  split; [apply lookup_delete_eq|].
  split; [|split; reflexivity].
  intros key Ht Hu. now rewrite !lookup_delete_ne by congruence.
Qed.
End AuthSessionProperties.

(** ** The route guard *)

Lemma prefix_trans (a b c : string) :
  String.prefix a b = true -> String.prefix b c = true -> String.prefix a c = true.
Proof.
  revert b c. induction a as [|x a IH]; intros b c Hab Hbc; [now destruct c|].
  destruct b as [|y b]; [discriminate|]. destruct c as [|z c]; [discriminate|].
  cbn [String.prefix] in *.
  destruct (ascii_dec x y) as [->|]; [|discriminate].
  destruct (ascii_dec y z) as [->|]; [|discriminate].
  eauto.
Qed.

(** A text that includes a string includes each of its prefixes. *)
Lemma includes_prefix (hay needle needle' : string) :
  String.prefix needle' needle = true ->
  includes hay needle = true -> includes hay needle' = true.
Proof.
  intros Hprefix. induction hay as [|ch hay IH]; cbn [includes].
  - destruct (String.prefix needle EmptyString) eqn:Hhere; [|discriminate].
    intros _. now rewrite (prefix_trans _ _ _ Hprefix Hhere).
  - destruct (String.prefix needle (String ch hay)) eqn:Hhere.
    + intros _. now rewrite (prefix_trans _ _ _ Hprefix Hhere).
    + intros Hrest. rewrite (IH Hrest). now destruct (String.prefix needle' (String ch hay)).
Qed.

Section RouteGuardProperties.
Context {num : Type} {R : Runtime num} {E : Engine num}.

(** X29. While the context is loading, one pass of the effect of
    [ProtectedRoute] pushes no route: it only pushes the current URL on
    [window.history] and installs the handler that steps forward again.
    Once the context is not loading and not authenticated, it pushes
    "/login", for every path and whoever the user is, and does nothing
    else.  A signed-in teacher is sent to "/dashboard/teacher" exactly
    from the paths that include "/dashboard/student", a signed-in student
    to "/dashboard/student" exactly from the paths that include
    "/dashboard/teacher", and neither is redirected again at the path
    they were sent to; each of these passes ends with the push on the
    history and the handler. *)
Theorem redirect_by_role (user : jsval num) (pathname : string) (w : ProtectedRoute.window) :
  let sent_to (path : string) :=
    inr (ProtectedRoute.trapBack (ProtectedRoute.router_push path w)) in
  let stays := inr (ProtectedRoute.trapBack w) in
  (forall isAuthenticated,
     ProtectedRoute.effect true isAuthenticated user pathname w = stays)
  /\ ProtectedRoute.pushed (ProtectedRoute.trapBack w) = ProtectedRoute.pushed w
  /\ ProtectedRoute.history (ProtectedRoute.trapBack w)
     = ProtectedRoute.history w ++ [ProtectedRoute.href w]
  /\ ProtectedRoute.onpopstate (ProtectedRoute.trapBack w) = Some ProtectedRoute.goForward
  /\ ProtectedRoute.effect false false user pathname w
     = inr (ProtectedRoute.Window (ProtectedRoute.pushed w ++ ["/login"])
              (ProtectedRoute.href w) (ProtectedRoute.history w)
              (ProtectedRoute.onpopstate w))
  /\ (getPropOpt user "role" = Some (JString "teacher") ->
      ProtectedRoute.effect false true user pathname w
        = (if includes pathname "/dashboard/student" then sent_to "/dashboard/teacher"
           else stays)
      /\ ProtectedRoute.effect false true user "/dashboard/teacher" w = stays)
  /\ (getPropOpt user "role" = Some (JString "student") ->
      ProtectedRoute.effect false true user pathname w
        = (if includes pathname "/dashboard/teacher" then sent_to "/dashboard/student"
           else stays)
      /\ ProtectedRoute.effect false true user "/dashboard/student" w = stays).
Proof.
  intros sent_to stays.
  split; [reflexivity|]. split; [reflexivity|]. split; [reflexivity|].
  split; [reflexivity|]. split; [reflexivity|].
  assert (Huser : forall role, getPropOpt user "role" = Some role -> val_truthy user = true).
  { intros role. destruct user as [[| | | | |props]|]; try discriminate. reflexivity. }
  assert (Hstudent : includes pathname "/dashboard/" = false ->
                     includes pathname "/dashboard/student" = false).
  { intros Hnone. destruct (includes pathname "/dashboard/student") eqn:Hin; [|reflexivity].
    rewrite (includes_prefix pathname "/dashboard/student" "/dashboard/") in Hnone;
      [discriminate | reflexivity | exact Hin]. }
  assert (Hteacher : includes pathname "/dashboard/" = false ->
                     includes pathname "/dashboard/teacher" = false).
  { intros Hnone. destruct (includes pathname "/dashboard/teacher") eqn:Hin; [|reflexivity].
    rewrite (includes_prefix pathname "/dashboard/teacher" "/dashboard/") in Hnone;
      [discriminate | reflexivity | exact Hin]. }
  split; intros Hrole;
    (split; [|unfold ProtectedRoute.effect; rewrite (Huser _ Hrole), Hrole; reflexivity]).
  - unfold ProtectedRoute.effect. rewrite (Huser _ Hrole), Hrole.
    cbn [negb andb strictEqStr ToString toString].
    destruct (includes pathname "/dashboard/") eqn:Hdash.
    + change (String.eqb "teacher" "teacher") with true.
      change (String.eqb "teacher" "student") with false.
      cbn [negb]. rewrite andb_false_r, andb_true_r. cbn [orb].
      now destruct (includes pathname "/dashboard/student").
    + now rewrite (Hstudent eq_refl).
  - unfold ProtectedRoute.effect. rewrite (Huser _ Hrole), Hrole.
    cbn [negb andb strictEqStr ToString toString].
    destruct (includes pathname "/dashboard/") eqn:Hdash.
    + change (String.eqb "student" "teacher") with false.
      change (String.eqb "student" "student") with true.
      cbn [negb]. rewrite andb_false_r, andb_true_r, orb_false_r.
      now destruct (includes pathname "/dashboard/teacher").
    + now rewrite (Hteacher eq_refl).
Qed.
End RouteGuardProperties.

(** ** The registration form *)

Section RegisterProperties.
Context {num : Type} {R : Runtime num} {B : Backend}.

Lemma str_or_truthy (s d : string) : d <> EmptyString -> str_or s d <> EmptyString.
Proof.
  intros Hd. unfold str_or. destruct (str_truthy s) eqn:Hs; [|exact Hd].
  now apply str_truthy_true.
Qed.

(** X30. [handleSubmit] never rejects, sends exactly one request, whose
    body is the payload of the form as it was, keeps the form and always
    ends with [isLoading] false.  It ends in one of two ways: the router
    is pushed to "/login?registered=true" and no error is shown, which
    happens only when the server answered with a success status and a
    body that parses as JSON; or nothing is pushed and a non-empty error
    is shown. *)
Theorem handleSubmit_outcomes (st : RegisterPage.state) (b : browser) :
  let run := RegisterPage.handleSubmit (st, b) in
  let st' := fst (snd run) in
  let request := RegisterPage.registerRequest (RegisterPage.form st) in
  fst run = inr tt
  /\ RegisterPage.isLoading st' = false
  /\ RegisterPage.form st' = RegisterPage.form st
  /\ sent (snd (snd run)) = sent b ++ [request]
  /\ ((RegisterPage.pushed st' = RegisterPage.pushed st ++ ["/login?registered=true"]
       /\ RegisterPage.error st' = EmptyString
       /\ exists res data,
            fst (fetch request (st, b)) = inr res
            /\ ok (status res) = true
            /\ JSON_parse (bodyText res) = inr data)
      \/ (RegisterPage.pushed st' = RegisterPage.pushed st
          /\ RegisterPage.error st' <> EmptyString)).
Proof.
  intros run st' request.
  set (st0 := RegisterPage.setError EmptyString (RegisterPage.setIsLoading true st)).
  assert (Hunfold : run =
    finally
      (try_catch
         (res <- fetch request ;;
          data <- lift (JSON_parse (bodyText res)) ;;
          if negb (ok (status res)) then
            e <- lift (getProp data "error") ;;
            text <- lift (ToString (js_or e (Some (JString "Registration failed")))) ;;
            throw (Error text)
          else set_state (RegisterPage.router_push "/login?registered=true"))
         (fun err => set_state (RegisterPage.setError
                                  (str_or (message err) "Registration failed"))))
      (RegisterPage.setIsLoading false) (st0, b)) by reflexivity.
  assert (Hsame : forall s : RegisterPage.state, fetch request (st0, b)
                            = (fst (fetch request (s, b)),
                               (st0, snd (snd (fetch request (s, b)))))).
  { intros s. unfold fetch. cbn [fst snd].
    now destruct (serve (remote b) request) as [[e|res] remote']. }
  pose proof (fetch_sent request (st, b)) as (_ & Hsent & _).
  cbn [fst snd] in Hsent.
  destruct (fetch request (st, b)) as [[e|res] [st1 b1]] eqn:Hfetch;
    specialize (Hsame st); rewrite Hfetch in Hsame; cbn [fst snd] in Hsame, Hsent.
  - assert (Hrun : run =
      (inr tt, (RegisterPage.setIsLoading false
                  (RegisterPage.setError (str_or (message e) "Registration failed") st0), b1))).
    { rewrite Hunfold. unfold finally, try_catch. now rewrite (bind_inl _ _ _ _ _ Hsame). }
    subst st'. rewrite Hrun. cbn [fst snd]. repeat (split; [reflexivity || assumption|]).
    right. split; [reflexivity|]. now apply str_or_truthy.
  - destruct (JSON_parse (bodyText res)) as [e|data] eqn:Hparse.
    + assert (Hrun : run =
        (inr tt, (RegisterPage.setIsLoading false
                    (RegisterPage.setError (str_or (message e) "Registration failed") st0), b1))).
      { rewrite Hunfold. unfold finally, try_catch. rewrite (bind_inr _ _ _ _ _ Hsame).
        unfold bind at 1, lift. now rewrite Hparse. }
      subst st'. rewrite Hrun. cbn [fst snd]. repeat (split; [reflexivity || assumption|]).
      right. split; [reflexivity|]. now apply str_or_truthy.
    + destruct (ok (status res)) eqn:Hok.
      * assert (Hrun : run =
          (inr tt, (RegisterPage.setIsLoading false
                      (RegisterPage.router_push "/login?registered=true" st0), b1))).
        { rewrite Hunfold. unfold finally, try_catch. rewrite (bind_inr _ _ _ _ _ Hsame).
          unfold bind at 1, lift. now rewrite Hparse, Hok. }
        subst st'. rewrite Hrun. cbn [fst snd]. repeat (split; [reflexivity || assumption|]).
        left. split; [reflexivity|]. split; [reflexivity|].
        exists res, data. now rewrite Hok, Hparse.
      * assert (Hrun : exists text, run =
          (inr tt, (RegisterPage.setIsLoading false
                      (RegisterPage.setError (str_or text "Registration failed") st0), b1))).
        { rewrite Hunfold. unfold finally, try_catch. rewrite (bind_inr _ _ _ _ _ Hsame).
          unfold bind at 1, lift. rewrite Hparse, Hok. cbn [negb]. unfold bind, throw.
          destruct (getProp data "error") as [e|v]; [eexists; reflexivity|].
          destruct (ToString _) as [e|text]; eexists; reflexivity. }
        destruct Hrun as [text Hrun].
        subst st'. rewrite Hrun. cbn [fst snd]. repeat (split; [reflexivity || assumption|]).
        right. split; [reflexivity|]. now apply str_or_truthy.
Qed.
End RegisterProperties.

(** ** The further properties at work *)

Section FurtherExamples.
Import Sample Scenario MoreScenarios.

(** X2, on a 502 whose body is [null]. *)
Lemma apiFetch_non_success_non_object_witness :
  fst (apiFetch (St := unit) "/profile" "GET" (Some "t0k3n") JNull (tt, badGateway))
  = inl (Error "null (Status: 502)").
Proof.
  pose (s := (tt, badGateway)).
  pose (req := apiRequest "/profile" "GET" (Some "t0k3n") (JNull : json Z)).
  assert (Hfetch : fetch req s = (inr (Response 502 "null"), snd (fetch req s)))
    by (vm_compute; reflexivity).
  assert (Hparse : JSON_parse "null" = inr (JNull : json Z)) by (vm_compute; reflexivity).
  fold s.
  rewrite (apiFetch_non_success_non_object "/profile" "GET" (Some "t0k3n") JNull
             s (snd (fetch req s)) _ JNull Hfetch eq_refl Hparse ltac:(discriminate)).
  vm_compute. reflexivity.
Defined.

(** X4, on a backend that returns the course joined, and on one that
    names the teacher by a number. *)
Lemma handleJoinCourse_appends_witness :
  StudentDashboard.joinedCourses
    (fst (snd (StudentDashboard.handleJoinCourse (student, enrolled))))
  = threeCourses ++ [JObject [("course_id", JNum 12)]]
  /\ fst (snd (StudentDashboard.handleJoinCourse (student, enrolledOddTeacher))) = student.
Proof.
  pose (payload := JObject [("course_id", JNum 12); ("teacher_name", JString "Ms Lee")]
                   : json Z).
  assert (Hid : Number_parseInt (StudentDashboard.joinData_course_id student) = Some 12)
    by (vm_compute; reflexivity).
  assert (Hname : String_trim (StudentDashboard.joinData_name student) <> EmptyString)
    by (vm_compute; discriminate).
  split.
  - pose (props := [("message", JString "ok"); ("course_title", JString "Algebra");
                    ("course_id", JNum 12); ("teacher_name", JString "Ms Lee");
                    ("course", JObject [("course_id", JNum 12)])]
                   : list (string * json Z)).
    pose (s' := snd (apiFetch "/enroll" "POST" (Some "t0k3n") payload (student, enrolled))).
    assert (Hfetch :
      apiFetch "/enroll" "POST" (StudentDashboard.token student)
        (JObject [("course_id", JNum (num_of_Z 12));
                  ("teacher_name",
                   JString (String_trim (StudentDashboard.joinData_name student)))])
        (student, enrolled)
      = (inr (JObject props), (fst s', snd s')))
      by (vm_compute; reflexivity).
    destruct (handleJoinCourse_appends_returned_course student (fst s') enrolled (snd s') 12
                props (JObject [("course_id", JNum 12)])
                Hid eq_refl Hname Hfetch eq_refl eq_refl)
      as (Hbuilt & _ & _).
    destruct (Hbuilt ltac:(intros v [= <-] _; now exists "Ms Lee")
                "ok" "Algebra" "12" eq_refl eq_refl eq_refl)
      as (teacherInfo & _ & Hrun).
    rewrite Hrun. reflexivity.
  - pose (props := [("teacher_name", JNum 5); ("course", JObject [("course_id", JNum 12)])]
                   : list (string * json Z)).
    pose (s' := snd (apiFetch "/enroll" "POST" (Some "t0k3n") payload
                       (student, enrolledOddTeacher))).
    assert (Hfetch :
      apiFetch "/enroll" "POST" (StudentDashboard.token student)
        (JObject [("course_id", JNum (num_of_Z 12));
                  ("teacher_name",
                   JString (String_trim (StudentDashboard.joinData_name student)))])
        (student, enrolledOddTeacher)
      = (inr (JObject props), (fst s', snd s')))
      by (vm_compute; reflexivity).
    destruct (handleJoinCourse_appends_returned_course student (fst s') enrolledOddTeacher
                (snd s') 12 props (JObject [("course_id", JNum 12)])
                Hid eq_refl Hname Hfetch eq_refl eq_refl)
      as (_ & Hnumber & _).
    destruct (Hnumber (JNum 5) eq_refl eq_refl ltac:(discriminate)) as (text & Hrun & _).
    rewrite Hrun. reflexivity.
Defined.

(** X5, on a backend that returns no course: the form is cleared; and
    on one that answers [null]: nothing changes. *)
Lemma handleJoinCourse_refreshes_witness :
  StudentDashboard.joinData_course_id
    (fst (snd (StudentDashboard.handleJoinCourse (student, enrolledWithoutCourse))))
  = EmptyString
  /\ fst (snd (StudentDashboard.handleJoinCourse (student, enrolledNull))) = student.
Proof.
  pose (payload := JObject [("course_id", JNum 12); ("teacher_name", JString "Ms Lee")]
                   : json Z).
  assert (Hid : Number_parseInt (StudentDashboard.joinData_course_id student) = Some 12)
    by (vm_compute; reflexivity).
  assert (Hname : String_trim (StudentDashboard.joinData_name student) <> EmptyString)
    by (vm_compute; discriminate).
  split.
  - pose (props := [("message", JString "ok"); ("teacher_name", JString "Ms Lee")]
                   : list (string * json Z)).
    pose (s' := snd (apiFetch "/enroll" "POST" (Some "t0k3n") payload
                       (student, enrolledWithoutCourse))).
    assert (Hfetch :
      apiFetch "/enroll" "POST" (StudentDashboard.token student)
        (JObject [("course_id", JNum (num_of_Z 12));
                  ("teacher_name",
                   JString (String_trim (StudentDashboard.joinData_name student)))])
        (student, enrolledWithoutCourse)
      = (inr (JObject props), (fst s', snd s')))
      by (vm_compute; reflexivity).
    destruct (handleJoinCourse_refreshes_without_course student (fst s') enrolledWithoutCourse
                (snd s') 12 (JObject props) Hid eq_refl Hname Hfetch)
      as (_ & Hobject).
    destruct (Hobject props eq_refl eq_refl) as (Hbuilt & _ & _).
    destruct (Hbuilt ltac:(intros v [= <-] _; now exists "Ms Lee")
                "ok" "undefined" "undefined" eq_refl eq_refl eq_refl)
      as (teacherInfo & s2 & _ & _ & Hrun).
    destruct (apiFetch "/student/enrollments" "GET" (StudentDashboard.token student) JNull s2)
      as [[e|enrollments] s3].
    + destruct Hrun as [failure Hrun]. now rewrite Hrun.
    + destruct Hrun as [Hrun _]. now rewrite Hrun.
  - pose (s' := snd (apiFetch "/enroll" "POST" (Some "t0k3n") payload (student, enrolledNull))).
    assert (Hfetch :
      apiFetch "/enroll" "POST" (StudentDashboard.token student)
        (JObject [("course_id", JNum (num_of_Z 12));
                  ("teacher_name",
                   JString (String_trim (StudentDashboard.joinData_name student)))])
        (student, enrolledNull)
      = (inr JNull, (fst s', snd s')))
      by (vm_compute; reflexivity).
    destruct (handleJoinCourse_refreshes_without_course student (fst s') enrolledNull
                (snd s') 12 JNull Hid eq_refl Hname Hfetch)
      as (Hnull & _).
    destruct (Hnull eq_refl) as (text & Hrun & _).
    rewrite Hrun. reflexivity.
Defined.

(** X6, on a refused enrolment. *)
Lemma handleJoinCourse_failure_keeps_state_witness :
  fst (snd (StudentDashboard.handleJoinCourse (student, teacherMismatch))) = student.
Proof.
  pose (payload := JObject [("course_id", JNum 12); ("teacher_name", JString "Ms Lee")]
                   : json Z).
  pose (s' := snd (apiFetch "/enroll" "POST" (Some "t0k3n") payload (student, teacherMismatch))).
  assert (Hfetch :
    apiFetch "/enroll" "POST" (StudentDashboard.token student)
      (JObject [("course_id", JNum (num_of_Z 12));
                ("teacher_name", JString (String_trim (StudentDashboard.joinData_name student)))])
      (student, teacherMismatch)
    = (inl (Error "teacher does not match (Status: 400)"), s'))
    by (vm_compute; reflexivity).
  assert (Hid : Number_parseInt (StudentDashboard.joinData_course_id student) = Some 12)
    by (vm_compute; reflexivity).
  assert (Hname : String_trim (StudentDashboard.joinData_name student) <> EmptyString)
    by (vm_compute; discriminate).
  exact (proj1 (proj2 (handleJoinCourse_failure_keeps_state student teacherMismatch 12 _ s'
                         Hid eq_refl Hname Hfetch))).
Defined.

(** X7, on three courses. *)
Lemma fanOut_one_request_per_course_witness :
  List.map url
    (sent (snd (snd (StudentDashboard.fanOut "materials" (Some "t0k3n") threeCourses
                       (student, allCoursesUp)))))
  = [api "/classrooms/1/materials"; api "/classrooms/2/materials";
     api "/classrooms/3/materials"].
Proof.
  pose (run := StudentDashboard.fanOut "materials" (Some "t0k3n") threeCourses
                 (student, allCoursesUp)).
  pose (p := [inr (JArray []); inr (JArray [material 8]); inr (JArray [])]
             : list (exn + json Z)).
  assert (Hfan : run = (inr p, snd run)) by (vm_compute; reflexivity).
  destruct (fanOut_one_request_per_course "materials" (Some "t0k3n") threeCourses
              (student, allCoursesUp) (snd run) p Hfan) as [_ Hsent].
  fold run. rewrite Hsent. vm_compute. reflexivity.
Defined.

(** X9, on an accepted announcement. *)
Lemma handleCreateAnnouncement_prepends_witness :
  List.map (fun a => getPropOpt (Some a) "title")
    (TeacherDashboard.announcements
       (fst (snd (TeacherDashboard.handleCreateAnnouncement (teacherReady, announcementPosted)))))
  = [Some (JString "Exam"); None].
Proof.
  pose (payload := JObject [("course_id", JNum 3); ("title", JString "Exam");
                            ("content", JString "Exam on Friday"); ("is_pinned", JBool true)]
                   : json Z).
  pose (props := [("announcement_id", JNum 9); ("title", JString "Exam")]
                 : list (string * json Z)).
  pose (s' := snd (apiFetch "/announcements" "POST" (Some "t0k3n") payload
                     (teacherReady, announcementPosted))).
  assert (Hfetch :
    apiFetch "/announcements" "POST" (TeacherDashboard.token teacherReady) payload
      (teacherReady, announcementPosted)
    = (inr (JObject props), (fst s', snd s')))
    by (vm_compute; reflexivity).
  destruct (handleCreateAnnouncement_prepends teacherReady (fst s') announcementPosted (snd s')
              payload props eq_refl ltac:(discriminate) ltac:(discriminate) eq_refl Hfetch)
    as (entry & Hrun & Htitle & _).
  rewrite Hrun. cbn [fst snd TeacherDashboard.announcements List.map].
  rewrite Htitle. reflexivity.
Defined.

(** X10, on a backend without the route. *)
Lemma handleCreateAnnouncement_failure_witness :
  fst (snd (TeacherDashboard.handleCreateAnnouncement (teacherReady, browserOn [])))
  = teacherReady
  /\ alerts (snd (snd (TeacherDashboard.handleCreateAnnouncement (teacherReady, browserOn []))))
     = ["An error occurred while creating the announcement: Request failed (Status: 404) (Status: 404)"].
Proof.
  pose (payload := JObject [("course_id", JNum 3); ("title", JString "Exam");
                            ("content", JString "Exam on Friday"); ("is_pinned", JBool true)]
                   : json Z).
  pose (s' := snd (apiFetch "/announcements" "POST" (Some "t0k3n") payload
                     (teacherReady, browserOn []))).
  assert (Hfetch :
    apiFetch "/announcements" "POST" (TeacherDashboard.token teacherReady) payload
      (teacherReady, browserOn [])
    = (inl (Error "Request failed (Status: 404) (Status: 404)"), s'))
    by (vm_compute; reflexivity).
  rewrite (handleCreateAnnouncement_failure_keeps_state teacherReady (browserOn []) payload _ s'
             eq_refl ltac:(discriminate) ltac:(discriminate) eq_refl Hfetch).
  split; reflexivity.
Defined.


(** X13, on refused credentials. *)
Lemma login_non_success_message_witness :
  fst (AuthContext.login "ann@edu.example" "pw" (signedOut, loginRefused))
  = inl (Error "Invalid credentials").
Proof.
  pose (s := (AuthContext.setIsLoading true signedOut, loginRefused)).
  pose (req := AuthContext.loginRequest "ann@edu.example" "pw").
  pose (props := [("message", JString "Invalid credentials")] : list (string * json Z)).
  assert (Hfetch : fetch req s =
                   (inr (Response 401 (stringify (JObject props))),
                    (fst (snd (fetch req s)), snd (snd (fetch req s)))))
    by (vm_compute; reflexivity).
  destruct (login_non_success_message "ann@edu.example" "pw" signedOut _ loginRefused _ _
              Hfetch eq_refl) as (_ & Hmessage & _).
  destruct (Hmessage props (JString "Invalid credentials")) as [Htext _].
  - vm_compute. reflexivity.
  - reflexivity.
  - reflexivity.
  - exact (Htext "Invalid credentials" eq_refl).
Defined.

(** X14, 400 ms after the deadline. *)
Lemma relative_label_agrees_with_over_witness :
  isDueDateOver 4070908800400 (Some due2099) = true
  /\ getRelativeTime 4070908800400 (Some due2099) = "due in 0 seconds".
Proof.
  assert (Hdue : Date_parse due2099 = Some 4070908800000) by (vm_compute; reflexivity).
  destruct (relative_label_agrees_with_over 4070908800400 4070908800000 due2099
              ltac:(discriminate) Hdue) as (_ & _ & Hjust).
  apply Hjust. lia.
Defined.

(** X20, on a list of enrolments wrapped in an object. *)
Lemma loadJoinedCourses_non_array_witness :
  StudentDashboard.joinedCourses
    (fst (snd (StudentLoaders.loadJoinedCourses (student, enrollmentsWrapped)))) = [].
Proof.
  pose (s' := snd (apiFetch "/student/enrollments" "GET" (Some "t0k3n") (JNull : json Z)
                     (student, enrollmentsWrapped))).
  assert (Hfetch :
    apiFetch "/student/enrollments" "GET" (StudentDashboard.token student) JNull
      (student, enrollmentsWrapped)
    = (inr (JObject [("enrollments", JArray threeCourses)]), s'))
    by (vm_compute; reflexivity).
  exact (proj1 (loadJoinedCourses_non_array student enrollmentsWrapped _ s'
                  eq_refl Hfetch ltac:(discriminate))).
Defined.

(** X21, on a backend without the route: the three courses stay. *)
Lemma loadJoinedCourses_failure_witness :
  StudentDashboard.joinedCourses
    (fst (snd (StudentLoaders.loadJoinedCourses (student, browserOn [])))) = threeCourses.
Proof.
  pose (s' := snd (apiFetch "/student/enrollments" "GET" (Some "t0k3n") (JNull : json Z)
                     (student, browserOn []))).
  assert (Hfetch :
    apiFetch "/student/enrollments" "GET" (StudentDashboard.token student) JNull
      (student, browserOn [])
    = (inl (Error "Request failed (Status: 404) (Status: 404)"), s'))
    by (vm_compute; reflexivity).
  destruct (loadJoinedCourses_failure_keeps_courses student (browserOn []) _ s' eq_refl Hfetch)
    as [Hrun Hst].
  rewrite Hrun. cbn [snd]. now rewrite Hst.
Defined.

(** X22, on a list under [classrooms] with a course without title. *)
Lemma loadCourses_normalizes_witness :
  List.map (fun c => (getPropOpt (Some c) "title", getPropOpt (Some c) "students"))
    (TeacherCourses.courses
       (fst (snd (TeacherCourses.loadCourses (teacherHome, coursesListed)))))
  = [(Some (JString "Untitled Course"), Some (JNum 0));
     (Some (JString "Algebra"), Some (JNum 4))].
Proof.
  pose (s := (teacherHome, coursesListed)).
  pose (req := TeacherCourses.coursesRequest "t0k3n").
  pose (untitled := JObject [("course_id", JNum 1); ("title", JString EmptyString)] : json Z).
  pose (algebra := JObject [("course_id", JNum 2); ("title", JString "Algebra");
                            ("students", JNum 4)] : json Z).
  pose (props := [("classrooms", JArray [untitled; algebra])] : list (string * json Z)).
  assert (Hfetch : fetch req s = (inr (Response 200 (stringify (JObject props))),
                                  snd (fetch req s)))
    by (vm_compute; reflexivity).
  assert (Hparse : JSON_parse (stringify (JObject props)) = inr (JObject props))
    by (vm_compute; reflexivity).
  destruct (loadCourses_normalizes teacherHome coursesListed _ (snd (fetch req s))
              (JObject props) eq_refl eq_refl Hfetch eq_refl Hparse) as [_ Hmade].
  specialize (Hmade [untitled; algebra]).
  remember (TeacherCourses.courses
              (fst (snd (TeacherCourses.loadCourses (teacherHome, coursesListed)))))
    as after eqn:Hafter.
  clear Hafter.
  assert (Hentries : Forall2
            (fun item c : json Z =>
               getPropOpt (Some c) "title"
               = (if val_truthy (getPropOpt (Some item) "title")
                  then getPropOpt (Some item) "title" else Some (JString "Untitled Course"))
               /\ getPropOpt (Some c) "students"
                  = match getPropOpt (Some item) "students" with
                    | Some (JNum n) => Some (JNum n)
                    | _ => Some (JNum 0)
                    end)
            [untitled; algebra] after).
  { eapply Forall2_impl; [apply Hmade|].
    - right. left. exists props. split; [reflexivity|]. split; [discriminate|reflexivity].
    - repeat constructor; discriminate.
    - intros item c (_ & Htitle & Huntitled & [Hcount Hzero] & _). split.
      + destruct (val_truthy (getPropOpt (Some item) "title")); auto.
      + destruct (getPropOpt (Some item) "students") as [[| | n | | |]|];
          try (apply Hzero; discriminate).
        now apply Hcount. }
  inversion Hentries as [|? c1 ? rest1 [Ht1 Hs1] Hrest1]; subst.
  inversion Hrest1 as [|? c2 ? rest2 [Ht2 Hs2] Hrest2]; subst.
  inversion Hrest2; subst.
  cbn [List.map]. rewrite Ht1, Hs1, Ht2, Hs2. reflexivity.
Defined.

(** X23, on a list with a [null] entry. *)
Lemma loadCourses_by_shape_witness :
  TeacherCourses.courses
    (fst (snd (TeacherCourses.loadCourses (teacherHome, coursesWithNull)))) = [].
Proof.
  pose (s := (teacherHome, coursesWithNull)).
  pose (req := TeacherCourses.coursesRequest "t0k3n").
  pose (items := [JObject [("course_id", JNum 1)]; JNull] : list (json Z)).
  assert (Hfetch : fetch req s = (inr (Response 200 (stringify (JArray items))),
                                  snd (fetch req s)))
    by (vm_compute; reflexivity).
  destruct (loadCourses_by_shape teacherHome coursesWithNull _ (snd (fetch req s))
              eq_refl eq_refl Hfetch) as (_ & _ & Harray & _).
  destruct (Harray items eq_refl ltac:(vm_compute; reflexivity)) as [_ Hnull].
  apply Hnull. right. left. reflexivity.
Defined.


(** X29, for a teacher on a student page. *)
Lemma redirect_by_role_witness :
  ProtectedRoute.effect false true (Some teacherUser) "/dashboard/student/courses"
    (ProtectedRoute.Window [] "http://localhost:3000/dashboard/student/courses" [] None)
  = inr (ProtectedRoute.Window ["/dashboard/teacher"]
           "http://localhost:3000/dashboard/student/courses"
           ["http://localhost:3000/dashboard/student/courses"]
           (Some ProtectedRoute.goForward)).
Proof.
  destruct (redirect_by_role (Some teacherUser) "/dashboard/student/courses"
              (ProtectedRoute.Window [] "http://localhost:3000/dashboard/student/courses"
                 [] None))
    as (_ & _ & _ & _ & _ & Hteacher & _).
  destruct (Hteacher eq_refl) as [Hpath _].
  rewrite Hpath. reflexivity.
Defined.


End FurtherExamples.
